(** * DataJud agent: identifier extraction, court routing, query building
      and response normalisation (src/datajud_agent.py)

    A shallow embedding of the [DatajudAgent] class.  Python [str] values
    are Rocq strings, one [ascii] per code point (code points below 256);
    Python dictionaries with string keys that the module declares as
    constants are [gmap string _]; JSON documents (requests and responses)
    are values of the inductive type [json]; logging calls and raised
    exceptions are threaded through a small writer/exception monad. *)

From Stdlib Require Import String Ascii List ZArith Lia Bool DecimalString.
From stdpp Require Import base option list gmap strings.

Local Open Scope string_scope.
Local Open Scope list_scope.

Set Warnings "-register-all".

(** ** Character classes of Python's [re] module on [str] patterns *)

Module Chars.

Definition code (c : ascii) : nat := nat_of_ascii c.

Definition between (lo hi : nat) (c : ascii) : bool :=
  (lo <=? code c)%nat && (code c <=? hi)%nat.

(** [\d]: the decimal digits (Unicode category Nd); below code point 256
    these are exactly '0'..'9'. *)
Definition is_decimal (c : ascii) : bool := between 48 57 c.

(** [str.isalnum] on one code point below 256: ASCII letters and digits,
    the Latin-1 letters (a feminine/masculine ordinal, micro sign,
    U+00C0..U+00FF without the multiplication and division signs), the
    superscript digits and the vulgar fractions. *)
Definition is_alnum (c : ascii) : bool :=
  between 48 57 c || between 65 90 c || between 97 122 c
  || between 170 170 c || between 178 179 c || between 181 181 c
  || between 185 186 c || between 188 190 c
  || between 192 214 c || between 216 246 c || between 248 255 c.

(** [\w]: alphanumeric or underscore. *)
Definition is_word (c : ascii) : bool := is_alnum c || Ascii.eqb c "_".

End Chars.

(** ** The fragment of regular expressions used by the agent *)

Module Re.
Import Chars.

(** Items of a pattern: [\b], [\d] and a literal character.  A counted
    repetition [\d{n}] is [n] consecutive [Digit] items. *)
Inductive atom : Type :=
| Boundary
| Digit
| Lit (c : ascii).

Definition head_char (s : string) : option ascii :=
  match s with
  | String c _ => Some c
  | EmptyString => None
  end.

Definition is_word_opt (o : option ascii) : bool :=
  match o with
  | Some c => is_word c
  | None => false
  end.

(** [\b] holds between two positions when exactly one side is a word
    character; the outside of the string counts as a non-word character. *)
Definition at_boundary (prev next : option ascii) : bool :=
  xorb (is_word_opt prev) (is_word_opt next).

(** Match the pattern [p] at the current position: [prev] is the character
    just before it, [s] the rest of the text.  Returns group 0. *)
Fixpoint match_here (p : list atom) (prev : option ascii) (s : string)
  : option string :=
  match p with
  | [] => Some EmptyString
  | Boundary :: p' =>
      if at_boundary prev (head_char s) then match_here p' prev s else None
  | Digit :: p' =>
      match s with
      | String c s' =>
          if is_decimal c then String c <$> match_here p' (Some c) s'
          else None
      | EmptyString => None
      end
  | Lit a :: p' =>
      match s with
      | String c s' =>
          if Ascii.eqb c a then String c <$> match_here p' (Some c) s'
          else None
      | EmptyString => None
      end
  end.

(** [re.search]: try every start position from left to right, the end
    of the text included. *)
Fixpoint search_from (p : list atom) (prev : option ascii) (s : string)
  : option string :=
  match match_here p prev s with
  | Some m => Some m
  | None =>
      match s with
      | String c s' => search_from p (Some c) s'
      | EmptyString => None
      end
  end.

Definition search (p : list atom) (text : string) : option string :=
  search_from p None text.

End Re.

(** ** Python values, exceptions and logging *)

Module Py.

(** JSON documents, as [json.loads] / [response.json()] produce them and
    as the agent builds them for request bodies.  An object keeps its
    keys in insertion order; looking a key up takes its first binding. *)
Inductive json : Type :=
| JNull
| JBool (b : bool)
| JNum (n : Z)
| JReal (literal : string)
| JStr (s : string)
| JArr (items : list json)
| JObj (fields : list (string * json)).

Inductive exn_kind : Type :=
| ValueError
| AttributeError
| TypeError
| IndexError
| RequestException.

Record exn : Type := Exn { kind : exn_kind; message : string }.

Inductive outcome (A : Type) : Type :=
| Return (a : A)
| Raise (e : exn).
Arguments Return {A} a.
Arguments Raise {A} e.

#[global] Instance outcome_ret : MRet outcome := fun A a => Return a.
#[global] Instance outcome_bind : MBind outcome := fun A B f m =>
  match m with
  | Return a => f a
  | Raise e => Raise e
  end.
#[global] Instance outcome_fmap : FMap outcome := fun A B f m =>
  match m with
  | Return a => Return (f a)
  | Raise e => Raise e
  end.

Definition type_name (v : json) : string :=
  match v with
  | JNull => "NoneType"
  | JBool _ => "bool"
  | JNum _ => "int"
  | JReal _ => "float"
  | JStr _ => "str"
  | JArr _ => "list"
  | JObj _ => "dict"
  end.

Fixpoint assoc (k : string) (fields : list (string * json)) : option json :=
  match fields with
  | [] => None
  | (k', v) :: rest => if String.eqb k k' then Some v else assoc k rest
  end.

(** [v.get(k, d)]: only a dict has the method. *)
Definition get (v : json) (k : string) (d : json) : outcome json :=
  match v with
  | JObj fields => Return (default d (assoc k fields))
  | _ =>
      Raise (Exn AttributeError
               ("'" +:+ type_name v +:+ "' object has no attribute 'get'"))
  end.

Fixpoint chars (s : string) : list json :=
  match s with
  | EmptyString => []
  | String c s' => JStr (String c EmptyString) :: chars s'
  end.

(** [for x in v]: a list yields its items, a dict its keys, a string its
    characters; nothing else is iterable. *)
Definition iter (v : json) : outcome (list json) :=
  match v with
  | JArr items => Return items
  | JObj fields => Return (JStr <$> remove_dups (fields.*1))
  | JStr s => Return (chars s)
  | _ =>
      Raise (Exn TypeError ("'" +:+ type_name v +:+ "' object is not iterable"))
  end.

(** [len(v)]. *)
Definition len (v : json) : outcome nat :=
  match v with
  | JArr items => Return (length items)
  | JObj fields => Return (length (remove_dups (fields.*1)))
  | JStr s => Return (String.length s)
  | _ =>
      Raise (Exn TypeError ("object of type '" +:+ type_name v +:+ "' has no len()"))
  end.

(** [d[k] = x] on a dict: replace the binding in place or add it last. *)
Fixpoint update (k : string) (x : json) (fields : list (string * json))
  : list (string * json) :=
  match fields with
  | [] => [(k, x)]
  | (k', v) :: rest =>
      if String.eqb k k' then (k', x) :: rest else (k', v) :: update k x rest
  end.

(** [v[k] = x] for a string key [k]. *)
Definition set_item (v : json) (k : string) (x : json) : outcome json :=
  match v with
  | JObj fields => Return (JObj (update k x fields))
  | JArr _ =>
      Raise (Exn TypeError "list indices must be integers or slices, not str")
  | _ =>
      Raise (Exn TypeError
               ("'" +:+ type_name v +:+ "' object does not support item assignment"))
  end.

(** [str.split(sep)] for a one-character separator. *)
Fixpoint split (sep : ascii) (s : string) : list string :=
  match s with
  | EmptyString => [EmptyString]
  | String c s' =>
      if Ascii.eqb c sep then EmptyString :: split sep s'
      else
        match split sep s' with
        | part :: parts => String c part :: parts
        | [] => [String c EmptyString]
        end
  end.

(** [str.replace(old, '')] for a one-character [old]. *)
Fixpoint remove_char (old : ascii) (s : string) : string :=
  match s with
  | EmptyString => EmptyString
  | String c s' =>
      if Ascii.eqb c old then remove_char old s' else String c (remove_char old s')
  end.

(** Truth value of a string: the empty string is false. *)
Definition truthy (s : string) : bool :=
  match s with
  | EmptyString => false
  | String _ _ => true
  end.

(** Calls to the module's logger, in program order. *)
Inductive level : Type := DEBUG | INFO | WARNING | ERROR.

Definition record : Type := level * string.

(** A computation that logs and then returns or raises. *)
Record M (A : Type) : Type := Run { result : outcome A; logged : list record }.
Arguments Run {A} result logged.
Arguments result {A} m.
Arguments logged {A} m.

#[global] Instance M_ret : MRet M := fun A a => Run (Return a) [].
#[global] Instance M_bind : MBind M := fun A B f m =>
  match result m with
  | Return a => Run (result (f a)) (logged m ++ logged (f a))
  | Raise e => Run (Raise e) (logged m)
  end.

Definition log (l : level) (msg : string) : M unit := Run (Return tt) [(l, msg)].
Definition raise {A} (e : exn) : M A := Run (Raise e) [].
Definition lift {A} (o : outcome A) : M A := Run o [].

(** [try: body except K as e: handler e], where [catches] says which
    exceptions the clause takes. *)
Definition try_except {A} (body : M A) (catches : exn -> bool)
    (handler : exn -> M A) : M A :=
  match result body with
  | Return a => body
  | Raise e =>
      if catches e then Run (result (handler e)) (logged body ++ logged (handler e))
      else body
  end.

Definition is_kind (k : exn_kind) (e : exn) : bool :=
  match k, kind e with
  | ValueError, ValueError
  | AttributeError, AttributeError
  | TypeError, TypeError
  | IndexError, IndexError
  | RequestException, RequestException => true
  | _, _ => false
  end.

(** [l[i]] on a list. *)
Definition index {A} (l : list A) (i : nat) : M A :=
  match l !! i with
  | Some x => mret x
  | None => raise (Exn IndexError "list index out of range")
  end.

End Py.

(** ** Module constants *)

Module Tables.

Definition API_BASE_URL : string := "https://api-publica.datajud.cnj.jus.br".
Definition DEFAULT_TIMEOUT : Z := 30.
Definition MAX_RESULTS : Z := 100.

(** Court codes and their endpoints. *)
Definition COURT_ENDPOINTS : gmap string string :=
  list_to_map [
    ("trf1", "api_publica_trf1"); ("trf2", "api_publica_trf2"); ("trf3", "api_publica_trf3");
    ("trf4", "api_publica_trf4"); ("trf5", "api_publica_trf5"); ("trf6", "api_publica_trf6");
    ("tst", "api_publica_tst"); ("stj", "api_publica_stj"); ("stf", "api_publica_stf");
    ("tre-ac", "api_publica_tre-ac"); ("tre-al", "api_publica_tre-al"); ("tre-am", "api_publica_tre-am");
    ("tre-ap", "api_publica_tre-ap"); ("tre-ba", "api_publica_tre-ba"); ("tre-ce", "api_publica_tre-ce");
    ("tre-dft", "api_publica_tre-dft"); ("tre-es", "api_publica_tre-es"); ("tre-go", "api_publica_tre-go");
    ("tre-ma", "api_publica_tre-ma"); ("tre-mg", "api_publica_tre-mg"); ("tre-ms", "api_publica_tre-ms");
    ("tre-mt", "api_publica_tre-mt"); ("tre-pa", "api_publica_tre-pa"); ("tre-pb", "api_publica_tre-pb");
    ("tre-pe", "api_publica_tre-pe"); ("tre-pi", "api_publica_tre-pi"); ("tre-pr", "api_publica_tre-pr");
    ("tre-rj", "api_publica_tre-rj"); ("tre-rn", "api_publica_tre-rn"); ("tre-ro", "api_publica_tre-ro");
    ("tre-rr", "api_publica_tre-rr"); ("tre-rs", "api_publica_tre-rs"); ("tre-sc", "api_publica_tre-sc");
    ("tre-se", "api_publica_tre-se"); ("tre-sp", "api_publica_tre-sp"); ("tre-to", "api_publica_tre-to");
    ("tjac", "api_publica_tjac"); ("tjal", "api_publica_tjal"); ("tjam", "api_publica_tjam");
    ("tjap", "api_publica_tjap"); ("tjba", "api_publica_tjba"); ("tjce", "api_publica_tjce");
    ("tjdft", "api_publica_tjdft"); ("tjes", "api_publica_tjes"); ("tjgo", "api_publica_tjgo");
    ("tjma", "api_publica_tjma"); ("tjmg", "api_publica_tjmg"); ("tjms", "api_publica_tjms");
    ("tjmt", "api_publica_tjmt"); ("tjpa", "api_publica_tjpa"); ("tjpb", "api_publica_tjpb");
    ("tjpe", "api_publica_tjpe"); ("tjpi", "api_publica_tjpi"); ("tjpr", "api_publica_tjpr");
    ("tjrj", "api_publica_tjrj"); ("tjrn", "api_publica_tjrn"); ("tjro", "api_publica_tjro");
    ("tjrr", "api_publica_tjrr"); ("tjrs", "api_publica_tjrs"); ("tjsc", "api_publica_tjsc");
    ("tjse", "api_publica_tjse"); ("tjsp", "api_publica_tjsp"); ("tjto", "api_publica_tjto");
    ("trt1", "api_publica_trt1"); ("trt2", "api_publica_trt2"); ("trt3", "api_publica_trt3");
    ("trt4", "api_publica_trt4"); ("trt5", "api_publica_trt5"); ("trt6", "api_publica_trt6");
    ("trt7", "api_publica_trt7"); ("trt8", "api_publica_trt8"); ("trt9", "api_publica_trt9");
    ("trt10", "api_publica_trt10"); ("trt11", "api_publica_trt11"); ("trt12", "api_publica_trt12");
    ("trt13", "api_publica_trt13"); ("trt14", "api_publica_trt14"); ("trt15", "api_publica_trt15");
    ("trt16", "api_publica_trt16"); ("trt17", "api_publica_trt17"); ("trt18", "api_publica_trt18");
    ("trt19", "api_publica_trt19"); ("trt20", "api_publica_trt20"); ("trt21", "api_publica_trt21");
    ("trt22", "api_publica_trt22"); ("trt23", "api_publica_trt23"); ("trt24", "api_publica_trt24")
  ].

(** Court code by justice type (J) and court identifier (TR) of a CNJ
    process number. *)
Definition COURT_CODE_MAPPING : gmap string (gmap string string) :=
  list_to_map [
    ("1", list_to_map [
      ("01", "trf1"); ("02", "trf2"); ("03", "trf3");
      ("04", "trf4"); ("05", "trf5"); ("06", "trf6")
    ]);
    ("2", list_to_map [
      ("01", "tjac"); ("02", "tjal"); ("03", "tjap");
      ("04", "tjam"); ("05", "tjba"); ("06", "tjce");
      ("07", "tjdft"); ("08", "tjes"); ("09", "tjgo");
      ("10", "tjma"); ("11", "tjmg"); ("12", "tjms");
      ("13", "tjmt"); ("14", "tjpa"); ("15", "tjpb");
      ("16", "tjpe"); ("17", "tjpi"); ("18", "tjpr");
      ("19", "tjrj"); ("20", "tjrn"); ("21", "tjro");
      ("22", "tjrr"); ("23", "tjrs"); ("24", "tjsc");
      ("25", "tjse"); ("26", "tjsp"); ("27", "tjto")
    ]);
    ("3", list_to_map [
      ("01", "trt1"); ("02", "trt2"); ("03", "trt3");
      ("04", "trt4"); ("05", "trt5"); ("06", "trt6");
      ("07", "trt7"); ("08", "trt8"); ("09", "trt9");
      ("10", "trt10"); ("11", "trt11"); ("12", "trt12");
      ("13", "trt13"); ("14", "trt14"); ("15", "trt15");
      ("16", "trt16"); ("17", "trt17"); ("18", "trt18");
      ("19", "trt19"); ("20", "trt20"); ("21", "trt21");
      ("22", "trt22"); ("23", "trt23"); ("24", "trt24")
    ]);
    ("4", list_to_map [
      ("01", "tre-ac"); ("02", "tre-al"); ("03", "tre-ap");
      ("04", "tre-am"); ("05", "tre-ba"); ("06", "tre-ce");
      ("07", "tre-dft"); ("08", "tre-es"); ("09", "tre-go");
      ("10", "tre-ma"); ("11", "tre-mg"); ("12", "tre-ms");
      ("13", "tre-mt"); ("14", "tre-pa"); ("15", "tre-pb");
      ("16", "tre-pe"); ("17", "tre-pi"); ("18", "tre-pr");
      ("19", "tre-rj"); ("20", "tre-rn"); ("21", "tre-ro");
      ("22", "tre-rr"); ("23", "tre-rs"); ("24", "tre-sc");
      ("25", "tre-se"); ("26", "tre-sp"); ("27", "tre-to")
    ]);
    ("5", ∅);
    ("6", list_to_map [
      ("00", "stf"); ("01", "stj"); ("02", "tst")
    ])
  ].

End Tables.

(** ** The agent *)

Module Agent.
Import Chars Re Py Tables.

(** What the agent reads from outside: the HTTP session (the POST, its
    status check and the decoding of the body together), the process
    environment, the clock and [json.dumps]. *)
Record World : Type := {
  session_post : string -> list (string * string) -> json -> Z -> outcome json;
  environ_DATAJUD_API_KEY : option string;
  now_isoformat : string;
  json_dumps : json -> string
}.

(** r'\b\d{7}-\d{2}\.\d{4}\.\d\.\d{2}\.\d{4}\b' *)
Definition CNJ_BODY : list atom :=
  replicate 7 Digit ++ [Lit "-"] ++ replicate 2 Digit ++ [Lit "."]
  ++ replicate 4 Digit ++ [Lit "."] ++ [Digit] ++ [Lit "."]
  ++ replicate 2 Digit ++ [Lit "."] ++ replicate 4 Digit.

Definition CNJ_PATTERN : list atom := [Boundary] ++ CNJ_BODY ++ [Boundary].

Definition extract_process_number (text : string) : M (option string) :=
  match search CNJ_PATTERN text with
  | Some process_number =>
      log DEBUG ("Extracted process number: " +:+ process_number);;
      mret (Some process_number)
  | None =>
      log DEBUG "No process number found in text";;
      mret None
  end.

Definition identify_court_from_process_number (process_number : string)
  : M (option string) :=
  try_except
    (let parts := split "." process_number in
     if negb (length parts =? 5)%nat then
       log WARNING ("Invalid process number format: " +:+ process_number);;
       mret None
     else
       justice_type ← index parts 2;
       court_id ← index parts 3;
       match COURT_CODE_MAPPING !! justice_type ≫= (.!! court_id) with
       | Some court_code =>
           log DEBUG ("Identified court: " +:+ court_code
                      +:+ " from process number: " +:+ process_number);;
           mret (Some court_code)
       | None =>
           log WARNING ("Could not identify court for process number: "
                        +:+ process_number);;
           mret None
       end)
    (fun _ => true)
    (fun e =>
       log ERROR ("Error identifying court from process number: " +:+ message e);;
       mret None).

Definition build_process_number_query (process_number : string) : M json :=
  let clean_number := remove_char "." (remove_char "-" process_number) in
  let query :=
    JObj [("query",
           JObj [("bool",
                  JObj [("must",
                         JArr [JObj [("match",
                                      JObj [("numeroProcesso",
                                             JStr process_number)])]])])]);
          ("size", JNum MAX_RESULTS)] in
  log DEBUG ("Built query for process number: " +:+ process_number);;
  mret query.

Definition build_text_search_query (text : string) (field : option string)
  : M json :=
  let query :=
    match field with
    | Some (String _ _ as field) =>
        JObj [("query", JObj [("match", JObj [(field, JStr text)])]);
              ("size", JNum MAX_RESULTS)]
    | _ =>
        JObj [("query",
               JObj [("multi_match",
                      JObj [("query", JStr text);
                            ("fields",
                             JArr [JStr "classe.nome"; JStr "assunto.nome";
                                   JStr "orgaoJulgador.nome";
                                   JStr "dadosBasicos.valorCausa"])])]);
              ("size", JNum MAX_RESULTS)]
    end in
  log DEBUG ("Built text search query for: " +:+ text);;
  mret query.

Definition str_of_nat (n : nat) : string :=
  NilEmpty.string_of_uint (Nat.to_uint n).

(** [query_api] once the endpoint of the court is known. *)
Definition send_request (w : World) (endpoint : string) (query : json) : M json :=
  let url := API_BASE_URL +:+ "/" +:+ endpoint +:+ "/_search" in
  let headers :=
    [("Content-Type", "application/json"); ("Accept", "application/json")] in
  headers ←
    match environ_DATAJUD_API_KEY w with
    | Some (String _ _ as api_key) =>
        log DEBUG "Added API key to request headers";;
        mret (headers ++ [("X-API-Key", api_key)])
    | _ => mret headers
    end;
  try_except
    (log DEBUG ("Sending request to: " +:+ url);;
     log DEBUG ("Query: " +:+ json_dumps w query);;
     data ← lift (session_post w url headers query DEFAULT_TIMEOUT);
     n ← lift (hits ← get data "hits" (JObj []);
               hits ← get hits "hits" (JArr []);
               len hits);
     log DEBUG ("Received response with " +:+ str_of_nat n +:+ " hits");;
     mret data)
    (is_kind RequestException)
    (fun e =>
       log ERROR ("API request error: " +:+ message e);;
       raise e).

Definition query_api (w : World) (court_code : string) (query : json) : M json :=
  match COURT_ENDPOINTS !! court_code with
  | None => raise (Exn ValueError ("Invalid court code: " +:+ court_code))
  | Some endpoint => send_request w endpoint query
  end.

Definition NA : json := JStr "N/A".

(** The body of the loop over a party's lawyers. *)
Definition format_lawyer (advogado : json) : outcome json :=
  pessoa ← get advogado "pessoa" (JObj []);
  nome ← get pessoa "nome" NA;
  pessoa ← get advogado "pessoa" (JObj []);
  documento ← get pessoa "numeroDocumentoPrincipal" NA;
  mret (JObj [("nome", nome); ("documento", documento)]).

(** The body of the loop over the parties of a process. *)
Definition format_party (parte : json) : outcome json :=
  tipo ← get parte "tipo" NA;
  pessoa ← get parte "pessoa" (JObj []);
  nome ← get pessoa "nome" NA;
  pessoa ← get parte "pessoa" (JObj []);
  documento ← get pessoa "numeroDocumentoPrincipal" NA;
  advogados ← get parte "advogados" (JArr []);
  advogados ← iter advogados;
  lawyers ← mapM format_lawyer advogados;
  mret (JObj [("tipo", tipo); ("nome", nome); ("documento", documento);
              ("advogados", JArr lawyers)]).

(** The body of the loop over the movements of a process. *)
Definition format_movement (movimento : json) : outcome json :=
  data ← get movimento "data" NA;
  nome ← get movimento "nome" NA;
  complemento ← get movimento "complemento" NA;
  mret (JObj [("data", data); ("nome", nome); ("complemento", complemento)]).

(** The body of the loop over the hits. *)
Definition format_hit (hit : json) : outcome json :=
  source ← get hit "_source" (JObj []);
  numero_processo ← get source "numeroProcesso" NA;
  classe ← get source "classe" (JObj []);
  classe ← get classe "nome" NA;
  assunto ← get source "assunto" (JObj []);
  assunto ← get assunto "nome" NA;
  dados ← get source "dadosBasicos" (JObj []);
  data_ajuizamento ← get dados "dataAjuizamento" NA;
  dados ← get source "dadosBasicos" (JObj []);
  valor_causa ← get dados "valorCausa" NA;
  orgao ← get source "orgaoJulgador" (JObj []);
  orgao_julgador ← get orgao "nome" NA;
  partes ← get source "partes" (JArr []);
  partes ← iter partes;
  parties ← mapM format_party partes;
  movimentos ← get source "movimentos" (JArr []);
  movimentos ← iter movimentos;
  movements ← mapM format_movement movimentos;
  mret (JObj [("numero_processo", numero_processo); ("classe", classe);
              ("assunto", assunto); ("data_ajuizamento", data_ajuizamento);
              ("valor_causa", valor_causa); ("orgao_julgador", orgao_julgador);
              ("partes", JArr parties); ("movimentos", JArr movements)]).

Definition format_response (response : json) : outcome json :=
  hits ← get response "hits" (JObj []);
  total ← get hits "total" (JObj []);
  total_hits ← get total "value" (JNum 0);
  hits ← get response "hits" (JObj []);
  hits ← get hits "hits" (JArr []);
  hits ← iter hits;
  processes ← mapM format_hit hits;
  mret (JObj [("total_hits", total_hits); ("processes", JArr processes)]).

(** [process_query] from the extracted process number on, up to the
    request: the court code and the query the request is sent with. *)
Definition route (query_text : string) (process_number : option string)
  : M (option string * string * json) :=
  match process_number with
  | Some (String _ _ as number) =>
      court_code ← identify_court_from_process_number number;
      match court_code with
      | Some (String _ _ as court_code) =>
          query ← build_process_number_query number;
          mret (process_number, court_code, query)
      | _ =>
          raise (Exn ValueError
                   ("Could not identify court for process number: " +:+ number))
      end
  | _ =>
      let court_code := "stf" in
      query ← build_text_search_query query_text None;
      mret (process_number, court_code, query)
  end.

(** The first half of [process_query]: extraction, then routing. *)
Definition resolve_target (query_text : string)
  : M (option string * string * json) :=
  log INFO ("Processing query: " +:+ query_text);;
  process_number ← extract_process_number query_text;
  route query_text process_number.

Definition json_option (o : option string) : json :=
  match o with
  | Some s => JStr s
  | None => JNull
  end.

(** The second half of [process_query]: send, format, attach metadata. *)
Definition fetch (w : World) (query_text : string)
    (target : option string * string * json) : M json :=
  let '(process_number, court_code, query) := target in
  try_except
    (response ← query_api w court_code query;
     formatted_response ← lift (format_response response);
     lift (set_item formatted_response "metadata"
             (JObj [("query", JStr query_text);
                    ("process_number", json_option process_number);
                    ("court", JStr court_code);
                    ("timestamp", JStr (now_isoformat w))])))
    (is_kind RequestException)
    (fun e =>
       log ERROR ("Error querying API: " +:+ message e);;
       raise e).

Definition process_query (w : World) (query_text : string) : M json :=
  target ← resolve_target query_text;
  fetch w query_text target.

End Agent.

(** ** Identifiers in a text: the notions the properties are stated with *)

Module Identifier.
Import Chars Re Py Tables Agent.

(** A whole string has the shape of a boundary-free pattern. *)
Fixpoint conforms (g : list atom) (m : string) : bool :=
  match g, m with
  | [], EmptyString => true
  | Digit :: g', String c m' => is_decimal c && conforms g' m'
  | Lit a :: g', String c m' => Ascii.eqb c a && conforms g' m'
  | _, _ => false
  end.

(** The identifier grammar NNNNNNN-DD.YYYY.J.TT.OOOO, without the word
    boundaries. *)
Definition cnj_grammar (m : string) : bool := conforms CNJ_BODY m.

(** The last character of a string, if it has one. *)
Fixpoint last_char (s : string) : option ascii :=
  match s with
  | EmptyString => None
  | String c EmptyString => Some c
  | String _ s' => last_char s'
  end.

(** [m] occurs in [s] between [pre] and [post] and has the grammar's shape. *)
Definition occurrence (s pre m post : string) : Prop :=
  s = pre +:+ m +:+ post /\ cnj_grammar m = true.

(** The leftmost occurrence. *)
Definition first_occurrence (s pre m post : string) : Prop :=
  occurrence s pre m post /\
  forall pre' m' post', occurrence s pre' m' post' ->
    String.length pre <= String.length pre'.

(** An occurrence that is a whole token: no word character right before
    it and none right after it. *)
Definition token (s pre m post : string) : Prop :=
  occurrence s pre m post /\
  is_word_opt (last_char pre) = false /\
  is_word_opt (head_char post) = false.

(** The leftmost whole token. *)
Definition first_token (s pre m post : string) : Prop :=
  token s pre m post /\
  forall pre' m' post', token s pre' m' post' ->
    String.length pre <= String.length pre'.

(** The character before a position: the last one of the text read so
    far, or the one before the text when nothing was read. *)
Definition last_or (prev : option ascii) (pre : string) : option ascii :=
  match last_char pre with
  | Some c => Some c
  | None => prev
  end.

(** An item that consumes a character. *)
Definition char_atom (a : atom) : bool :=
  match a with
  | Boundary => false
  | _ => true
  end.

(** A token that starts [pre] characters into [s], when [prev] is the
    character before [s]. *)
Definition token_after (prev : option ascii) (s pre m post : string) : Prop :=
  s = pre +:+ m +:+ post /\ cnj_grammar m = true /\
  is_word_opt (last_or prev pre) = false /\
  is_word_opt (head_char post) = false.

(** The number of occurrences of a character in a string, and the number
    of literal dots of a pattern. *)
Fixpoint count_char (x : ascii) (s : string) : nat :=
  match s with
  | EmptyString => 0
  | String c s' => (if Ascii.eqb c x then 1 else 0) + count_char x s'
  end.

Definition is_dot (a : atom) : bool :=
  match a with
  | Lit c => Ascii.eqb c "."
  | _ => false
  end.

Definition dots (g : list atom) : nat := length (filter (fun a => is_dot a = true) g).

End Identifier.

(** ** The classification table as a directory *)

Module Directory.
Import Chars Re Py Tables Agent.

(** The two-level lookup of [identify_court_from_process_number]. *)
Definition lookup_court (justice_type court_id : string) : option string :=
  COURT_CODE_MAPPING !! justice_type ≫= (.!! court_id).

(** A pair of justice type and court identifier is listed in the
    classification table. *)
Definition listed (justice_type court_id : string) : Prop :=
  exists courts court_code,
    COURT_CODE_MAPPING !! justice_type = Some courts /\
    courts !! court_id = Some court_code.

End Directory.

(** ** The normalised result, the consumed shape, order *)

Module Normal.
Import Py Agent.

(** The value under a chain of keys, when every key on the way is there. *)
Fixpoint get_path (v : json) (path : list string) : option json :=
  match path with
  | [] => Some v
  | k :: rest =>
      match v with
      | JObj fields => assoc k fields ≫= fun v' => get_path v' rest
      | _ => None
      end
  end.

(** Get-or-default at a leaf: the sentinel when the key chain is missing. *)
Definition leaf (v : json) (path : list string) : json :=
  default NA (get_path v path).

(** The sequence under a chain of keys; empty when the chain is missing. *)
Definition items (v : json) (path : list string) : list json :=
  match get_path v path with
  | Some (JArr l) => l
  | _ => []
  end.

(** The records of the output, level by level: each leaf is read with
    [leaf], each sequence is mapped element by element. *)
Definition normalize_lawyer (advogado : json) : json :=
  JObj [("nome", leaf advogado ["pessoa"; "nome"]);
        ("documento", leaf advogado ["pessoa"; "numeroDocumentoPrincipal"])].

Definition normalize_party (parte : json) : json :=
  JObj [("tipo", leaf parte ["tipo"]);
        ("nome", leaf parte ["pessoa"; "nome"]);
        ("documento", leaf parte ["pessoa"; "numeroDocumentoPrincipal"]);
        ("advogados", JArr (normalize_lawyer <$> items parte ["advogados"]))].

Definition normalize_movement (movimento : json) : json :=
  JObj [("data", leaf movimento ["data"]);
        ("nome", leaf movimento ["nome"]);
        ("complemento", leaf movimento ["complemento"])].

Definition normalize_hit (hit : json) : json :=
  JObj [("numero_processo", leaf hit ["_source"; "numeroProcesso"]);
        ("classe", leaf hit ["_source"; "classe"; "nome"]);
        ("assunto", leaf hit ["_source"; "assunto"; "nome"]);
        ("data_ajuizamento", leaf hit ["_source"; "dadosBasicos"; "dataAjuizamento"]);
        ("valor_causa", leaf hit ["_source"; "dadosBasicos"; "valorCausa"]);
        ("orgao_julgador", leaf hit ["_source"; "orgaoJulgador"; "nome"]);
        ("partes", JArr (normalize_party <$> items hit ["_source"; "partes"]));
        ("movimentos",
         JArr (normalize_movement <$> items hit ["_source"; "movimentos"]))].

(** The normalised result as the specification describes it: the total
    defaulting to 0, one record per hit in the order of the hits, the
    sentinel at every missing leaf. *)
Definition normalize (response : json) : json :=
  JObj [("total_hits",
         default (JNum 0) (get_path response ["hits"; "total"; "value"]));
        ("processes", JArr (normalize_hit <$> items response ["hits"; "hits"]))].

(** The shape of the responses the agent consumes: every key is optional,
    and a key that is present on the way to a leaf or to a sequence holds
    an object, respectively an array of objects. *)
Definition is_object (v : json) : bool :=
  match v with
  | JObj _ => true
  | _ => false
  end.

Definition object_with (checks : list (string * (json -> bool))) (v : json) : bool :=
  match v with
  | JObj fields =>
      forallb (fun '(k, check) => from_option check true (assoc k fields)) checks
  | _ => false
  end.

Definition array_of (check : json -> bool) (v : json) : bool :=
  match v with
  | JArr l => forallb check l
  | _ => false
  end.

Definition lawyer_shaped : json -> bool :=
  object_with [("pessoa", is_object)].

Definition party_shaped : json -> bool :=
  object_with [("pessoa", is_object); ("advogados", array_of lawyer_shaped)].

Definition movement_shaped : json -> bool := is_object.

Definition source_shaped : json -> bool :=
  object_with [("classe", is_object); ("assunto", is_object);
               ("dadosBasicos", is_object); ("orgaoJulgador", is_object);
               ("partes", array_of party_shaped);
               ("movimentos", array_of movement_shaped)].

Definition hit_shaped : json -> bool :=
  object_with [("_source", source_shaped)].

Definition response_shaped : json -> bool :=
  object_with [("hits",
                object_with [("total", is_object);
                             ("hits", array_of hit_shaped)])].

(** [outputs] has one element per element of [inputs], at the same
    index, related to it by [R]. *)
Definition mirrors (R : json -> json -> Prop) (inputs outputs : list json) : Prop :=
  length outputs = length inputs /\
  forall i x, inputs !! i = Some x -> exists y, outputs !! i = Some y /\ R x y.

(** [o] is the output for an input element, and its own sequences
    mirror those of the element. *)
Definition lawyer_of (advogado o : json) : Prop :=
  format_lawyer advogado = Return o.

Definition movement_of (movimento o : json) : Prop :=
  format_movement movimento = Return o.

Definition party_of (parte o : json) : Prop :=
  format_party parte = Return o /\
  exists lawyers,
    get_path o ["advogados"] = Some (JArr lawyers) /\
    mirrors lawyer_of (items parte ["advogados"]) lawyers.

Definition record_of (hit o : json) : Prop :=
  format_hit hit = Return o /\
  exists parties movements,
    get_path o ["partes"] = Some (JArr parties) /\
    mirrors party_of (items hit ["_source"; "partes"]) parties /\
    get_path o ["movimentos"] = Some (JArr movements) /\
    mirrors movement_of (items hit ["_source"; "movimentos"]) movements.

End Normal.

(** ** Request bodies, output leaves and sample data *)

Module Wire.
Import Chars Re Py Tables Agent Normal.

(** The request bodies as the specification writes them on the wire. *)
Definition exact_match_body (identifier : string) : json :=
  JObj [("query",
         JObj [("bool",
                JObj [("must",
                       JArr [JObj [("match",
                                    JObj [("numeroProcesso", JStr identifier)])]])])]);
        ("size", JNum 100)].

Definition multi_field_body (text : string) : json :=
  JObj [("query",
         JObj [("multi_match",
                JObj [("query", JStr text);
                      ("fields",
                       JArr [JStr "classe.nome"; JStr "assunto.nome";
                             JStr "orgaoJulgador.nome";
                             JStr "dadosBasicos.valorCausa"])])]);
        ("size", JNum 100)].

Definition single_field_body (field text : string) : json :=
  JObj [("query", JObj [("match", JObj [(field, JStr text)])]);
        ("size", JNum 100)].

(** An answer with no hits, and a world whose search API gives it to
    every request. *)
Definition empty_response : json :=
  JObj [("took", JNum 5); ("timed_out", JBool false);
        ("hits",
         JObj [("total", JObj [("value", JNum 0); ("relation", JStr "eq")]);
               ("max_score", JNull); ("hits", JArr [])])].

Definition quiet_world : World :=
  {| session_post := fun _ _ _ _ => Return empty_response;
     environ_DATAJUD_API_KEY := None;
     now_isoformat := "2024-05-02T10:00:00";
     json_dumps := fun _ => "{}" |}.

(** The leaves of the output, each with the key chain it is read from. *)
Definition record_leaves : list (string * list string) :=
  [("numero_processo", ["_source"; "numeroProcesso"]);
   ("classe", ["_source"; "classe"; "nome"]);
   ("assunto", ["_source"; "assunto"; "nome"]);
   ("data_ajuizamento", ["_source"; "dadosBasicos"; "dataAjuizamento"]);
   ("valor_causa", ["_source"; "dadosBasicos"; "valorCausa"]);
   ("orgao_julgador", ["_source"; "orgaoJulgador"; "nome"])].

Definition party_leaves : list (string * list string) :=
  [("tipo", ["tipo"]); ("nome", ["pessoa"; "nome"]);
   ("documento", ["pessoa"; "numeroDocumentoPrincipal"])].

Definition lawyer_leaves : list (string * list string) :=
  [("nome", ["pessoa"; "nome"]);
   ("documento", ["pessoa"; "numeroDocumentoPrincipal"])].

Definition movement_leaves : list (string * list string) :=
  [("data", ["data"]); ("nome", ["nome"]); ("complemento", ["complemento"])].

(** Every leaf of [output] holds the value under its key chain in
    [input], or the sentinel "N/A" when the chain is missing. *)
Definition sentinel_at_missing (leaves : list (string * list string))
    (input output : json) : Prop :=
  forall key path, In (key, path) leaves ->
    get_path output [key] = Some (default (JStr "N/A") (get_path input path)).

(** A response with most of the optional data missing. *)
Definition sparse_response : json :=
  JObj [("hits",
         JObj [("hits",
                JArr [JObj [("_source",
                             JObj [("numeroProcesso", JStr "0000005-20.2020.6.00.0000");
                                   ("classe", JObj []);
                                   ("partes",
                                    JArr [JObj [("tipo", JStr "PACIENTE");
                                                ("advogados", JArr [JObj []])]]);
                                   ("movimentos",
                                    JArr [JObj [("nome", JStr "Conclusos")]])])]])])].

(** A response with one hit, two parties and two movements. *)
Definition sample_hit : json :=
  JObj [("_index", JStr "api_publica_stf"); ("_id", JStr "12345");
        ("_score", JReal "1.0");
        ("_source",
         JObj [("numeroProcesso", JStr "0000001-70.2020.6.00.0000");
               ("classe", JObj [("nome", JStr "Habeas Corpus")]);
               ("assunto", JObj [("nome", JStr "Direito Penal")]);
               ("dadosBasicos",
                JObj [("dataAjuizamento", JStr "2020-01-01T00:00:00Z");
                      ("valorCausa", JStr "1000.00")]);
               ("orgaoJulgador", JObj [("nome", JStr "Tribunal Pleno")]);
               ("partes",
                JArr [JObj [("tipo", JStr "PACIENTE");
                            ("pessoa",
                             JObj [("nome", JStr "Joao da Silva");
                                   ("numeroDocumentoPrincipal", JStr "123.456.789-00")]);
                            ("advogados",
                             JArr [JObj [("pessoa",
                                          JObj [("nome", JStr "Maria Advogada");
                                                ("numeroDocumentoPrincipal",
                                                 JStr "OAB/DF 12345")])]])];
                      JObj [("tipo", JStr "AUTORIDADE COATORA");
                            ("pessoa",
                             JObj [("nome", JStr "Superior Tribunal de Justica");
                                   ("numeroDocumentoPrincipal", JStr "")]);
                            ("advogados", JArr [])]]);
               ("movimentos",
                JArr [JObj [("data", JStr "2020-01-02T00:00:00Z");
                            ("nome", JStr "Conclusos para decisao");
                            ("complemento", JStr "")];
                      JObj [("data", JStr "2020-01-03T00:00:00Z");
                            ("nome", JStr "Decisao monocratica");
                            ("complemento", JStr "Liminar deferida")]])])].

Definition sample_response : json :=
  JObj [("took", JNum 5); ("timed_out", JBool false);
        ("hits",
         JObj [("total", JObj [("value", JNum 1); ("relation", JStr "eq")]);
               ("max_score", JReal "1.0");
               ("hits", JArr [sample_hit])])].

End Wire.

(** ** The request of [query_api] and the result of [process_query] *)

Module Pipeline.
Import Chars Re Py Tables Agent Normal Wire.

(** The URL a query for an endpoint is posted to. *)
Definition request_url (endpoint : string) : string :=
  API_BASE_URL +:+ "/" +:+ endpoint +:+ "/_search".

(** The headers of the request: the two content headers, then the API
    key when the environment holds a non-empty one. *)
Definition request_headers (w : World) : list (string * string) :=
  [("Content-Type", "application/json"); ("Accept", "application/json")]
  ++ match environ_DATAJUD_API_KEY w with
     | Some (String _ _ as api_key) => [("X-API-Key", api_key)]
     | _ => []
     end.

(** The answer of the session to the request for an endpoint. *)
Definition answer (w : World) (endpoint : string) (query : json) : outcome json :=
  session_post w (request_url endpoint) (request_headers w) query DEFAULT_TIMEOUT.

(** The number of hits that [query_api] writes to its log. *)
Definition hit_count (data : json) : outcome nat :=
  hits ← get data "hits" (JObj []);
  hits ← get hits "hits" (JArr []);
  len hits.

(** The metadata [process_query] attaches to a formatted response. *)
Definition metadata_of (w : World) (query_text : string)
    (process_number : option string) (court_code : string) : json :=
  JObj [("query", JStr query_text);
        ("process_number", json_option process_number);
        ("court", JStr court_code);
        ("timestamp", JStr (now_isoformat w))].

(** The records a run of [query_api] leaves in the log before the
    session is asked. *)
Definition request_log (w : World) (endpoint : string) (query : json) : list record :=
  match environ_DATAJUD_API_KEY w with
  | Some (String _ _) => [(DEBUG, "Added API key to request headers")]
  | _ => []
  end
  ++ [(DEBUG, "Sending request to: " +:+ request_url endpoint);
      (DEBUG, "Query: " +:+ json_dumps w query)].

(** A value the loops of [format_response] run over without raising:
    an array whose elements pass [check], or an empty dict or string. *)
Definition sequence_of (check : json -> bool) (v : json) : bool :=
  match v with
  | JArr l => forallb check l
  | JObj [] => true
  | JStr EmptyString => true
  | _ => false
  end.

(** The inputs [format_response] accepts, level by level. *)
Definition lawyer_accepted : json -> bool :=
  object_with [("pessoa", is_object)].

Definition party_accepted : json -> bool :=
  object_with [("pessoa", is_object); ("advogados", sequence_of lawyer_accepted)].

Definition source_accepted : json -> bool :=
  object_with [("classe", is_object); ("assunto", is_object);
               ("dadosBasicos", is_object); ("orgaoJulgador", is_object);
               ("partes", sequence_of party_accepted);
               ("movimentos", sequence_of is_object)].

Definition hit_accepted : json -> bool :=
  object_with [("_source", source_accepted)].

Definition response_accepted : json -> bool :=
  object_with [("hits",
                object_with [("total", is_object);
                             ("hits", sequence_of hit_accepted)])].

(** The shape of what [format_response] returns: a dict with exactly
    the given keys, in order, and under a key a list whose elements pass
    a check. *)
Definition has_keys (keys : list string) (v : json) : bool :=
  match v with
  | JObj fields => bool_decide (fields.*1 = keys)
  | _ => false
  end.

Definition list_under (k : string) (check : json -> bool) (v : json) : bool :=
  match get_path v [k] with
  | Some (JArr l) => forallb check l
  | _ => false
  end.

Definition formatted_lawyer (v : json) : bool :=
  has_keys ["nome"; "documento"] v.

Definition formatted_party (v : json) : bool :=
  has_keys ["tipo"; "nome"; "documento"; "advogados"] v
  && list_under "advogados" formatted_lawyer v.

Definition formatted_movement (v : json) : bool :=
  has_keys ["data"; "nome"; "complemento"] v.

Definition formatted_record (v : json) : bool :=
  has_keys ["numero_processo"; "classe"; "assunto"; "data_ajuizamento";
            "valor_causa"; "orgao_julgador"; "partes"; "movimentos"] v
  && list_under "partes" formatted_party v
  && list_under "movimentos" formatted_movement v.

Definition formatted (v : json) : bool :=
  has_keys ["total_hits"; "processes"] v
  && list_under "processes" formatted_record v.

(** The environment holds a non-empty API key. *)
Definition has_api_key (w : World) : bool :=
  match environ_DATAJUD_API_KEY w with
  | Some (String _ _) => true
  | _ => false
  end.

(** The classification table as a list of (justice type, court
    identifier, court code). *)
Definition listed_triples : list (string * string * string) :=
  '(j, courts) ← map_to_list COURT_CODE_MAPPING;
  '(c, code) ← map_to_list courts;
  [(j, c, code)].

(** A world in which only the supreme court's index answers, with the
    sample response; every other URL is not found. *)
Definition stf_world : World :=
  {| session_post := fun url _ _ _ =>
       if String.eqb url
            "https://api-publica.datajud.cnj.jus.br/api_publica_stf/_search"
       then Return sample_response
       else Raise (Exn RequestException "404 Client Error: Not Found");
     environ_DATAJUD_API_KEY := Some "k3y";
     now_isoformat := "2024-05-02T10:00:00";
     json_dumps := fun _ => "{}" |}.

(** The same world with another API key and another clock. *)
Definition stf_world_rekeyed : World :=
  {| session_post := session_post stf_world;
     environ_DATAJUD_API_KEY := Some "an0ther-k3y";
     now_isoformat := "2025-01-01T00:00:00";
     json_dumps := json_dumps stf_world |}.

(** The same world with no API key and another rendering of queries in
    the log. *)
Definition stf_world_keyless : World :=
  {| session_post := session_post stf_world;
     environ_DATAJUD_API_KEY := None;
     now_isoformat := now_isoformat stf_world;
     json_dumps := fun _ => "..." |}.

(** An exception that is not a [RequestException]: the [except]
    clauses of [query_api] and [process_query] let it pass unlogged. *)
Definition internal (e : exn) : Prop := is_kind RequestException e = false.

(** A world whose server rejects the request and quotes the last header
    it was sent, the API key, in its error. *)
Definition rejecting_world : World :=
  {| session_post := fun _ headers _ _ =>
       Raise (Exn RequestException
                ("401 Client Error: Unauthorized for key "
                 +:+ default "" (snd <$> last headers)));
     environ_DATAJUD_API_KEY := Some "k3y";
     now_isoformat := "2024-05-02T10:00:00";
     json_dumps := fun _ => "{}" |}.

(** A world without network. *)
Definition offline_world : World :=
  {| session_post := fun _ _ _ _ =>
       Raise (Exn RequestException "Connection refused");
     environ_DATAJUD_API_KEY := None;
     now_isoformat := "2024-05-02T10:00:00";
     json_dumps := fun _ => "{}" |}.

End Pipeline.

(** ** The web interface: the handlers of datajud_web.py *)

Module Web.
Import Chars Re Py Tables Agent Wire.

(** What the handlers read from outside the agent: Flask's template
    rendering and URL building, and the clock as
    [datetime.now().strftime('%d/%m/%Y %H:%M:%S')] shows it.  A rendering
    can raise, and the handlers catch it only inside a [try]: the
    index.html that [create_templates] writes calls now() in its footer, a
    name that no handler passes to the template. *)
Record Site : Type := {
  render_template : string -> list (string * json) -> outcome string;
  url_for : string -> list (string * string) -> string;
  now_strftime : string
}.

(** The request, as far as the handlers read it: the method, the form
    fields and the query-string arguments, in the order they were sent. *)
Record Request : Type := {
  method : string;
  form : list (string * string);
  args : list (string * string)
}.

(** What a handler returns: a rendered page, or a redirection. *)
Inductive reply : Type :=
| Html (body : string)
| Found (location : string).

Definition redirect (location : string) : reply := Found location.

(** [fields.get(k)] on the form or the arguments: the first value sent
    for the key. *)
Fixpoint first_value (k : string) (fields : list (string * string))
  : option string :=
  match fields with
  | [] => None
  | (k', v) :: rest => if String.eqb k k' then Some v else first_value k rest
  end.

(** [return render_template(template, **context)] *)
Definition render (site : Site) (template : string)
    (context : list (string * json)) : M reply :=
  lift (Html <$> render_template site template context).

(** "Não foi possível identificar o tribunal para o processo ", one
    character per code point. *)
Definition NOT_IDENTIFIED : string :=
  "N" +:+ String "227" "o foi poss"
  +:+ String "237" "vel identificar o tribunal para o processo ".

Definition index (site : Site) : M reply :=
  render site "index.html" [].

Definition search (site : Site) (w : World) (request : Request) : M reply :=
  if String.eqb (method request) "POST" then
    let query := default "" (first_value "query" (form request)) in
    if negb (truthy query) then
      render site "index.html" [("error", JStr "Por favor, insira uma consulta.")]
    else
      mret (redirect (url_for site "search" [("q", query)]))
  else
    let query := default "" (first_value "q" (args request)) in
    if negb (truthy query) then
      mret (redirect (url_for site "index" []))
    else
      try_except
        (results ← process_query w query;
         render site "results.html"
           [("query", JStr query); ("results", results);
            ("timestamp", JStr (now_strftime site))])
        (fun _ => true)
        (fun e =>
           render site "index.html"
             [("query", JStr query);
              ("error", JStr ("Erro ao processar a consulta: " +:+ message e))]).

Definition process_detail (site : Site) (w : World) (process_number : string)
  : M reply :=
  try_except
    (court_code ← identify_court_from_process_number process_number;
     match court_code with
     | Some (String _ _ as court_code) =>
         query ← build_process_number_query process_number;
         response ← query_api w court_code query;
         results ← lift (format_response response);
         results ← lift (set_item results "metadata"
                           (JObj [("process_number", JStr process_number);
                                  ("court", JStr court_code);
                                  ("timestamp", JStr (now_isoformat w))]));
         render site "process_detail.html"
           [("process_number", JStr process_number); ("results", results)]
     | _ =>
         render site "error.html"
           [("error", JStr (NOT_IDENTIFIED +:+ process_number))]
     end)
    (fun _ => true)
    (fun e =>
       render site "error.html"
         [("error",
           JStr ("Erro ao buscar detalhes do processo: " +:+ message e))]).

(** The metadata [process_detail] attaches to a formatted response. *)
Definition detail_metadata (w : World) (process_number court_code : string) : json :=
  JObj [("process_number", JStr process_number);
        ("court", JStr court_code);
        ("timestamp", JStr (now_isoformat w))].

(** The context [process_detail] renders process_detail.html with. *)
Definition detail_context (process_number : string) (results : json)
  : list (string * json) :=
  [("process_number", JStr process_number); ("results", results)].

(** The context [search] renders results.html with. *)
Definition results_context (site : Site) (query : string) (results : json)
  : list (string * json) :=
  [("query", JStr query); ("results", results);
   ("timestamp", JStr (now_strftime site))].

(** What the body of [process_detail] computes for a process whose
    court is listed. *)
Definition detail_body (site : Site) (w : World) (pn court : string)
  : outcome reply :=
  response ← result (query_api w court (exact_match_body pn));
  formatted_response ← format_response response;
  results ← set_item formatted_response "metadata" (detail_metadata w pn court);
  Html <$> render_template site "process_detail.html" (detail_context pn results).

(** A request for /search?q=text. *)
Definition get_search (text : string) : Request :=
  {| method := "GET"; form := []; args := [("q", text)] |}.

(** A site whose pages are the name of the template followed by the
    error message, when the context has one. *)
Definition plain_site : Site :=
  {| render_template := fun template context =>
       Return (template +:+
               match assoc "error" context with
               | Some (JStr error) => ": " +:+ error
               | _ => ""
               end);
     url_for := fun endpoint values =>
       match values with
       | (k, v) :: _ => "/" +:+ endpoint +:+ "?" +:+ k +:+ "=" +:+ v
       | [] => "/"
       end;
     now_strftime := "02/05/2024 10:00:00" |}.

End Web.

(** ** The command line: the printer and the query block of [main] *)

Module Console.
Import Chars Re Py Tables Agent.

(** What the printer reads from the interpreter: the [repr] of floats,
    lists and dicts, whether a float literal is zero, and the exception of
    taking a slice of a dict (which depends on the version of Python). *)
Record Runtime : Type := {
  repr : json -> string;
  float_is_zero : string -> bool;
  dict_slice_error : exn
}.

(** What a run leaves behind: records in the log and texts on the
    standard output, in program order. *)
Inductive event : Type :=
| Logged (r : record)
| Printed (text : string).

Record IO (A : Type) : Type := Out { value : outcome A; trace : list event }.
Arguments Out {A} value trace.
Arguments value {A} i.
Arguments trace {A} i.

#[global] Instance IO_ret : MRet IO := fun A a => Out (Return a) [].
#[global] Instance IO_bind : MBind IO := fun A B f m =>
  match value m with
  | Return a => let next := f a in Out (value next) (trace m ++ trace next)
  | Raise e => Out (Raise e) (trace m)
  end.

(** [print(text)] *)
Definition print (text : string) : IO unit := Out (Return tt) [Printed text].

Definition eval {A} (o : outcome A) : IO A := Out o [].

(** A call of the agent: its log records become events. *)
Definition call {A} (m : M A) : IO A := Out (result m) (Logged <$> logged m).

(** [try: body except Exception as e: handler e] *)
Definition try_except_Exception {A} (body : IO A) (handler : exn -> IO A) : IO A :=
  match value body with
  | Return a => body
  | Raise e =>
      let handled := handler e in
      Out (value handled) (trace body ++ trace handled)
  end.

(** The texts on the standard output, one per call of [print]. *)
Definition stdout (events : list event) : list string :=
  omap (fun ev => match ev with Printed text => Some text | Logged _ => None end)
       events.

(** [for i, x in enumerate(l, start): body i x] *)
Fixpoint for_each {A} (body : nat -> A -> IO unit) (start : nat) (l : list A)
  : IO unit :=
  match l with
  | [] => mret tt
  | x :: rest => body start x;; for_each body (S start) rest
  end.

(** [s * n] *)
Fixpoint times (s : string) (n : nat) : string :=
  match n with
  | O => EmptyString
  | S n' => s +:+ times s n'
  end.

(** "\n" *)
Definition NL : string := String "010" EmptyString.

Definition str_of_Z (n : Z) : string := NilEmpty.string_of_int (Z.to_int n).

(** [str(v)], which is what an f-string puts for [{v}]. *)
Definition py_str (py : Runtime) (v : json) : string :=
  match v with
  | JNull => "None"
  | JBool true => "True"
  | JBool false => "False"
  | JNum n => str_of_Z n
  | JStr s => s
  | JReal _ | JArr _ | JObj _ => repr py v
  end.

(** The truth value of [v], as [if v] and [not v] take it. *)
Definition truth (py : Runtime) (v : json) : bool :=
  match v with
  | JNull => false
  | JBool b => b
  | JNum n => negb (n =? 0)%Z
  | JReal literal => negb (float_is_zero py literal)
  | JStr s => truthy s
  | JArr items => negb (length items =? 0)%nat
  | JObj fields => negb (length fields =? 0)%nat
  end.

(** [v[:n]] *)
Definition slice_to (py : Runtime) (n : nat) (v : json) : outcome json :=
  match v with
  | JArr items => Return (JArr (take n items))
  | JStr s => Return (JStr (substring 0 n s))
  | JObj _ => Raise (dict_slice_error py)
  | _ =>
      Raise (Exn TypeError ("'" +:+ type_name v +:+ "' object is not subscriptable"))
  end.

(** The body of the loop over the lawyers of a party. *)
Definition print_lawyer (py : Runtime) (adv : json) : IO unit :=
  nome ← eval (get adv "nome" NA);
  documento ← eval (get adv "documento" NA);
  print ("        - " +:+ py_str py nome +:+ " (" +:+ py_str py documento +:+ ")").

(** The body of the loop over the parties of a process. *)
Definition print_party (py : Runtime) (parte : json) : IO unit :=
  tipo ← eval (get parte "tipo" NA);
  nome ← eval (get parte "nome" NA);
  print ("    " +:+ py_str py tipo +:+ ": " +:+ py_str py nome);;
  documento ← eval (get parte "documento" NA);
  print ("      Documento: " +:+ py_str py documento);;
  advogados ← eval (get parte "advogados" JNull);
  if truth py advogados then
    print "      Advogados:";;
    advogados ← eval (get parte "advogados" (JArr []));
    advogados ← eval (iter advogados);
    for_each (fun _ => print_lawyer py) 1 advogados
  else mret tt.

(** The body of the loop over the first movements of a process. *)
Definition print_movement (py : Runtime) (j : nat) (mov : json) : IO unit :=
  data ← eval (get mov "data" NA);
  nome ← eval (get mov "nome" NA);
  print ("    " +:+ str_of_nat j +:+ ". " +:+ py_str py data
          +:+ " - " +:+ py_str py nome);;
  complemento ← eval (get mov "complemento" JNull);
  if truth py complemento then
    complemento ← eval (get mov "complemento" (JStr ""));
    print ("       " +:+ py_str py complemento)
  else mret tt.

(** The body of the loop over the processes, [i] counting from 1. *)
Definition print_process (py : Runtime) (processes : json) (i : nat)
    (process : json) : IO unit :=
  n ← eval (len processes);
  print (NL +:+ "PROCESS " +:+ str_of_nat i +:+ "/" +:+ str_of_nat n +:+ ":");;
  numero_processo ← eval (get process "numero_processo" NA);
  print ("  N" +:+ String "250" "mero: " +:+ py_str py numero_processo);;
  classe ← eval (get process "classe" NA);
  print ("  Classe: " +:+ py_str py classe);;
  assunto ← eval (get process "assunto" NA);
  print ("  Assunto: " +:+ py_str py assunto);;
  data_ajuizamento ← eval (get process "data_ajuizamento" NA);
  print ("  Data de Ajuizamento: " +:+ py_str py data_ajuizamento);;
  valor_causa ← eval (get process "valor_causa" NA);
  print ("  Valor da Causa: " +:+ py_str py valor_causa);;
  orgao_julgador ← eval (get process "orgao_julgador" NA);
  print ("  " +:+ String "211" "rg" +:+ String "227" "o Julgador: "
         +:+ py_str py orgao_julgador);;
  print (NL +:+ "  PARTES:");;
  partes ← eval (get process "partes" (JArr []));
  partes ← eval (iter partes);
  for_each (fun _ => print_party py) 1 partes;;
  print (NL +:+ "  MOVIMENTOS RECENTES:");;
  movimentos ← eval (get process "movimentos" (JArr []));
  recent ← eval (slice_to py 5 movimentos);
  recent ← eval (iter recent);
  for_each (print_movement py) 1 recent;;
  movimentos ← eval (get process "movimentos" (JArr []));
  n ← eval (len movimentos);
  (if (5 <? n)%nat then
     movimentos ← eval (get process "movimentos" (JArr []));
     n ← eval (len movimentos);
     print ("    ... and " +:+ str_of_nat (n - 5) +:+ " more movements")
   else mret tt);;
  print (times "-" 80).

Definition pretty_print_results (py : Runtime) (results : json) : IO unit :=
  metadata ← eval (get results "metadata" (JObj []));
  processes ← eval (get results "processes" (JArr []));
  total_hits ← eval (get results "total_hits" (JNum 0));
  print (NL +:+ times "=" 80);;
  print "DATAJUD QUERY RESULTS";;
  print (times "=" 80);;
  query ← eval (get metadata "query" NA);
  print ("Query: " +:+ py_str py query);;
  process_number ← eval (get metadata "process_number" NA);
  print ("Process Number: " +:+ py_str py process_number);;
  court ← eval (get metadata "court" NA);
  print ("Court: " +:+ py_str py court);;
  timestamp ← eval (get metadata "timestamp" NA);
  print ("Timestamp: " +:+ py_str py timestamp);;
  print ("Total Hits: " +:+ py_str py total_hits);;
  print (times "-" 80);;
  if negb (truth py processes) then
    print "No results found."
  else
    each ← eval (iter processes);
    for_each (print_process py processes) 1 each.

(** The block that [main] runs on a query, in both of its modes. *)
Definition main_query (w : World) (py : Runtime) (query : string) : IO unit :=
  try_except_Exception
    (results ← call (process_query w query);
     pretty_print_results py results)
    (fun e => print ("Error: " +:+ message e)).

(** A movement as [format_response] returns it. *)
Definition movement_named (nome : string) : json :=
  JObj [("data", JStr "2020-01-02T00:00:00Z"); ("nome", JStr nome);
        ("complemento", JStr "")].

(** An interpreter for the examples: containers and floats shown as
    three dots. *)
Definition plain_runtime : Runtime :=
  {| repr := fun _ => "...";
     float_is_zero := fun literal => String.eqb literal "0.0";
     dict_slice_error := Exn TypeError "unhashable type: 'slice'" |}.

End Console.

(** ** Character classes and the logging monad *)

Module Laws.
Import Chars Re Py.

Lemma decimal_is_word c : is_decimal c = true -> is_word c = true.
Proof.
  unfold is_word, is_alnum, is_decimal. intros ->. reflexivity.
Qed.

Lemma decimal_not_dot c : is_decimal c = true -> Ascii.eqb c "." = false.
Proof.
  destruct c as [[] [] [] [] [] [] [] []]; vm_compute; congruence.
Qed.

Lemma M_bind_ret {A B} (a : A) (f : A -> M B) : mret a ≫= f = f a.
Proof. unfold mret, mbind, M_ret, M_bind. simpl. now destruct (f a). Qed.

Lemma M_bind_log {B} (l : level) (msg : string) (k : M B) :
  (log l msg;; k) = Run (result k) ((l, msg) :: logged k).
Proof. reflexivity. Qed.

Lemma result_bind_return {A B} (m : M A) (f : A -> M B) a :
  result m = Return a -> result (m ≫= f) = result (f a).
Proof. unfold mbind, M_bind. now intros ->. Qed.

Lemma result_bind_raise {A B} (m : M A) (f : A -> M B) e :
  result m = Raise e -> result (m ≫= f) = Raise e.
Proof. unfold mbind, M_bind. now intros ->. Qed.

End Laws.

(** ** Identifier extraction: what [extract_process_number] finds *)

Module IdentifierFacts.
Import Chars Re Py Tables Agent Identifier Laws.

(** *** Strings *)

Lemma app_nil_s (b : string) : EmptyString +:+ b = b.
Proof. reflexivity. Qed.

Lemma app_cons_s (c : ascii) (a b : string) :
  String c a +:+ b = String c (a +:+ b).
Proof. reflexivity. Qed.

Lemma app_assoc_s (a b c : string) : (a +:+ b) +:+ c = a +:+ b +:+ c.
Proof.
  induction a as [|x a IH]; [reflexivity |].
  rewrite !app_cons_s. now f_equal.
Qed.

Lemma app_length_s (a b : string) :
  String.length (a +:+ b) = String.length a + String.length b.
Proof.
  induction a as [|x a IH]; [reflexivity |].
  rewrite app_cons_s. simpl. now f_equal.
Qed.

Lemma app_inj_length (a b a' b' : string) :
  a +:+ b = a' +:+ b' -> String.length a = String.length a' ->
  a = a' /\ b = b'.
Proof.
  revert a'. induction a as [|x a IH]; intros [|x' a'] E L;
    rewrite ?app_cons_s, ?app_nil_s in E; simpl in L;
    try discriminate; [now split |].
  injection E as -> E. injection L as L.
  destruct (IH _ E L) as [-> ->]. now split.
Qed.

Lemma last_or_cons prev c pre : last_or prev (String c pre) = last_or (Some c) pre.
Proof.
  unfold last_or. simpl. destruct pre as [|d pre]; [reflexivity |].
  destruct (last_char (String d pre)) eqn:E; [reflexivity |].
  exfalso. clear -E. revert d E.
  induction pre as [|e pre IH]; intros d E; simpl in E; [discriminate | eauto].
Qed.

Lemma last_or_None pre : last_or None pre = last_char pre.
Proof. unfold last_or. now destruct (last_char pre). Qed.

(** *** The matcher against the shape *)

Lemma conforms_length g m : conforms g m = true -> String.length m = length g.
Proof.
  revert m. induction g as [|a g IH]; intros [|c m] H; simpl in *;
    try discriminate; try reflexivity.
  - destruct a; discriminate.
  - destruct a; try discriminate;
      apply andb_true_iff in H as [_ H]; now rewrite (IH _ H).
Qed.

Lemma match_here_shape g :
  forallb char_atom g = true ->
  forall prev s m,
    match_here (g ++ [Boundary]) prev s = Some m <->
    exists post, s = m +:+ post /\ conforms g m = true /\
                 at_boundary (last_or prev m) (head_char post) = true.
Proof.
  induction g as [|a g IH]; intros Hg prev s m.
  - simpl. split.
    + destruct (at_boundary prev (head_char s)) eqn:B; [|discriminate].
      intros [= <-]. exists s. now repeat split.
    + intros (post & -> & Hm & B). destruct m; [|discriminate].
      rewrite app_nil_s. unfold last_or in B. simpl in B. now rewrite B.
  - simpl in Hg. apply andb_true_iff in Hg as [Ha Hg].
    specialize (IH Hg).
    assert (Step : forall (test : ascii -> bool),
      (match s with
       | String c s' =>
           if test c then String c <$> match_here (g ++ [Boundary]) (Some c) s'
           else None
       | EmptyString => None
       end = Some m) <->
      exists post, s = m +:+ post /\
        (match m with
         | String c m' => test c && conforms g m'
         | EmptyString => false
         end = true) /\
        at_boundary (last_or prev m) (head_char post) = true).
    { intros test. split.
      - destruct s as [|c s']; [discriminate |].
        destruct (test c) eqn:T; [|discriminate].
        destruct (match_here (g ++ [Boundary]) (Some c) s') as [m'|] eqn:E;
          [|discriminate].
        intros [= <-]. apply IH in E as (post & -> & Hm & B).
        exists post. rewrite T, Hm, last_or_cons. now repeat split.
      - intros (post & -> & Hm & B). destruct m as [|c m']; [discriminate |].
        apply andb_true_iff in Hm as [T Hm]. rewrite app_cons_s, T.
        rewrite last_or_cons in B.
        assert (E : match_here (g ++ [Boundary]) (Some c) (m' +:+ post) = Some m')
          by (apply IH; eauto).
        now rewrite E. }
    destruct a as [| |x]; [discriminate | |].
    + simpl. rewrite (Step is_decimal). reflexivity.
    + simpl. rewrite (Step (fun c => Ascii.eqb c x)). reflexivity.
Qed.

(** *** One start position *)

Lemma conforms_head g m :
  conforms (Digit :: g) m = true ->
  exists c m', m = String c m' /\ is_decimal c = true.
Proof.
  destruct m as [|c m']; simpl; [discriminate |].
  intros H. apply andb_true_iff in H as [H _]. eauto.
Qed.

Lemma conforms_last g m :
  conforms (g ++ [Digit]) m = true ->
  exists d, last_char m = Some d /\ is_decimal d = true.
Proof.
  revert m. induction g as [|a g IH]; intros m H.
  - destruct m as [|c [|c' m']]; simpl in H; try discriminate.
    + apply andb_true_iff in H as [H _]. simpl. eauto.
    + now rewrite andb_false_r in H.
  - destruct m as [|c m']; [destruct a; discriminate |].
    assert (H' : conforms (g ++ [Digit]) m' = true).
    { simpl in H. destruct a; try discriminate;
        now apply andb_true_iff in H as [_ H]. }
    destruct (IH _ H') as (d & L & D). exists d. split; [|exact D].
    destruct m' as [|c' m'']; [discriminate | exact L].
Qed.

Lemma boundary_before_word prev c :
  is_word c = true ->
  at_boundary prev (Some c) = negb (is_word_opt prev).
Proof.
  intros W. unfold at_boundary. simpl. rewrite W.
  now destruct (is_word_opt prev).
Qed.

Lemma boundary_after_word d next :
  is_word d = true ->
  at_boundary (Some d) next = negb (is_word_opt next).
Proof. intros W. unfold at_boundary. simpl. now rewrite W. Qed.

Lemma token_after_None s pre m post :
  token_after None s pre m post <-> token s pre m post.
Proof.
  unfold token_after, token, occurrence. rewrite last_or_None. tauto.
Qed.

Lemma token_after_cons prev c s pre m post :
  token_after prev (String c s) (String c pre) m post <->
  token_after (Some c) s pre m post.
Proof.
  unfold token_after. rewrite last_or_cons, app_cons_s.
  split; intros (E & H); split; try exact H; congruence.
Qed.

Lemma cnj_body_split :
  CNJ_BODY = Digit :: tail CNJ_BODY /\
  CNJ_BODY = removelast CNJ_BODY ++ [Digit] /\
  forallb char_atom CNJ_BODY = true.
Proof. repeat split. Qed.

Lemma match_here_token prev s m :
  match_here CNJ_PATTERN prev s = Some m <->
  exists post, token_after prev s EmptyString m post.
Proof.
  destruct cnj_body_split as (Hhd & Hlast & Hchars).
  change (match_here CNJ_PATTERN prev s)
    with (if at_boundary prev (head_char s)
          then match_here (CNJ_BODY ++ [Boundary]) prev s else None).
  unfold token_after, cnj_grammar. split.
  - destruct (at_boundary prev (head_char s)) eqn:B; [|discriminate].
    intros H. apply (match_here_shape _ Hchars) in H as (post & -> & Hm & B').
    exists post. rewrite app_nil_s. split; [reflexivity |].
    split; [exact Hm |].
    pose proof Hm as Hm1. rewrite Hhd in Hm1.
    destruct (conforms_head _ _ Hm1) as (c & m' & -> & Dc).
    pose proof Hm as Hm2. rewrite Hlast in Hm2.
    destruct (conforms_last _ _ Hm2) as (d & L & Dd).
    rewrite app_cons_s in B. simpl in B.
    rewrite (boundary_before_word _ _ (decimal_is_word _ Dc)) in B.
    unfold last_or in B' |- *. rewrite L in B'.
    rewrite (boundary_after_word _ _ (decimal_is_word _ Dd)) in B'.
    simpl. split; now apply negb_true_iff.
  - intros (post & E & Hm & Wp & Wn). rewrite app_nil_s in E. subst s.
    pose proof Hm as Hm1. rewrite Hhd in Hm1.
    destruct (conforms_head _ _ Hm1) as (c & m' & -> & Dc).
    pose proof Hm as Hm2. rewrite Hlast in Hm2.
    destruct (conforms_last _ _ Hm2) as (d & L & Dd).
    unfold last_or in Wp. simpl in Wp.
    rewrite app_cons_s. simpl head_char.
    rewrite (boundary_before_word _ _ (decimal_is_word _ Dc)), Wp. simpl negb.
    cbv iota. rewrite <- app_cons_s.
    apply (match_here_shape _ Hchars). exists post.
    split; [reflexivity |]. split; [exact Hm |].
    unfold last_or. rewrite L.
    rewrite (boundary_after_word _ _ (decimal_is_word _ Dd)), Wn. reflexivity.
Qed.

(** *** The scan *)

Lemma search_from_eq p prev s :
  search_from p prev s =
  match match_here p prev s with
  | Some m => Some m
  | None =>
      match s with
      | String c s' => search_from p (Some c) s'
      | EmptyString => None
      end
  end.
Proof. destruct s; reflexivity. Qed.

Lemma search_from_sound s : forall prev m,
  search_from CNJ_PATTERN prev s = Some m ->
  exists pre post,
    token_after prev s pre m post /\
    forall pre' m' post', token_after prev s pre' m' post' ->
      String.length pre <= String.length pre'.
Proof.
  induction s as [|c s IH]; intros prev m.
  - rewrite search_from_eq.
    destruct (match_here CNJ_PATTERN prev EmptyString) as [m0|] eqn:E;
      [|discriminate].
    intros [= ->]. apply match_here_token in E as (post & T).
    exists EmptyString, post. split; [exact T |]. intros; simpl; lia.
  - rewrite search_from_eq.
    destruct (match_here CNJ_PATTERN prev (String c s)) as [m0|] eqn:E.
    + intros [= ->]. apply match_here_token in E as (post & T).
      exists EmptyString, post. split; [exact T |]. intros; simpl; lia.
    + intros H. destruct (IH _ _ H) as (pre & post & T & Min).
      exists (String c pre), post. split; [now apply token_after_cons |].
      intros [|c' pre'] m' post' T'.
      * assert (X : match_here CNJ_PATTERN prev (String c s) = Some m')
          by (apply match_here_token; eauto).
        congruence.
      * assert (c' = c) as ->.
        { destruct T' as (E' & _). rewrite app_cons_s in E'. congruence. }
        apply token_after_cons in T'. apply Min in T'. simpl. lia.
Qed.

Lemma search_from_complete pre : forall prev s m post,
  token_after prev s pre m post ->
  is_Some (search_from CNJ_PATTERN prev s).
Proof.
  induction pre as [|c pre IH]; intros prev s m post T.
  - assert (E : match_here CNJ_PATTERN prev s = Some m)
      by (apply match_here_token; eauto).
    rewrite search_from_eq, E; eauto.
  - assert (exists s', s = String c s') as (s' & ->).
    { destruct T as (-> & _). rewrite app_cons_s. eauto. }
    apply token_after_cons in T. rewrite search_from_eq.
    destruct (match_here CNJ_PATTERN prev (String c s')); eauto.
Qed.

Lemma first_token_unique s pre m post pre' m' post' :
  first_token s pre m post -> first_token s pre' m' post' -> m = m'.
Proof.
  intros [T Min] [T' Min'].
  pose proof (Min _ _ _ T') as L1. pose proof (Min' _ _ _ T) as L2.
  destruct T as ((E & G) & _), T' as ((E' & G') & _).
  rewrite E in E'.
  destruct (app_inj_length _ _ _ _ E' ltac:(lia)) as [_ E2].
  apply conforms_length in G, G'.
  destruct (app_inj_length _ _ _ _ E2 ltac:(congruence)) as [-> _].
  reflexivity.
Qed.

Lemma search_first_token s m :
  search CNJ_PATTERN s = Some m <-> exists pre post, first_token s pre m post.
Proof.
  unfold search. split.
  - intros H. apply search_from_sound in H as (pre & post & T & Min).
    exists pre, post. split; [now apply token_after_None |].
    intros pre' m' post' T'. apply token_after_None in T'. eauto.
  - intros (pre & post & F).
    destruct (search_from_complete pre None s m post) as [m0 E].
    { apply token_after_None, F. }
    rewrite E. f_equal.
    apply search_from_sound in E as (pre0 & post0 & T & Min).
    apply (first_token_unique s pre0 m0 post0 pre m post); [|exact F].
    split; [now apply token_after_None |].
    intros pre' m' post' T'. apply token_after_None in T'. eauto.
Qed.

Lemma search_no_token s :
  search CNJ_PATTERN s = None <-> forall pre m post, ~ token s pre m post.
Proof.
  unfold search. split.
  - intros H pre m post T. apply token_after_None in T.
    apply search_from_complete in T as [m0 E]. congruence.
  - intros H. destruct (search_from CNJ_PATTERN None s) as [m|] eqn:E;
      [|reflexivity].
    apply search_from_sound in E as (pre & post & T & _).
    apply token_after_None in T. now apply H in T.
Qed.

Lemma extract_result text :
  result (extract_process_number text) = Return (search CNJ_PATTERN text).
Proof.
  unfold extract_process_number. now destruct (search CNJ_PATTERN text).
Qed.

End IdentifierFacts.

(** ** Routing: splitting an identifier and looking its court up *)

Module Routing.
Import Chars Re Py Tables Agent Identifier Directory Laws IdentifierFacts.

Lemma split_length sep s : length (split sep s) = S (count_char sep s).
Proof.
  induction s as [|c s IH]; [reflexivity |]. simpl.
  destruct (Ascii.eqb c sep); simpl; [now rewrite IH |].
  destruct (split sep s); [discriminate | exact IH].
Qed.

Lemma conforms_dots g m :
  conforms g m = true -> count_char "." m = dots g.
Proof.
  revert m. induction g as [|a g IH]; intros [|c m] H; simpl in H;
    try discriminate; try reflexivity.
  - destruct a; discriminate.
  - destruct a as [| |x]; try discriminate;
      apply andb_true_iff in H as [Hc H]; apply IH in H.
    + simpl count_char. rewrite (decimal_not_dot _ Hc), H. reflexivity.
    + apply Ascii.eqb_eq in Hc as ->. simpl count_char. rewrite H.
      unfold dots. rewrite filter_cons. simpl is_dot.
      destruct (Ascii.eqb x "."); case_decide; simpl; congruence.
Qed.

Lemma cnj_grammar_dots m : cnj_grammar m = true -> count_char "." m = 4.
Proof. intros H. now rewrite (conforms_dots _ _ H). Qed.

Lemma extracted_grammar text pn :
  result (extract_process_number text) = Return (Some pn) ->
  cnj_grammar pn = true.
Proof.
  rewrite extract_result. intros [= H].
  apply search_first_token in H as (pre & post & (((_ & G) & _) & _)).
  exact G.
Qed.

Lemma identify_invalid pn :
  length (split "." pn) <> 5 ->
  identify_court_from_process_number pn =
  Run (Return None) [(WARNING, "Invalid process number format: " +:+ pn)].
Proof.
  intros H. unfold identify_court_from_process_number.
  apply Nat.eqb_neq in H. rewrite H. reflexivity.
Qed.

Lemma identify_parts pn a b j c e :
  split "." pn = [a; b; j; c; e] ->
  identify_court_from_process_number pn =
  match lookup_court j c with
  | Some court_code =>
      Run (Return (Some court_code))
        [(DEBUG, "Identified court: " +:+ court_code
                 +:+ " from process number: " +:+ pn)]
  | None =>
      Run (Return None)
        [(WARNING, "Could not identify court for process number: " +:+ pn)]
  end.
Proof.
  intros H. unfold identify_court_from_process_number, lookup_court.
  rewrite H. simpl length. simpl negb. cbv iota.
  unfold index. simpl lookup. cbv iota. rewrite !M_bind_ret.
  destruct (COURT_CODE_MAPPING !! j ≫= (.!! c)); reflexivity.
Qed.

Lemma extracted_five_segments text pn :
  result (extract_process_number text) = Return (Some pn) ->
  length (split "." pn) = 5.
Proof.
  intros H. apply extracted_grammar, cnj_grammar_dots in H.
  now rewrite split_length, H.
Qed.

Lemma five_parts (l : list string) :
  length l = 5 -> exists a b j c e, l = [a; b; j; c; e].
Proof.
  destruct l as [|a [|b [|j [|c [|e [|]]]]]]; try discriminate. eauto 6.
Qed.

Lemma lookup_court_unlisted j c : ~ listed j c -> lookup_court j c = None.
Proof.
  intros H. unfold lookup_court.
  destruct (COURT_CODE_MAPPING !! j) as [courts|] eqn:E; [|reflexivity].
  simpl. destruct (courts !! c) as [code|] eqn:E'; [|reflexivity].
  exfalso. apply H. now exists courts, code.
Qed.

Lemma grammar_truthy pn : cnj_grammar pn = true -> truthy pn = true.
Proof. now destruct pn. Qed.

Lemma route_identifier text pn :
  truthy pn = true ->
  route text (Some pn) =
  (court_code ← identify_court_from_process_number pn;
   match court_code with
   | Some (String _ _ as court_code) =>
       query ← build_process_number_query pn;
       mret (Some pn, court_code, query)
   | _ =>
       raise (Exn ValueError
                ("Could not identify court for process number: " +:+ pn))
   end).
Proof. now destruct pn. Qed.

Lemma resolve_target_result text :
  result (resolve_target text) =
  result (route text (search CNJ_PATTERN text)).
Proof.
  unfold resolve_target. rewrite M_bind_log. simpl result.
  apply result_bind_return, extract_result.
Qed.

Lemma process_query_raises w text e :
  result (resolve_target text) = Raise e ->
  result (process_query w text) = Raise e.
Proof. apply result_bind_raise. Qed.

End Routing.

(** ** Response normalisation: what [format_response] computes *)

Module NormalFacts.
Import Py Agent Normal.

(** *** Reading keys *)

Lemma bind_Return {A B} (m : outcome A) (f : A -> outcome B) o :
  m ≫= f = Return o -> exists a, m = Return a /\ f a = Return o.
Proof. destruct m as [a|e]; [eauto | discriminate]. Qed.

Lemma get_path_one fields k : get_path (JObj fields) [k] = assoc k fields.
Proof. simpl. now destruct (assoc k fields). Qed.

Lemma get_Return v k d x :
  get v k d = Return x ->
  is_object v = true /\ x = default d (get_path v [k]).
Proof.
  destruct v; try discriminate. rewrite get_path_one.
  intros [= <-]. now split.
Qed.

(** A key read with the empty object as its default, then a chain of
    keys read under it. *)
Lemma get_path_under v k x rest :
  get v k (JObj []) = Return x -> rest <> [] ->
  get_path x rest = get_path v (k :: rest).
Proof.
  destruct v; try discriminate. intros [= <-] Hr. simpl get_path at 2.
  destruct (assoc k fields) as [v'|]; [reflexivity |].
  destruct rest; [congruence | reflexivity].
Qed.

Lemma chain_Return v k k' d p x :
  get v k (JObj []) = Return p -> get p k' d = Return x ->
  x = default d (get_path v [k; k']).
Proof.
  intros H H'. apply get_Return in H' as [_ ->].
  now rewrite (get_path_under _ _ _ [k'] H).
Qed.

(** *** Loops *)

Lemma mapM_Return (f : json -> outcome json) (g : json -> json) l outs :
  (forall x o, f x = Return o -> o = g x) ->
  mapM f l = Return outs -> outs = g <$> l.
Proof.
  intros Hf. revert outs. induction l as [|x l IH]; intros outs H.
  - now injection H as <-.
  - simpl in H. apply bind_Return in H as (y & Hy & H).
    apply bind_Return in H as (ys & Hys & H). injection H as <-.
    now rewrite (Hf _ _ Hy), (IH _ Hys).
Qed.

Lemma mapM_nil_of_raise (f : json -> outcome json) l outs :
  (forall x, In x l -> exists e, f x = Raise e) ->
  mapM f l = Return outs -> l = [].
Proof.
  destruct l as [|x l]; [reflexivity |]. intros Hf H. exfalso.
  destruct (Hf x) as [e He]; [now left |].
  simpl in H. now rewrite He in H.
Qed.

(** The elements a loop runs over when its body comes through: the
    array under the key.  A dict or a string under the key is iterated
    too, but the loop bodies raise on its elements, which are strings. *)
Lemma loop_elements (f : json -> outcome json) v k pv l outs :
  (forall s, exists e, f (JStr s) = Raise e) ->
  get v k (JArr []) = Return pv -> iter pv = Return l ->
  mapM f l = Return outs ->
  l = items v [k].
Proof.
  intros Hstr Hget Hiter Hmap.
  apply get_Return in Hget as [_ ->]. unfold items.
  destruct (get_path v [k]) as [pv|]; simpl in Hiter;
    [|now injection Hiter as <-].
  destruct pv; try discriminate; injection Hiter as <-; [|reflexivity|].
  - apply (mapM_nil_of_raise f _ outs); [|exact Hmap].
    clear -Hstr. induction s as [|c s IH]; simpl; [tauto |].
    intros x [<- | H]; eauto.
  - apply (mapM_nil_of_raise f _ outs); [|exact Hmap].
    intros x H. apply in_map_iff in H as (s & <- & _). eauto.
Qed.

Lemma loop_Return (f : json -> outcome json) (g : json -> json) v k pv l outs :
  (forall s, exists e, f (JStr s) = Raise e) ->
  (forall x o, f x = Return o -> o = g x) ->
  get v k (JArr []) = Return pv -> iter pv = Return l ->
  mapM f l = Return outs ->
  outs = g <$> items v [k].
Proof.
  intros Hstr Hf Hget Hiter Hmap.
  rewrite <- (loop_elements f _ _ _ _ _ Hstr Hget Hiter Hmap).
  exact (mapM_Return f g _ _ Hf Hmap).
Qed.

(** *** The loop bodies, when they come through *)

Ltac invert_bind H x G :=
  apply bind_Return in H as (x & G & H).

Lemma format_lawyer_Return advogado o :
  format_lawyer advogado = Return o -> o = normalize_lawyer advogado.
Proof.
  unfold format_lawyer. intros H.
  invert_bind H p1 G1. invert_bind H nome G2.
  invert_bind H p2 G3. invert_bind H documento G4.
  injection H as <-. unfold normalize_lawyer, leaf.
  now rewrite (chain_Return _ _ _ _ _ _ G1 G2), (chain_Return _ _ _ _ _ _ G3 G4).
Qed.

Lemma format_movement_Return movimento o :
  format_movement movimento = Return o -> o = normalize_movement movimento.
Proof.
  unfold format_movement. intros H.
  invert_bind H data G1. invert_bind H nome G2. invert_bind H complemento G3.
  injection H as <-. unfold normalize_movement, leaf.
  apply get_Return in G1 as [_ ->], G2 as [_ ->], G3 as [_ ->]. reflexivity.
Qed.

Lemma format_lawyer_str s : exists e, format_lawyer (JStr s) = Raise e.
Proof. eexists. reflexivity. Qed.

Lemma format_movement_str s : exists e, format_movement (JStr s) = Raise e.
Proof. eexists. reflexivity. Qed.

Lemma format_party_str s : exists e, format_party (JStr s) = Raise e.
Proof. eexists. reflexivity. Qed.

Lemma format_hit_str s : exists e, format_hit (JStr s) = Raise e.
Proof. eexists. reflexivity. Qed.

Lemma format_party_Return parte o :
  format_party parte = Return o -> o = normalize_party parte.
Proof.
  unfold format_party. intros H.
  invert_bind H tipo G0.
  invert_bind H p1 G1. invert_bind H nome G2.
  invert_bind H p2 G3. invert_bind H documento G4.
  invert_bind H pv G5. invert_bind H advogados G6. invert_bind H lawyers G7.
  injection H as <-. unfold normalize_party, leaf.
  apply get_Return in G0 as [_ ->].
  rewrite (chain_Return _ _ _ _ _ _ G1 G2), (chain_Return _ _ _ _ _ _ G3 G4).
  now rewrite (loop_Return _ _ _ _ _ _ _ format_lawyer_str
                 format_lawyer_Return G5 G6 G7).
Qed.

Lemma items_under v k x rest :
  get v k (JObj []) = Return x -> rest <> [] ->
  items x rest = items v (k :: rest).
Proof. intros H Hr. unfold items. now rewrite (get_path_under _ _ _ _ H Hr). Qed.

Lemma format_hit_Return hit o :
  format_hit hit = Return o -> o = normalize_hit hit.
Proof.
  unfold format_hit. intros H.
  invert_bind H source Src.
  invert_bind H numero G0.
  invert_bind H p1 G1. invert_bind H classe G2.
  invert_bind H p2 G3. invert_bind H assunto G4.
  invert_bind H p3 G5. invert_bind H data G6.
  invert_bind H p4 G7. invert_bind H valor G8.
  invert_bind H p5 G9. invert_bind H orgao G10.
  invert_bind H pv G11. invert_bind H partes G12. invert_bind H parties G13.
  invert_bind H mv G14. invert_bind H movimentos G15.
  invert_bind H movements G16.
  injection H as <-. unfold normalize_hit, leaf.
  apply get_Return in G0 as [_ ->].
  rewrite (chain_Return _ _ _ _ _ _ G1 G2), (chain_Return _ _ _ _ _ _ G3 G4),
    (chain_Return _ _ _ _ _ _ G5 G6), (chain_Return _ _ _ _ _ _ G7 G8),
    (chain_Return _ _ _ _ _ _ G9 G10).
  rewrite (loop_Return _ _ _ _ _ _ _ format_party_str
             format_party_Return G11 G12 G13).
  rewrite (loop_Return _ _ _ _ _ _ _ format_movement_str
             format_movement_Return G14 G15 G16).
  rewrite !(get_path_under _ _ _ _ Src) by discriminate.
  rewrite !(items_under _ _ _ _ Src) by discriminate.
  reflexivity.
Qed.

(** Whenever [format_response] returns, it returns the normalised
    result of the specification. *)
Lemma format_response_Return response o :
  format_response response = Return o -> o = normalize response.
Proof.
  unfold format_response. intros H.
  invert_bind H h1 G1. invert_bind H tot G2. invert_bind H val G3.
  invert_bind H h2 G4. invert_bind H pv G5. invert_bind H hits G6.
  invert_bind H processes G7.
  injection H as <-. unfold normalize.
  rewrite (loop_Return _ _ _ _ _ _ _ format_hit_str format_hit_Return G5 G6 G7).
  apply get_Return in G3 as [_ ->].
  rewrite (get_path_under _ _ _ ["value"] G2) by discriminate.
  rewrite (get_path_under _ _ _ ["total"; "value"] G1) by discriminate.
  rewrite (items_under _ _ _ ["hits"] G4) by discriminate.
  reflexivity.
Qed.

(** *** The loop bodies on shaped input *)

Lemma shaped_default_object o :
  from_option is_object true o = true -> exists g, default (JObj []) o = JObj g.
Proof. destruct o as [[]|]; simpl; try discriminate; eauto. Qed.

Lemma shaped_default_array shaped o :
  from_option (array_of shaped) true o = true ->
  exists l, default (JArr []) o = JArr l /\ forallb shaped l = true.
Proof. destruct o as [[]|]; simpl; try discriminate; eauto. Qed.

Lemma mapM_succeeds (f : json -> outcome json) shaped l :
  (forall x, shaped x = true -> exists o, f x = Return o) ->
  forallb shaped l = true ->
  exists outs, mapM f l = Return outs.
Proof.
  intros Hf. induction l as [|x l IH]; [simpl; eauto |].
  simpl. intros H. apply andb_true_iff in H as [Hx Hl].
  destruct (Hf _ Hx) as [o ->]. destruct (IH Hl) as [outs ->].
  simpl. eauto.
Qed.

Ltac run := cbn [get iter mbind outcome_bind mret outcome_ret].

Lemma format_lawyer_succeeds advogado :
  lawyer_shaped advogado = true -> exists o, format_lawyer advogado = Return o.
Proof.
  destruct advogado; try discriminate. intros H.
  cbn [lawyer_shaped object_with forallb] in H.
  apply andb_true_iff in H as [Hp _].
  destruct (shaped_default_object _ Hp) as [g Eg].
  unfold format_lawyer. run. rewrite ?Eg; run. rewrite ?Eg; run. eauto.
Qed.

Lemma format_movement_succeeds movimento :
  movement_shaped movimento = true ->
  exists o, format_movement movimento = Return o.
Proof.
  destruct movimento; try discriminate. intros _.
  unfold format_movement. run. eauto.
Qed.

Lemma format_party_succeeds parte :
  party_shaped parte = true -> exists o, format_party parte = Return o.
Proof.
  destruct parte; try discriminate. intros H.
  cbn [party_shaped object_with forallb] in H.
  apply andb_true_iff in H as [Hp H]. apply andb_true_iff in H as [Ha _].
  destruct (shaped_default_object _ Hp) as [g Eg].
  destruct (shaped_default_array _ _ Ha) as (l & El & Hl).
  destruct (mapM_succeeds _ _ _ format_lawyer_succeeds Hl) as [lawyers Em].
  unfold format_party. run. rewrite ?Eg; run. rewrite ?Eg; run.
  rewrite ?El; run. rewrite ?Em; run. eauto.
Qed.

Lemma format_hit_succeeds hit :
  hit_shaped hit = true -> exists o, format_hit hit = Return o.
Proof.
  destruct hit as [| | | | | |hf]; try discriminate. intros H.
  cbn [hit_shaped object_with forallb] in H.
  apply andb_true_iff in H as [Hs _].
  unfold format_hit. run.
  destruct (assoc "_source" hf) as [source|]; [|simpl; eauto].
  cbn [from_option default id] in *.
  destruct source as [| | | | | |sf]; try discriminate.
  cbn [source_shaped object_with forallb] in Hs.
  apply andb_true_iff in Hs as [H1 Hs]. apply andb_true_iff in Hs as [H2 Hs].
  apply andb_true_iff in Hs as [H3 Hs]. apply andb_true_iff in Hs as [H4 Hs].
  apply andb_true_iff in Hs as [H5 Hs]. apply andb_true_iff in Hs as [H6 _].
  destruct (shaped_default_object _ H1) as [g1 E1].
  destruct (shaped_default_object _ H2) as [g2 E2].
  destruct (shaped_default_object _ H3) as [g3 E3].
  destruct (shaped_default_object _ H4) as [g4 E4].
  destruct (shaped_default_array _ _ H5) as (l5 & E5 & L5).
  destruct (shaped_default_array _ _ H6) as (l6 & E6 & L6).
  destruct (mapM_succeeds _ _ _ format_party_succeeds L5) as [parties M5].
  destruct (mapM_succeeds _ _ _ format_movement_succeeds L6) as [movements M6].
  run. rewrite ?E1; run. rewrite ?E2; run. rewrite ?E3; run. rewrite ?E3; run.
  rewrite ?E4; run. rewrite ?E5; run. rewrite ?M5; run.
  rewrite ?E6; run. rewrite ?M6; run. eauto.
Qed.

Lemma format_response_succeeds response :
  response_shaped response = true -> exists o, format_response response = Return o.
Proof.
  destruct response as [| | | | | |rf]; try discriminate. intros H.
  cbn [response_shaped object_with forallb] in H.
  apply andb_true_iff in H as [Hh _].
  unfold format_response. run.
  destruct (assoc "hits" rf) as [hits|]; [|simpl; eauto].
  cbn [from_option default id] in *.
  destruct hits as [| | | | | |hf]; try discriminate.
  cbn [forallb] in Hh.
  apply andb_true_iff in Hh as [H1 Hh]. apply andb_true_iff in Hh as [H2 _].
  destruct (shaped_default_object _ H1) as [g1 E1].
  destruct (shaped_default_array _ _ H2) as (l2 & E2 & L2).
  destruct (mapM_succeeds _ _ _ format_hit_succeeds L2) as [processes M2].
  run. rewrite ?E1; run. rewrite ?E2; run. rewrite ?M2; run. eauto.
Qed.

(** On a shaped response [format_response] returns, and returns the
    normalised result. *)
Lemma format_response_shaped response :
  response_shaped response = true ->
  format_response response = Return (normalize response).
Proof.
  intros H. destruct (format_response_succeeds _ H) as [o E].
  now rewrite E, (format_response_Return _ _ E).
Qed.

(** *** Order *)

Lemma mapM_mirrors (f : json -> outcome json) (R : json -> json -> Prop) l outs :
  (forall x o, f x = Return o -> R x o) ->
  mapM f l = Return outs -> mirrors R l outs.
Proof.
  intros Hf. revert outs. induction l as [|x l IH]; intros outs H.
  - injection H as <-. split; [reflexivity |]. intros i x H. discriminate.
  - simpl in H. apply bind_Return in H as (y & Hy & H).
    apply bind_Return in H as (ys & Hys & H). injection H as <-.
    destruct (IH _ Hys) as [Hlen Hnth]. split; [simpl; now f_equal |].
    intros [|i] z Hz; simpl in *.
    + injection Hz as <-. eauto.
    + eauto.
Qed.

Lemma party_of_format parte o : format_party parte = Return o -> party_of parte o.
Proof.
  intros R. split; [exact R |]. unfold format_party in R.
  invert_bind R tipo G0.
  invert_bind R p1 G1. invert_bind R nome G2.
  invert_bind R p2 G3. invert_bind R documento G4.
  invert_bind R pv G5. invert_bind R advogados G6. invert_bind R lawyers G7.
  injection R as <-. exists lawyers. split; [reflexivity |].
  rewrite <- (loop_elements _ _ _ _ _ _ format_lawyer_str G5 G6 G7).
  exact (mapM_mirrors _ lawyer_of _ _ (fun _ _ H => H) G7).
Qed.

Lemma record_of_format hit o : format_hit hit = Return o -> record_of hit o.
Proof.
  intros R. split; [exact R |]. unfold format_hit in R.
  invert_bind R source Src.
  invert_bind R numero G0.
  invert_bind R p1 G1. invert_bind R classe G2.
  invert_bind R p2 G3. invert_bind R assunto G4.
  invert_bind R p3 G5. invert_bind R data G6.
  invert_bind R p4 G7. invert_bind R valor G8.
  invert_bind R p5 G9. invert_bind R orgao G10.
  invert_bind R pv G11. invert_bind R partes G12. invert_bind R parties G13.
  invert_bind R mv G14. invert_bind R movimentos G15.
  invert_bind R movements G16.
  injection R as <-. exists parties, movements.
  rewrite <- !(items_under _ _ _ _ Src) by discriminate.
  rewrite <- (loop_elements _ _ _ _ _ _ format_party_str G11 G12 G13).
  rewrite <- (loop_elements _ _ _ _ _ _ format_movement_str G14 G15 G16).
  split; [reflexivity |].
  split; [exact (mapM_mirrors _ party_of _ _ party_of_format G13) |].
  split; [reflexivity |].
  exact (mapM_mirrors _ movement_of _ _ (fun _ _ H => H) G16).
Qed.

Lemma format_response_mirrors response o :
  format_response response = Return o ->
  exists records,
    get_path o ["processes"] = Some (JArr records) /\
    mirrors record_of (items response ["hits"; "hits"]) records.
Proof.
  intros R. unfold format_response in R.
  invert_bind R h1 G1. invert_bind R tot G2. invert_bind R val G3.
  invert_bind R h2 G4. invert_bind R pv G5. invert_bind R hits G6.
  invert_bind R processes G7.
  injection R as <-. exists processes. split; [reflexivity |].
  rewrite <- (items_under _ _ _ ["hits"] G4) by discriminate.
  rewrite <- (loop_elements _ _ _ _ _ _ format_hit_str G5 G6 G7).
  exact (mapM_mirrors _ record_of _ _ record_of_format G7).
Qed.

End NormalFacts.

(** ** The scenarios of the test suite and of the specification *)

Module Scenarios.
Import Chars Re Py Tables Agent.

Example extract_in_the_middle :
  result (extract_process_number
    "This is a text containing a process number 0000001-70.2020.1.00.0000 in the middle.")
  = Return (Some "0000001-70.2020.1.00.0000").
Proof. reflexivity. Qed.

Example extract_missing_digit :
  result (extract_process_number
    "This is a text containing an invalid process number 000000-70.2020.1.00.0000 in the middle.")
  = Return None.
Proof. reflexivity. Qed.

Example extract_nothing :
  result (extract_process_number "This text does not contain any process number.")
  = Return None.
Proof. reflexivity. Qed.

(** The pattern checks the grouping of the digits only: an identifier
    with a justice type outside the table is extracted all the same. *)
Example extract_unknown_justice_type :
  result (extract_process_number "numero 0000001-70.2020.9.00.0000 aqui")
  = Return (Some "0000001-70.2020.9.00.0000").
Proof. reflexivity. Qed.

Example identify_federal :
  result (identify_court_from_process_number "0000001-70.2020.1.01.0000")
  = Return (Some "trf1").
Proof. reflexivity. Qed.

Example identify_state :
  result (identify_court_from_process_number "0000002-80.2020.2.26.0000")
  = Return (Some "tjsp").
Proof. reflexivity. Qed.

Example identify_labor :
  result (identify_court_from_process_number "0000003-90.2020.3.05.0000")
  = Return (Some "trt5").
Proof. reflexivity. Qed.

Example identify_electoral :
  result (identify_court_from_process_number "0000004-10.2020.4.11.0000")
  = Return (Some "tre-mg").
Proof. reflexivity. Qed.

Example identify_superior :
  result (identify_court_from_process_number "0000005-20.2020.6.00.0000")
  = Return (Some "stf").
Proof. reflexivity. Qed.

Example identify_invalid_inputs :
  result <$> (identify_court_from_process_number <$>
    ["000000-70.2020.1.00.0000"; "0000001-70.2020.9.00.0000";
     "0000001-70.2020.1.99.0000"; "not-a-process-number";
     "0000001702020100.0000"])
  = [Return None; Return None; Return None; Return None; Return None].
Proof. reflexivity. Qed.

(** A hit whose "classe" is present but null: the chained [get] raises. *)
Example format_response_null_container :
  format_response
    (JObj [("hits",
            JObj [("hits",
                   JArr [JObj [("_source",
                                JObj [("numeroProcesso", JStr "0000005-20.2020.6.00.0000");
                                      ("classe", JNull)])]])])])
  = Raise (Exn AttributeError "'NoneType' object has no attribute 'get'").
Proof. reflexivity. Qed.

(** A whole run on free text against a search API that finds nothing. *)
Example process_query_free_text :
  result (process_query
    {| session_post := fun url _ _ _ =>
         if String.eqb url
              "https://api-publica.datajud.cnj.jus.br/api_publica_stf/_search"
         then Return (JObj [("hits", JObj [("total", JObj [("value", JNum 0)]);
                                           ("hits", JArr [])])])
         else Raise (Exn RequestException "404 Client Error");
       environ_DATAJUD_API_KEY := Some "secret";
       now_isoformat := "2024-05-02T10:00:00";
       json_dumps := fun _ => "{}" |}
    "habeas corpus")
  = Return
      (JObj [("total_hits", JNum 0); ("processes", JArr []);
             ("metadata",
              JObj [("query", JStr "habeas corpus");
                    ("process_number", JNull);
                    ("court", JStr "stf");
                    ("timestamp", JStr "2024-05-02T10:00:00")])]).
Proof. reflexivity. Qed.

End Scenarios.

(** ** The properties of the specification *)

Module Claims.
Import Chars Re Py Tables Agent Identifier Directory Normal Wire Laws IdentifierFacts Routing NormalFacts.

(** Every court code of the classification table has an endpoint. *)
Lemma mapping_codes_have_endpoints :
  map_Forall (fun _ (courts : gmap string string) =>
    map_Forall (fun _ code => is_Some (COURT_ENDPOINTS !! code)) courts)
    COURT_CODE_MAPPING.
Proof. apply (bool_decide_unpack _). vm_compute. exact I. Qed.

Lemma lookup_court_has_endpoint j c code :
  lookup_court j c = Some code -> is_Some (COURT_ENDPOINTS !! code).
Proof.
  unfold lookup_court. intros H.
  apply bind_Some in H as (courts & E & E').
  exact (mapping_codes_have_endpoints _ _ E _ _ E').
Qed.

(** What [resolve_target] returns: the free-text default, or the court
    of the table for the extracted identifier. *)
Lemma resolve_target_cases text pn court query :
  result (resolve_target text) = Return (pn, court, query) ->
  (pn = None /\ court = "stf" /\ query = multi_field_body text) \/
  (exists number a b j c e,
     pn = Some number /\
     result (extract_process_number text) = Return (Some number) /\
     split "." number = [a; b; j; c; e] /\
     lookup_court j c = Some court /\
     query = exact_match_body number).
Proof.
  rewrite resolve_target_result.
  destruct (search CNJ_PATTERN text) as [number|] eqn:S.
  - assert (X : result (extract_process_number text) = Return (Some number))
      by now rewrite extract_result, S.
    pose proof (grammar_truthy _ (extracted_grammar _ _ X)) as T.
    destruct (five_parts _ (extracted_five_segments _ _ X))
      as (a & b & j & c & e & E).
    rewrite (route_identifier _ _ T), (identify_parts _ _ _ _ _ _ E).
    destruct (lookup_court j c) as [[|x code]|] eqn:L; try discriminate.
    intros [= <- <- <-]. right. exists number, a, b, j, c, e. auto.
  - intros [= <- <- <-]. left. auto.
Qed.

Ltac each_leaf :=
  let H := fresh "H" in
  intros ? ? H; simpl in H;
  repeat (destruct H as [H | H]; [injection H as <- <-; reflexivity |]);
  contradiction.

(** C1, as the specification words it, fails: the text below contains
    a substring of the identifier grammar (its first, at the very start),
    yet nothing is extracted, because an underscore follows the last digit
    and the pattern ends in a word boundary. *)
Lemma C1_occurrence_without_boundary_is_missed :
  first_occurrence "0000001-70.2020.1.00.0000_sentenca.pdf"
    "" "0000001-70.2020.1.00.0000" "_sentenca.pdf" /\
  result (extract_process_number "0000001-70.2020.1.00.0000_sentenca.pdf")
  = Return None.
Proof.
  split; [|reflexivity].
  split; [split; reflexivity |]. intros; simpl; lia.
Qed.

(** C1 (amended): [extract_process_number] never raises; it returns [m]
    exactly when [m] is the first substring of the text that has the shape
    of the identifier grammar and is a whole token (no word character
    right before it, none right after it), and it returns [None] exactly
    when the text has no such token; in particular it returns [None] when
    no substring has the shape of the grammar at all. *)
Theorem C1_extract_first_whole_token (text : string) :
  (exists found, result (extract_process_number text) = Return found) /\
  (forall m, result (extract_process_number text) = Return (Some m) <->
             exists pre post, first_token text pre m post) /\
  (result (extract_process_number text) = Return None <->
   forall pre m post, ~ token text pre m post) /\
  ((forall pre m post, ~ occurrence text pre m post) ->
   result (extract_process_number text) = Return None).
Proof.
  rewrite extract_result. repeat split.
  - eauto.
  - intros [= H]. now apply search_first_token.
  - intros H. f_equal. now apply search_first_token.
  - intros [= H]. now apply search_no_token.
  - intros H. f_equal. now apply search_no_token.
  - intros H. f_equal. apply search_no_token.
    intros pre m post [O _]. exact (H _ _ _ O).
Qed.

Lemma C1_extract_first_whole_token_witness :
  result (extract_process_number
            "ver 0000001-70.2020.1.00.0000_a e 0000002-80.2020.2.26.0000.")
  = Return (Some "0000002-80.2020.2.26.0000") /\
  exists pre post,
    first_token "ver 0000001-70.2020.1.00.0000_a e 0000002-80.2020.2.26.0000."
      pre "0000002-80.2020.2.26.0000" post.
Proof.
  assert (E : result (extract_process_number
            "ver 0000001-70.2020.1.00.0000_a e 0000002-80.2020.2.26.0000.")
          = Return (Some "0000002-80.2020.2.26.0000")) by reflexivity.
  split; [exact E |].
  exact (proj1 (proj1 (proj2 (C1_extract_first_whole_token _)) _) E).
Defined.

(** C3: a pair of justice type and court identifier that the table does
    not list has no court (every pair under justice type "5" is such a
    pair), [identify_court_from_process_number] returns [None] for an
    identifier that carries it, and when the identifier was extracted from
    the query text [process_query] raises [ValueError] to its caller; no
    court is chosen in its place. *)
Theorem C3_unlisted_court_is_an_error :
  (forall j c, ~ listed j c -> lookup_court j c = None) /\
  (forall c, ~ listed "5" c) /\
  (forall w text pn a b j c e,
     result (extract_process_number text) = Return (Some pn) ->
     split "." pn = [a; b; j; c; e] ->
     ~ listed j c ->
     result (identify_court_from_process_number pn) = Return None /\
     result (resolve_target text) =
       Raise (Exn ValueError
                ("Could not identify court for process number: " +:+ pn)) /\
     result (process_query w text) =
       Raise (Exn ValueError
                ("Could not identify court for process number: " +:+ pn))).
Proof.
  split; [exact lookup_court_unlisted |]. split.
  - intros c (courts & code & E & E').
    assert (M5 : COURT_CODE_MAPPING !! "5" = Some (∅ : gmap string string))
      by (vm_compute; reflexivity).
    rewrite M5 in E. injection E as <-.
    now rewrite lookup_empty in E'.
  - intros w text pn a b j c e X S U.
    pose proof (identify_parts _ _ _ _ _ _ S) as I.
    rewrite (lookup_court_unlisted _ _ U) in I.
    assert (R : result (resolve_target text) =
                Raise (Exn ValueError
                  ("Could not identify court for process number: " +:+ pn))).
    { rewrite resolve_target_result.
      pose proof (grammar_truthy _ (extracted_grammar _ _ X)) as T.
      rewrite extract_result in X. injection X as ->.
      now rewrite route_identifier, I. }
    split; [now rewrite I |]. split; [exact R |].
    now apply process_query_raises.
Qed.

Lemma C3_unlisted_court_is_an_error_witness :
  result (identify_court_from_process_number "0000009-15.2021.5.01.0000")
  = Return None /\
  result (resolve_target "consulta 0000009-15.2021.5.01.0000") =
    Raise (Exn ValueError
      "Could not identify court for process number: 0000009-15.2021.5.01.0000") /\
  result (process_query quiet_world "consulta 0000009-15.2021.5.01.0000") =
    Raise (Exn ValueError
      "Could not identify court for process number: 0000009-15.2021.5.01.0000").
Proof.
  destruct C3_unlisted_court_is_an_error as (_ & Military & Unlisted).
  apply (Unlisted quiet_world "consulta 0000009-15.2021.5.01.0000"
           "0000009-15.2021.5.01.0000" "0000009-15" "2021" "5" "01" "0000").
  - reflexivity.
  - reflexivity.
  - apply Military.
Defined.

(** C4: the exact-match query built for an identifier [X] carries [X]
    as the value matched against numeroProcesso, and normalising a
    response of the consumed shape whose hits.hits holds a single hit with
    _source.numeroProcesso = [X] yields exactly one record, whose
    numero_processo is [X]. *)
Theorem C4_round_trip (X : string) (response hit : json) :
  response_shaped response = true ->
  get_path response ["hits"; "hits"] = Some (JArr [hit]) ->
  get_path hit ["_source"; "numeroProcesso"] = Some (JStr X) ->
  (exists query clause,
     result (build_process_number_query X) = Return query /\
     get_path query ["query"; "bool"; "must"] = Some (JArr [clause]) /\
     get_path clause ["match"; "numeroProcesso"] = Some (JStr X)) /\
  (exists total_hits record,
     format_response response =
     Return (JObj [("total_hits", total_hits); ("processes", JArr [record])]) /\
     get_path record ["numero_processo"] = Some (JStr X)).
Proof.
  intros Sh Hh Hx. split.
  - eexists. eexists. repeat split.
  - rewrite (format_response_shaped _ Sh). unfold normalize, items.
    rewrite Hh. simpl fmap. eexists. eexists. split; [reflexivity |].
    unfold normalize_hit, leaf. now rewrite Hx.
Qed.

Lemma C4_round_trip_witness :
  (exists query clause,
     result (build_process_number_query "0000001-70.2020.6.00.0000")
     = Return query /\
     get_path query ["query"; "bool"; "must"] = Some (JArr [clause]) /\
     get_path clause ["match"; "numeroProcesso"]
     = Some (JStr "0000001-70.2020.6.00.0000")) /\
  (exists total_hits record,
     format_response sample_response =
     Return (JObj [("total_hits", total_hits); ("processes", JArr [record])]) /\
     get_path record ["numero_processo"] = Some (JStr "0000001-70.2020.6.00.0000")).
Proof.
  apply (C4_round_trip "0000001-70.2020.6.00.0000" sample_response sample_hit);
    reflexivity.
Defined.

(** C5: when no process identifier is found in the query text,
    [process_query] selects the court code "stf" and builds the
    multi-field query over the four fields classe.nome, assunto.nome,
    orgaoJulgador.nome, dadosBasicos.valorCausa, in that order; the
    request goes to the endpoint of "stf" with that body. *)
Theorem C5_free_text_defaults_to_stf (w : World) (text : string) :
  result (extract_process_number text) = Return None ->
  result (resolve_target text) = Return (None, "stf", multi_field_body text) /\
  get_path (multi_field_body text) ["query"; "multi_match"; "fields"] =
    Some (JArr [JStr "classe.nome"; JStr "assunto.nome";
                JStr "orgaoJulgador.nome"; JStr "dadosBasicos.valorCausa"]) /\
  result (process_query w text) =
    result (fetch w text (None, "stf", multi_field_body text)) /\
  query_api w "stf" (multi_field_body text) =
    send_request w "api_publica_stf" (multi_field_body text).
Proof.
  intros H. rewrite extract_result in H. injection H as H.
  assert (R : result (resolve_target text)
              = Return (None, "stf", multi_field_body text))
    by now rewrite resolve_target_result, H.
  split; [exact R |]. split; [reflexivity |]. split; [|reflexivity].
  unfold process_query. now apply result_bind_return.
Qed.

Lemma C5_free_text_defaults_to_stf_witness :
  result (resolve_target "habeas corpus") =
    Return (None, "stf", multi_field_body "habeas corpus") /\
  get_path (multi_field_body "habeas corpus") ["query"; "multi_match"; "fields"] =
    Some (JArr [JStr "classe.nome"; JStr "assunto.nome";
                JStr "orgaoJulgador.nome"; JStr "dadosBasicos.valorCausa"]) /\
  result (process_query quiet_world "habeas corpus") =
    result (fetch quiet_world "habeas corpus"
              (None, "stf", multi_field_body "habeas corpus")) /\
  query_api quiet_world "stf" (multi_field_body "habeas corpus") =
    send_request quiet_world "api_publica_stf" (multi_field_body "habeas corpus").
Proof.
  apply (C5_free_text_defaults_to_stf quiet_world "habeas corpus").
  reflexivity.
Defined.

(** C6: on a response of the consumed shape, whatever optional data is
    missing, [format_response] returns and does not raise; the total is
    the value under hits.total.value, or 0 when that chain is missing;
    every leaf of a record, of a party, of a lawyer and of a movement is
    the value under its key chain, or "N/A" when the chain is missing; and
    a response with hits.total.value = 0 and an empty hits.hits gives
    total 0 and no records. *)
Theorem C6_missing_data_defaults :
  (forall response, response_shaped response = true ->
     format_response response = Return (normalize response)) /\
  (forall response o, format_response response = Return o ->
     get_path o ["total_hits"] =
     Some (default (JNum 0) (get_path response ["hits"; "total"; "value"]))) /\
  (forall hit o, format_hit hit = Return o ->
     sentinel_at_missing record_leaves hit o) /\
  (forall parte o, format_party parte = Return o ->
     sentinel_at_missing party_leaves parte o) /\
  (forall advogado o, format_lawyer advogado = Return o ->
     sentinel_at_missing lawyer_leaves advogado o) /\
  (forall movimento o, format_movement movimento = Return o ->
     sentinel_at_missing movement_leaves movimento o) /\
  (forall response,
     get_path response ["hits"; "total"; "value"] = Some (JNum 0) ->
     get_path response ["hits"; "hits"] = Some (JArr []) ->
     format_response response =
     Return (JObj [("total_hits", JNum 0); ("processes", JArr [])])).
Proof.
  split; [exact format_response_shaped |].
  split; [intros response o H;
          now rewrite (format_response_Return _ _ H) |].
  split; [intros hit o H; rewrite (format_hit_Return _ _ H); each_leaf |].
  split; [intros v o H; rewrite (format_party_Return _ _ H); each_leaf |].
  split; [intros v o H; rewrite (format_lawyer_Return _ _ H); each_leaf |].
  split; [intros v o H; rewrite (format_movement_Return _ _ H); each_leaf |].
  intros response Ht Hh.
  assert (Sh : response_shaped response = true).
  { destruct response as [| | | | | |rf]; try discriminate.
    cbn [get_path] in Ht, Hh. cbn [response_shaped object_with forallb].
    destruct (assoc "hits" rf) as [[| | | | | |hf]|]; try discriminate.
    cbn [mbind option_bind] in Ht, Hh.
    cbn [from_option object_with forallb].
    destruct (assoc "total" hf) as [[]|]; try discriminate.
    destruct (assoc "hits" hf) as [[]|]; try discriminate.
    cbn [mbind option_bind get_path] in Hh. injection Hh as ->. reflexivity. }
  rewrite (format_response_shaped _ Sh). unfold normalize, items.
  now rewrite Ht, Hh.
Qed.

Lemma C6_missing_data_defaults_witness :
  format_response sparse_response =
  Return
    (JObj [("total_hits", JNum 0);
           ("processes",
            JArr [JObj [("numero_processo", JStr "0000005-20.2020.6.00.0000");
                        ("classe", JStr "N/A"); ("assunto", JStr "N/A");
                        ("data_ajuizamento", JStr "N/A");
                        ("valor_causa", JStr "N/A");
                        ("orgao_julgador", JStr "N/A");
                        ("partes",
                         JArr [JObj [("tipo", JStr "PACIENTE");
                                     ("nome", JStr "N/A");
                                     ("documento", JStr "N/A");
                                     ("advogados",
                                      JArr [JObj [("nome", JStr "N/A");
                                                  ("documento", JStr "N/A")]])]]);
                        ("movimentos",
                         JArr [JObj [("data", JStr "N/A");
                                     ("nome", JStr "Conclusos");
                                     ("complemento", JStr "N/A")]])]])]).
Proof.
  exact (proj1 C6_missing_data_defaults sparse_response eq_refl).
Defined.

(** C7: [format_response] returns on every response of the consumed
    shape, and whenever it returns, the output has one record per element
    of hits.hits, at the same index, which is the formatted hit; within a
    record the parties and the movements, and within a party the lawyers,
    correspond in the same way to the input's partes, movimentos and
    advogados: same length, same order, nothing sorted, dropped or
    merged. *)
Theorem C7_order_is_preserved :
  (forall response, response_shaped response = true ->
     exists o, format_response response = Return o) /\
  (forall response o, format_response response = Return o ->
     exists records,
       get_path o ["processes"] = Some (JArr records) /\
       mirrors record_of (items response ["hits"; "hits"]) records).
Proof.
  split; [exact format_response_succeeds | exact format_response_mirrors].
Qed.

Lemma C7_order_is_preserved_witness :
  exists records,
    get_path (normalize sample_response) ["processes"] = Some (JArr records) /\
    mirrors record_of (items sample_response ["hits"; "hits"]) records.
Proof.
  exact (proj2 C7_order_is_preserved sample_response
           (normalize sample_response) eq_refl).
Defined.

(** C8: [build_process_number_query] returns exactly the body
    {"query":{"bool":{"must":[{"match":{"numeroProcesso": X}}]}},"size":100}
    with the identifier [X] as it was given, hyphen and dots included, and
    every query of the builder, exact, multi-field or single-field, has
    "size" 100. *)
Theorem C8_query_bodies_and_size :
  (forall identifier,
     result (build_process_number_query identifier)
     = Return (exact_match_body identifier) /\
     get_path (exact_match_body identifier) ["size"] = Some (JNum 100)) /\
  (forall text field,
     exists query,
       result (build_text_search_query text field) = Return query /\
       get_path query ["size"] = Some (JNum 100)) /\
  (forall text,
     result (build_text_search_query text None) = Return (multi_field_body text) /\
     result (build_text_search_query text (Some EmptyString))
     = Return (multi_field_body text)) /\
  (forall text c field,
     result (build_text_search_query text (Some (String c field)))
     = Return (single_field_body (String c field) text)).
Proof.
  split; [now intros |]. split; [|split; now intros].
  intros text [[|c field]|]; eexists; split; reflexivity.
Qed.

(** C9: every string that [extract_process_number] returns contains
    exactly four dots and splits on '.' into exactly five segments, so
    [identify_court_from_process_number] never takes its invalid-format
    branch on it: it goes on to the table lookup with the third and fourth
    segments. *)
Theorem C9_extracted_identifier_has_five_segments (text pn : string) :
  result (extract_process_number text) = Return (Some pn) ->
  count_char "." pn = 4 /\
  length (split "." pn) = 5 /\
  (exists a b j c e,
     split "." pn = [a; b; j; c; e] /\
     result (identify_court_from_process_number pn) = Return (lookup_court j c)) /\
  ~ In (WARNING, "Invalid process number format: " +:+ pn)
       (logged (identify_court_from_process_number pn)).
Proof.
  intros H. apply extracted_grammar in H. apply cnj_grammar_dots in H.
  assert (L : length (split "." pn) = 5) by now rewrite split_length, H.
  split; [exact H |]. split; [exact L |].
  destruct (five_parts _ L) as (a & b & j & c & e & E).
  rewrite (identify_parts _ _ _ _ _ _ E).
  split.
  - exists a, b, j, c, e. split; [exact E |].
    now destruct (lookup_court j c).
  - destruct (lookup_court j c); simpl; intros [X | []]; discriminate.
Qed.

Lemma C9_extracted_identifier_has_five_segments_witness :
  count_char "." "0000003-90.2020.3.05.0000" = 4 /\
  length (split "." "0000003-90.2020.3.05.0000") = 5 /\
  (exists a b j c e,
     split "." "0000003-90.2020.3.05.0000" = [a; b; j; c; e] /\
     result (identify_court_from_process_number "0000003-90.2020.3.05.0000")
     = Return (lookup_court j c)) /\
  ~ In (WARNING, "Invalid process number format: " +:+ "0000003-90.2020.3.05.0000")
       (logged (identify_court_from_process_number "0000003-90.2020.3.05.0000")).
Proof.
  apply (C9_extracted_identifier_has_five_segments
           "Processo 0000003-90.2020.3.05.0000, TRT5").
  reflexivity.
Defined.

(** C10: every court code that is a value of [COURT_CODE_MAPPING] is a
    key of [COURT_ENDPOINTS], and so is the default "stf"; hence a court
    code that [process_query]'s routing produced passes the check at the
    head of [query_api], which goes on to send the request. *)
Theorem C10_routed_court_has_endpoint :
  (forall j courts c code,
     COURT_CODE_MAPPING !! j = Some courts -> courts !! c = Some code ->
     is_Some (COURT_ENDPOINTS !! code)) /\
  is_Some (COURT_ENDPOINTS !! "stf") /\
  (forall w text pn court query,
     result (resolve_target text) = Return (pn, court, query) ->
     exists endpoint,
       COURT_ENDPOINTS !! court = Some endpoint /\
       query_api w court query = send_request w endpoint query).
Proof.
  assert (Stf : is_Some (COURT_ENDPOINTS !! "stf")) by (vm_compute; eauto).
  split; [|split; [exact Stf |]].
  - intros j courts c code E E'.
    exact (mapping_codes_have_endpoints _ _ E _ _ E').
  - intros w text pn court query H.
    assert (X : is_Some (COURT_ENDPOINTS !! court)).
    { apply resolve_target_cases in H
        as [(_ & -> & _) | (n & a & b & j & c & e & _ & _ & _ & L & _)];
        [exact Stf | exact (lookup_court_has_endpoint _ _ _ L)]. }
    destruct X as [endpoint X]. exists endpoint. split; [exact X |].
    unfold query_api. now rewrite X.
Qed.

Lemma C10_routed_court_has_endpoint_witness :
  exists endpoint,
    COURT_ENDPOINTS !! "tre-mg" = Some endpoint /\
    query_api quiet_world "tre-mg" (exact_match_body "0000004-10.2020.4.11.0000")
    = send_request quiet_world endpoint
        (exact_match_body "0000004-10.2020.4.11.0000").
Proof.
  apply (proj2 (proj2 C10_routed_court_has_endpoint) quiet_world
           "recurso 0000004-10.2020.4.11.0000 TRE"
           (Some "0000004-10.2020.4.11.0000")).
  reflexivity.
Defined.

End Claims.

(** ** Further properties of the agent *)

Module Extras.
Import Chars Re Py Tables Agent Identifier Directory Normal Wire Pipeline.
Import Laws IdentifierFacts Routing NormalFacts.

(** *** The request *)

Lemma send_request_run w endpoint query :
  send_request w endpoint query =
  match answer w endpoint query with
  | Return data =>
      match hit_count data with
      | Return n =>
          Run (Return data)
            (request_log w endpoint query ++
             [(DEBUG, "Received response with " +:+ str_of_nat n +:+ " hits")])
      | Raise e =>
          if is_kind RequestException e
          then Run (Raise e)
                 (request_log w endpoint query ++
                  [(ERROR, "API request error: " +:+ message e)])
          else Run (Raise e) (request_log w endpoint query)
      end
  | Raise e =>
      if is_kind RequestException e
      then Run (Raise e)
             (request_log w endpoint query ++
              [(ERROR, "API request error: " +:+ message e)])
      else Run (Raise e) (request_log w endpoint query)
  end.
Proof.
  unfold send_request, answer, request_log, request_headers, request_url,
    hit_count.
  destruct (environ_DATAJUD_API_KEY w) as [[|c key]|].
  all: cbv beta iota delta
         [mbind M_bind lift mret M_ret log raise result logged try_except].
  all: simpl app.
  all: match goal with
       | |- context [session_post ?w0 ?u ?h ?q ?t] =>
           destruct (session_post w0 u h q t) as [data|e] eqn:A
       end.
  all: try match goal with
       | |- context [outcome_bind ?A ?B ?f ?m] =>
           destruct (outcome_bind A B f m) as [n|e] eqn:C
       end.
  all: try (destruct e as [[] msg]); reflexivity.
Qed.

Lemma request_log_nonempty w endpoint query : request_log w endpoint query <> [].
Proof.
  unfold request_log.
  destruct (environ_DATAJUD_API_KEY w) as [[|c k]|]; discriminate.
Qed.

Lemma send_request_result w endpoint query :
  result (send_request w endpoint query) =
  (data ← answer w endpoint query; _ ← hit_count data; mret data).
Proof.
  rewrite send_request_run.
  destruct (answer w endpoint query) as [data|e]; cbn [mbind outcome_bind].
  - destruct (hit_count data) as [n|e]; [reflexivity |].
    now destruct e as [[] msg].
  - now destruct e as [[] msg].
Qed.

Lemma send_request_logged w endpoint query :
  exists rest, logged (send_request w endpoint query)
               = request_log w endpoint query ++ rest.
Proof.
  rewrite send_request_run.
  destruct (answer w endpoint query) as [data|e];
    [destruct (hit_count data) as [n|e] |];
    try destruct (is_kind RequestException e); simpl;
    try (eexists; reflexivity).
  all: exists []; now rewrite app_nil_r.
Qed.

(** X1: [query_api] raises [ValueError] "Invalid court code: ..." with
    nothing logged, hence before any request, exactly when the court code
    is not a key of [COURT_ENDPOINTS]. *)
Theorem X1_query_api_invalid_court (w : World) (court_code : string) (query : json) :
  query_api w court_code query =
  Run (Raise (Exn ValueError ("Invalid court code: " +:+ court_code))) []
  <-> COURT_ENDPOINTS !! court_code = None.
Proof.
  unfold query_api. split.
  - destruct (COURT_ENDPOINTS !! court_code) as [endpoint|]; [|reflexivity].
    intros H. exfalso.
    destruct (send_request_logged w endpoint query) as [rest L].
    rewrite H in L. simpl in L. symmetry in L.
    apply app_eq_nil in L as [L _].
    exact (request_log_nonempty _ _ _ L).
  - now intros ->.
Qed.

Lemma query_api_returns_iff w court_code query data :
  result (query_api w court_code query) = Return data <->
  exists endpoint n,
    COURT_ENDPOINTS !! court_code = Some endpoint /\
    session_post w (API_BASE_URL +:+ "/" +:+ endpoint +:+ "/_search")
      (request_headers w) query 30 = Return data /\
    hit_count data = Return n.
Proof.
  unfold query_api.
  destruct (COURT_ENDPOINTS !! court_code) as [endpoint|].
  - rewrite send_request_result. fold (request_url endpoint).
    change (session_post w (request_url endpoint) (request_headers w) query 30)
      with (answer w endpoint query).
    split.
    + destruct (answer w endpoint query) as [d|e] eqn:A; [|discriminate].
      simpl. destruct (hit_count d) as [n|e] eqn:C; [|discriminate].
      intros [= ->]. exists endpoint, n. rewrite C.
      repeat split; try reflexivity.
      unfold request_url in A. exact A.
    + intros (ep & n & [= <-] & A & C).
      unfold answer, request_url, DEFAULT_TIMEOUT. rewrite A. simpl.
      now rewrite C.
  - split; [discriminate |]. intros (ep & n & E & _). discriminate.
Qed.

(** X2: [query_api] returns [data] exactly when the court code has an
    endpoint, the session answers the POST to
    API_BASE_URL/endpoint/_search (content headers, the API key header
    when one is set, timeout 30) with [data], and the number of hits of
    [data] can be computed for the log line; it then returns [data]
    unchanged. *)
Theorem X2_query_api_returns (w : World) (court_code : string) (query data : json) :
  result (query_api w court_code query) = Return data <->
  exists endpoint n,
    COURT_ENDPOINTS !! court_code = Some endpoint /\
    session_post w (API_BASE_URL +:+ "/" +:+ endpoint +:+ "/_search")
      (request_headers w) query 30 = Return data /\
    hit_count data = Return n.
Proof. apply query_api_returns_iff. Qed.

(** *** The whole run *)

Lemma result_bind {A B} (m : M A) (f : A -> M B) :
  result (m ≫= f) = (a ← result m; result (f a)).
Proof. unfold mbind at 1, M_bind. now destruct (result m). Qed.

Lemma logged_bind {A B} (m : M A) (f : A -> M B) :
  logged (m ≫= f) =
  logged m ++ match result m with
              | Return a => logged (f a)
              | Raise _ => []
              end.
Proof.
  unfold mbind, M_bind. destruct (result m); simpl; [reflexivity |].
  now rewrite app_nil_r.
Qed.

(** A handler that logs one error and raises the exception again. *)
Lemma try_except_reraise {A} (body : M A) k (text : exn -> string) :
  try_except body (is_kind k) (fun e => log ERROR (text e);; raise e) =
  Run (result body)
      (logged body ++
       match result body with
       | Return _ => []
       | Raise e => if is_kind k e then [(ERROR, text e)] else []
       end).
Proof.
  unfold try_except. destruct body as [[a|e] l]; simpl.
  - now rewrite app_nil_r.
  - destruct (is_kind k e); simpl; [reflexivity | now rewrite app_nil_r].
Qed.

Lemma fetch_result w text pn court query :
  result (fetch w text (pn, court, query)) =
  (response ← result (query_api w court query);
   formatted ← format_response response;
   set_item formatted "metadata" (metadata_of w text pn court)).
Proof.
  unfold fetch. rewrite try_except_reraise. cbn [result].
  rewrite result_bind.
  destruct (result (query_api w court query)) as [r|e]; [|reflexivity].
  cbn [mbind outcome_bind]. rewrite result_bind. cbn [lift result].
  destruct (format_response r); reflexivity.
Qed.

Lemma process_query_result w text :
  result (process_query w text) =
  (target ← result (resolve_target text); result (fetch w text target)).
Proof. apply result_bind. Qed.

(** On a shaped response the hits can be counted. *)
Lemma hit_count_shaped response :
  response_shaped response = true -> exists n, hit_count response = Return n.
Proof.
  destruct response as [| | | | | |rf]; try discriminate. intros H.
  cbn [response_shaped object_with forallb] in H.
  apply andb_true_iff in H as [Hh _].
  unfold hit_count. cbn [get mbind outcome_bind].
  destruct (assoc "hits" rf) as [hits|]; [|simpl; eauto].
  cbn [from_option default id] in *.
  destruct hits as [| | | | | |hf]; try discriminate.
  cbn [forallb] in Hh.
  apply andb_true_iff in Hh as [_ Hh]. apply andb_true_iff in Hh as [H2 _].
  destruct (shaped_default_array _ _ H2) as (l & El & _).
  cbn [get mbind outcome_bind]. rewrite El. simpl. eauto.
Qed.

(** X3: the whole pipeline on a good answer.  When routing gives a
    court and a query, the session answers the request for that court's
    endpoint with a response of the consumed shape, [process_query] returns
    the normalised response followed by the metadata: the original text,
    the extracted identifier (null when none), the court code and the
    time of the call. *)
Theorem X3_process_query_end_to_end (w : World) (text : string)
    (pn : option string) (court endpoint : string) (query response : json) :
  result (resolve_target text) = Return (pn, court, query) ->
  COURT_ENDPOINTS !! court = Some endpoint ->
  session_post w (API_BASE_URL +:+ "/" +:+ endpoint +:+ "/_search")
    (request_headers w) query 30 = Return response ->
  response_shaped response = true ->
  result (process_query w text) =
  Return
    (JObj [("total_hits",
            default (JNum 0) (get_path response ["hits"; "total"; "value"]));
           ("processes", JArr (normalize_hit <$> items response ["hits"; "hits"]));
           ("metadata",
            JObj [("query", JStr text);
                  ("process_number", json_option pn);
                  ("court", JStr court);
                  ("timestamp", JStr (now_isoformat w))])]).
Proof.
  intros R E A Sh.
  rewrite process_query_result, R. cbn [mbind outcome_bind].
  rewrite fetch_result.
  destruct (hit_count_shaped _ Sh) as [n C].
  assert (Q : result (query_api w court query) = Return response)
    by (apply query_api_returns_iff; eauto).
  rewrite Q. cbn [mbind outcome_bind].
  now rewrite (format_response_shaped _ Sh).
Qed.

(** *** The tables *)

Lemma triples_lookup (m : gmap string (gmap string string)) j c code :
  (j, c, code) ∈ ('(j, courts) ← map_to_list m;
                  '(c, code) ← map_to_list courts;
                  [(j, c, code)])
  <-> m !! j ≫= (.!! c) = Some code.
Proof.
  rewrite list_elem_of_bind. split.
  - intros ([j' courts] & H & Hj). apply elem_of_map_to_list in Hj.
    apply list_elem_of_bind in H as ([c' code'] & H & Hc).
    apply elem_of_map_to_list in Hc.
    apply list_elem_of_singleton in H. simplify_eq.
    rewrite Hj. exact Hc.
  - intros H. apply bind_Some in H as (courts & Hj & Hc).
    exists (j, courts). split; [|now apply elem_of_map_to_list].
    apply list_elem_of_bind. exists (c, code).
    split; [now apply list_elem_of_singleton | now apply elem_of_map_to_list].
Qed.

Lemma listed_triples_lookup j c code :
  (j, c, code) ∈ listed_triples <-> lookup_court j c = Some code.
Proof. exact (triples_lookup COURT_CODE_MAPPING j c code). Qed.

Lemma NoDup_snd_inj {A B} (l : list (A * B)) a a' b :
  NoDup (l.*2) -> (a, b) ∈ l -> (a', b) ∈ l -> a = a'.
Proof.
  induction l as [|[x y] l IH]; simpl; intros N H H'.
  - now apply elem_of_nil in H.
  - apply NoDup_cons in N as [Ny N].
    apply elem_of_cons in H as [H | H];
      apply elem_of_cons in H' as [H' | H']; simplify_eq; try reflexivity.
    + exfalso. apply Ny. apply list_elem_of_fmap. now exists (a', y).
    + exfalso. apply Ny. apply list_elem_of_fmap. now exists (a, y).
    + eauto.
Qed.

Lemma listed_codes_NoDup : NoDup (listed_triples.*2).
Proof. apply (bool_decide_unpack _). vm_compute. exact I. Qed.

Lemma endpoints_listed :
  map_Forall (fun code (_ : string) => code ∈ listed_triples.*2) COURT_ENDPOINTS.
Proof. apply (bool_decide_unpack _). vm_compute. exact I. Qed.

Lemma endpoints_named :
  map_Forall (fun code endpoint => endpoint = "api_publica_" +:+ code)
    COURT_ENDPOINTS.
Proof. apply (bool_decide_unpack _). vm_compute. exact I. Qed.

(** X4: the classification table and the endpoint table match one to
    one: two listed pairs of justice type and court identifier never share
    a court code, every court code with an endpoint is the code of a
    listed pair, and there are 87 of them. *)
Theorem X4_directory_is_one_to_one :
  (forall j c j' c' code,
     lookup_court j c = Some code -> lookup_court j' c' = Some code ->
     j = j' /\ c = c') /\
  (forall code, is_Some (COURT_ENDPOINTS !! code) ->
     exists j c, lookup_court j c = Some code) /\
  length listed_triples = 87 /\ size COURT_ENDPOINTS = 87.
Proof.
  split; [|split].
  - intros j c j' c' code H H'.
    pose proof (proj2 (listed_triples_lookup _ _ _) H) as T.
    pose proof (proj2 (listed_triples_lookup _ _ _) H') as T'.
    pose proof (NoDup_snd_inj _ _ _ _ listed_codes_NoDup T T') as E.
    injection E as -> ->. now split.
  - intros code [endpoint E].
    pose proof (endpoints_listed _ _ E) as H. cbv beta in H.
    destruct (proj1 (list_elem_of_fmap _ _ _) H) as ([[j c] code'] & -> & H2).
    exists j, c. exact (proj1 (listed_triples_lookup _ _ _) H2).
  - split; vm_compute; reflexivity.
Qed.

(** X5: the endpoint of every court code is "api_publica_" followed by
    the code, so that [query_api] posts a query for a known court code to
    API_BASE_URL/api_publica_<code>/_search, and two court codes never
    share an endpoint. *)
Theorem X5_endpoint_of_court_code :
  (forall code endpoint,
     COURT_ENDPOINTS !! code = Some endpoint ->
     endpoint = "api_publica_" +:+ code /\
     request_url endpoint =
       "https://api-publica.datajud.cnj.jus.br/api_publica_" +:+ code +:+ "/_search") /\
  (forall code code' endpoint,
     COURT_ENDPOINTS !! code = Some endpoint ->
     COURT_ENDPOINTS !! code' = Some endpoint -> code = code').
Proof.
  split.
  - intros code endpoint E. pose proof (endpoints_named _ _ E) as ->.
    split; reflexivity.
  - intros code code' endpoint E E'.
    pose proof (endpoints_named _ _ E) as N.
    pose proof (endpoints_named _ _ E') as N'. rewrite N in N'.
    now apply (inj (String.app "api_publica_")) in N'.
Qed.

(** *** Identifiers *)

Lemma app_nil_r_s (a : string) : a +:+ EmptyString = a.
Proof. induction a as [|c a IH]; [reflexivity |]. rewrite app_cons_s. now f_equal. Qed.

Lemma search_grammar_alone m :
  cnj_grammar m = true -> search CNJ_PATTERN m = Some m.
Proof.
  intros G. apply search_first_token. exists EmptyString, EmptyString.
  split; [|intros; simpl; lia].
  split; [split; [|exact G] | split; reflexivity].
  now rewrite app_nil_s, app_nil_r_s.
Qed.

(** X6: a string of the identifier grammar, given alone, is extracted
    as itself, and extraction is idempotent: whatever
    [extract_process_number] returns for a text, it returns again when
    given that result as the text. *)
Theorem X6_extraction_is_idempotent :
  (forall m, cnj_grammar m = true ->
     result (extract_process_number m) = Return (Some m)) /\
  (forall text m,
     result (extract_process_number text) = Return (Some m) ->
     result (extract_process_number m) = Return (Some m)).
Proof.
  assert (A : forall m, cnj_grammar m = true ->
                result (extract_process_number m) = Return (Some m)).
  { intros m G. now rewrite extract_result, (search_grammar_alone _ G). }
  split; [exact A |].
  intros text m H. apply A. now apply (extracted_grammar text).
Qed.

Lemma X6_extraction_is_idempotent_witness :
  result (extract_process_number "0000002-80.2020.2.26.0000")
  = Return (Some "0000002-80.2020.2.26.0000").
Proof.
  apply (proj2 X6_extraction_is_idempotent
           "Processo 0000002-80.2020.2.26.0000 (TJSP)").
  reflexivity.
Defined.

Lemma conforms_app g1 g2 m :
  conforms (g1 ++ g2) m = true ->
  exists a b, m = a +:+ b /\ conforms g1 a = true /\ conforms g2 b = true.
Proof.
  revert m. induction g1 as [|x g1 IH]; intros m H.
  - exists EmptyString, m. now repeat split.
  - destruct m as [|c m]; [destruct x; discriminate |].
    assert (Hx : conforms [x] (String c EmptyString) = true /\
                 conforms (g1 ++ g2) m = true).
    { simpl in H |- *. destruct x; try discriminate;
        apply andb_true_iff in H as [-> H]; now split. }
    destruct Hx as [Hx Hm]. destruct (IH _ Hm) as (a & b & -> & Ha & Hb).
    exists (String c a), b. split; [reflexivity |]. split; [|exact Hb].
    simpl in Hx |- *. destruct x; try discriminate;
      apply andb_true_iff in Hx as [-> _]; exact Ha.
Qed.

Lemma conforms_dot m :
  conforms [Lit "."] m = true -> m = ".".
Proof.
  destruct m as [|c [|d m]]; simpl; try discriminate.
  - rewrite andb_true_r. now intros ->%Ascii.eqb_eq.
  - now rewrite andb_false_r.
Qed.

Lemma split_part a rest :
  count_char "." a = 0 ->
  split "." (a +:+ "." +:+ rest) = a :: split "." rest.
Proof.
  induction a as [|c a IH]; intros H.
  - reflexivity.
  - simpl in H. rewrite app_cons_s. simpl split.
    destruct (Ascii.eqb c "."); [discriminate |].
    now rewrite (IH H).
Qed.

Lemma split_last a : count_char "." a = 0 -> split "." a = [a].
Proof.
  induction a as [|c a IH]; intros H; [reflexivity |].
  simpl in H |- *. destruct (Ascii.eqb c "."); [discriminate |].
  now rewrite (IH H).
Qed.

Lemma substring_prefix a b : substring 0 (String.length a) (a +:+ b) = a.
Proof.
  induction a as [|c a IH]; [rewrite app_nil_s; now destruct b |].
  rewrite app_cons_s. simpl. now f_equal.
Qed.

Lemma substring_skip a b n k :
  substring (String.length a + n) k (a +:+ b) = substring n k b.
Proof. induction a as [|c a IH]; [reflexivity |]. rewrite app_cons_s. exact IH. Qed.

(** The five fields of a string of the grammar. *)
Lemma cnj_grammar_fields pn :
  cnj_grammar pn = true ->
  exists seq year j tr origin,
    pn = seq +:+ "." +:+ year +:+ "." +:+ j +:+ "." +:+ tr +:+ "." +:+ origin /\
    (String.length seq = 10 /\ String.length year = 4 /\ String.length j = 1 /\
     String.length tr = 2 /\ String.length origin = 4) /\
    split "." pn = [seq; year; j; tr; origin].
Proof.
  unfold cnj_grammar. intros G.
  change CNJ_BODY with
    ((replicate 7 Digit ++ [Lit "-"] ++ replicate 2 Digit) ++ [Lit "."] ++
     replicate 4 Digit ++ [Lit "."] ++ [Digit] ++ [Lit "."] ++
     replicate 2 Digit ++ [Lit "."] ++ replicate 4 Digit) in G.
  apply conforms_app in G as (seq & r & -> & Gs & G).
  apply conforms_app in G as (d1 & r1 & -> & ->%conforms_dot & G).
  apply conforms_app in G as (year & r2 & -> & Gy & G).
  apply conforms_app in G as (d2 & r3 & -> & ->%conforms_dot & G).
  apply conforms_app in G as (j & r4 & -> & Gj & G).
  apply conforms_app in G as (d3 & r5 & -> & ->%conforms_dot & G).
  apply conforms_app in G as (tr & r6 & -> & Gt & G).
  apply conforms_app in G as (d4 & origin & -> & ->%conforms_dot & Go).
  exists seq, year, j, tr, origin.
  pose proof (conforms_dots _ _ Gs) as Ds. pose proof (conforms_dots _ _ Gy) as Dy.
  pose proof (conforms_dots _ _ Gj) as Dj. pose proof (conforms_dots _ _ Gt) as Dt.
  pose proof (conforms_dots _ _ Go) as Do.
  apply conforms_length in Gs, Gy, Gj, Gt, Go.
  split; [reflexivity |]. split; [now repeat split |].
  rewrite !split_part by assumption. now rewrite split_last.
Qed.

Ltac explode s L :=
  repeat (destruct s as [|? s]; [discriminate L |];
          simpl in L; apply eq_add_S in L);
  destruct s; [clear L | discriminate L].

Lemma extracted_fields text pn :
  result (extract_process_number text) = Return (Some pn) ->
  String.length pn = 25 /\
  split "." pn = [substring 0 10 pn; substring 11 4 pn; substring 16 1 pn;
                  substring 18 2 pn; substring 21 4 pn] /\
  result (identify_court_from_process_number pn) =
  Return (lookup_court (substring 16 1 pn) (substring 18 2 pn)).
Proof.
  intros H. apply extracted_grammar in H.
  pose proof (conforms_length _ _ H) as L.
  destruct (cnj_grammar_fields _ H)
    as (seq & year & j & tr & origin & E & (Ls & Ly & Lj & Lt & Lo) & S).
  assert (F : [substring 0 10 pn; substring 11 4 pn; substring 16 1 pn;
               substring 18 2 pn; substring 21 4 pn] = [seq; year; j; tr; origin]).
  { rewrite E. clear -Ls Ly Lj Lt Lo.
    explode seq Ls. explode year Ly. explode j Lj. explode tr Lt.
    explode origin Lo. reflexivity. }
  split; [exact L |]. rewrite F. split; [exact S |].
  rewrite (identify_parts _ _ _ _ _ _ S).
  injection F as _ _ -> -> _. now destruct (lookup_court j tr).
Qed.

(** X7: the layout NNNNNNN-DD.AAAA.J.TR.OOOO of an extracted
    identifier: it has 25 characters, its five dot-separated segments have
    10, 4, 1, 2 and 4 characters, and the court is looked up with the
    character at index 16 as justice type and the two characters at
    indexes 18 and 19 as court identifier. *)
Theorem X7_identifier_fields (text pn : string) :
  result (extract_process_number text) = Return (Some pn) ->
  String.length pn = 25 /\
  split "." pn = [substring 0 10 pn; substring 11 4 pn; substring 16 1 pn;
                  substring 18 2 pn; substring 21 4 pn] /\
  result (identify_court_from_process_number pn) =
  Return (lookup_court (substring 16 1 pn) (substring 18 2 pn)).
Proof. apply extracted_fields. Qed.

Lemma X7_identifier_fields_witness :
  String.length "0000004-10.2020.4.11.0000" = 25 /\
  split "." "0000004-10.2020.4.11.0000" =
    [substring 0 10 "0000004-10.2020.4.11.0000";
     substring 11 4 "0000004-10.2020.4.11.0000";
     substring 16 1 "0000004-10.2020.4.11.0000";
     substring 18 2 "0000004-10.2020.4.11.0000";
     substring 21 4 "0000004-10.2020.4.11.0000"] /\
  result (identify_court_from_process_number "0000004-10.2020.4.11.0000") =
  Return (lookup_court (substring 16 1 "0000004-10.2020.4.11.0000")
            (substring 18 2 "0000004-10.2020.4.11.0000")).
Proof.
  apply (X7_identifier_fields "recurso 0000004-10.2020.4.11.0000").
  reflexivity.
Defined.

(** X8: [identify_court_from_process_number] never raises, whatever
    string it is given, and logs exactly one record; it returns a court
    code exactly when the string has five dot-separated segments and the
    third and fourth are a listed pair, whatever the other segments are
    (nothing else of the CNJ format is checked). *)
Theorem X8_identify_court_characterised (pn : string) :
  (exists o, result (identify_court_from_process_number pn) = Return o) /\
  (forall code,
     result (identify_court_from_process_number pn) = Return (Some code) <->
     exists a b j c e,
       split "." pn = [a; b; j; c; e] /\ lookup_court j c = Some code) /\
  length (logged (identify_court_from_process_number pn)) = 1.
Proof.
  destruct (decide (length (split "." pn) = 5)) as [L|L].
  - destruct (five_parts _ L) as (a & b & j & c & e & E).
    rewrite (identify_parts _ _ _ _ _ _ E).
    destruct (lookup_court j c) as [code|] eqn:K; simpl.
    + split; [eauto |]. split; [|reflexivity]. intros code'. split.
      * intros [= <-]. exists a, b, j, c, e. now split.
      * intros (a' & b' & j' & c' & e' & E' & K').
        rewrite E in E'. injection E' as _ _ <- <- _. congruence.
    + split; [eauto |]. split; [|reflexivity]. intros code'. split.
      * discriminate.
      * intros (a' & b' & j' & c' & e' & E' & K').
        rewrite E in E'. injection E' as _ _ <- <- _. congruence.
  - rewrite (identify_invalid _ L). simpl.
    split; [eauto |]. split; [|reflexivity]. intros code. split.
    + discriminate.
    + intros (a & b & j & c & e & E & _). rewrite E in L. now destruct L.
Qed.

Lemma X8_identify_court_characterised_witness :
  result (identify_court_from_process_number "x.y.6.00.z") = Return (Some "stf").
Proof.
  apply (proj2 (proj1 (proj2 (X8_identify_court_characterised "x.y.6.00.z")) "stf")).
  exists "x", "y", "6", "00", "z". split; reflexivity.
Defined.

Lemma listed_codes_truthy :
  map_Forall (fun _ (courts : gmap string string) =>
    map_Forall (fun _ code => truthy code = true) courts) COURT_CODE_MAPPING.
Proof. apply (bool_decide_unpack _). vm_compute. exact I. Qed.

Lemma lookup_court_truthy j c code :
  lookup_court j c = Some code -> truthy code = true.
Proof.
  unfold lookup_court. intros H.
  apply bind_Some in H as (courts & E & E').
  exact (listed_codes_truthy _ _ E _ _ E').
Qed.

(** What routing returns for an extracted identifier. *)
Lemma route_extracted text' text pn :
  result (extract_process_number text) = Return (Some pn) ->
  result (route text' (Some pn)) =
  match lookup_court (substring 16 1 pn) (substring 18 2 pn) with
  | Some court => Return (Some pn, court, exact_match_body pn)
  | None =>
      Raise (Exn ValueError
               ("Could not identify court for process number: " +:+ pn))
  end.
Proof.
  intros X. pose proof (grammar_truthy _ (extracted_grammar _ _ X)) as T.
  destruct (extracted_fields _ _ X) as (_ & S & _).
  rewrite (route_identifier _ _ T), (identify_parts _ _ _ _ _ _ S).
  destruct (lookup_court _ _) as [code|] eqn:K; [|reflexivity].
  pose proof (lookup_court_truthy _ _ _ K). now destruct code.
Qed.

(** X9: when the text holds an identifier, the words around it have no
    part in the routing: the court is the one of the identifier's justice
    type and court identifier, the query is the exact match on the
    identifier alone, and the target is the one the identifier would get
    as the whole text; an identifier without a listed court is a
    [ValueError]. *)
Theorem X9_text_around_identifier_is_ignored (text pn : string) :
  result (extract_process_number text) = Return (Some pn) ->
  result (resolve_target text) =
    match lookup_court (substring 16 1 pn) (substring 18 2 pn) with
    | Some court => Return (Some pn, court, exact_match_body pn)
    | None =>
        Raise (Exn ValueError
                 ("Could not identify court for process number: " +:+ pn))
    end /\
  result (resolve_target text) = result (resolve_target pn).
Proof.
  intros X.
  assert (X' : result (extract_process_number pn) = Return (Some pn)).
  { rewrite extract_result. f_equal.
    apply search_grammar_alone, (extracted_grammar text), X. }
  rewrite !resolve_target_result.
  pose proof X as S. rewrite extract_result in S. injection S as ->.
  pose proof X' as S'. rewrite extract_result in S'. injection S' as ->.
  rewrite (route_extracted text text pn X), (route_extracted pn text pn X).
  now split.
Qed.

Lemma X9_text_around_identifier_is_ignored_witness :
  result (resolve_target "habeas corpus 0000005-20.2020.6.00.0000 liminar") =
    match lookup_court (substring 16 1 "0000005-20.2020.6.00.0000")
            (substring 18 2 "0000005-20.2020.6.00.0000") with
    | Some court =>
        Return (Some "0000005-20.2020.6.00.0000", court,
                exact_match_body "0000005-20.2020.6.00.0000")
    | None =>
        Raise (Exn ValueError
                 ("Could not identify court for process number: "
                  +:+ "0000005-20.2020.6.00.0000"))
    end /\
  result (resolve_target "habeas corpus 0000005-20.2020.6.00.0000 liminar") =
  result (resolve_target "0000005-20.2020.6.00.0000").
Proof.
  apply X9_text_around_identifier_is_ignored. reflexivity.
Defined.

(** *** What [process_query] returns, raises and logs *)

Lemma fetch_logged w text pn court query :
  logged (fetch w text (pn, court, query)) =
  logged (query_api w court query) ++
  match result (fetch w text (pn, court, query)) with
  | Return _ => []
  | Raise e =>
      if is_kind RequestException e
      then [(ERROR, "Error querying API: " +:+ message e)] else []
  end.
Proof.
  unfold fetch. rewrite try_except_reraise. cbn [logged result]. f_equal.
  rewrite logged_bind.
  destruct (result (query_api w court query)) as [r|e];
    [|now rewrite app_nil_r].
  rewrite logged_bind. cbn [lift result logged].
  destruct (format_response r); cbn [app logged]; now rewrite app_nil_r.
Qed.

Lemma process_query_returns w text o :
  result (process_query w text) = Return o ->
  exists pn court query response,
    result (resolve_target text) = Return (pn, court, query) /\
    result (query_api w court query) = Return response /\
    o = JObj [("total_hits",
               default (JNum 0) (get_path response ["hits"; "total"; "value"]));
              ("processes",
               JArr (normalize_hit <$> items response ["hits"; "hits"]));
              ("metadata", metadata_of w text pn court)].
Proof.
  rewrite process_query_result.
  destruct (result (resolve_target text)) as [[[pn court] query]|e] eqn:R;
    [|discriminate].
  cbn [mbind outcome_bind]. rewrite fetch_result.
  destruct (result (query_api w court query)) as [response|e] eqn:Q;
    [|discriminate].
  cbn [mbind outcome_bind].
  destruct (format_response response) as [f|e] eqn:F; [|discriminate].
  rewrite (format_response_Return _ _ F). intros [= <-].
  exists pn, court, query, response. now repeat split.
Qed.

Lemma resolve_target_identifier text pn court query :
  result (resolve_target text) = Return (pn, court, query) ->
  pn = search CNJ_PATTERN text.
Proof.
  rewrite resolve_target_result.
  destruct (search CNJ_PATTERN text) as [m|] eqn:S.
  - assert (X : result (extract_process_number text) = Return (Some m))
      by now rewrite extract_result, S.
    rewrite (route_extracted text text m X).
    destruct (lookup_court _ _); [|discriminate]. now intros [= <- _ _].
  - now intros [= <- _ _].
Qed.

(** X10: whenever [process_query] returns, it returns a dict with the
    three keys total_hits, processes and metadata, in this order: the
    normalised form of the response that [query_api] returned for the
    routed court and query, and the metadata made of the original text, the
    extracted identifier (null when none), the routed court code and the
    time of the call. *)
Theorem X10_process_query_result (w : World) (text : string) (o : json) :
  result (process_query w text) = Return o ->
  exists pn court query response,
    result (resolve_target text) = Return (pn, court, query) /\
    result (extract_process_number text) = Return pn /\
    result (query_api w court query) = Return response /\
    o = JObj [("total_hits",
               default (JNum 0) (get_path response ["hits"; "total"; "value"]));
              ("processes",
               JArr (normalize_hit <$> items response ["hits"; "hits"]));
              ("metadata",
               JObj [("query", JStr text);
                     ("process_number", json_option pn);
                     ("court", JStr court);
                     ("timestamp", JStr (now_isoformat w))])].
Proof.
  intros H.
  destruct (process_query_returns _ _ _ H)
    as (pn & court & query & response & R & Q & ->).
  exists pn, court, query, response. repeat split; try assumption.
  rewrite extract_result. f_equal. symmetry.
  exact (resolve_target_identifier _ _ _ _ R).
Qed.

Lemma X10_process_query_result_witness :
  exists pn court query response,
    result (resolve_target "HC 0000005-20.2020.6.00.0000") = Return (pn, court, query) /\
    result (extract_process_number "HC 0000005-20.2020.6.00.0000") = Return pn /\
    result (query_api stf_world court query) = Return response /\
    JObj [("total_hits", JNum 1);
          ("processes", JArr [normalize_hit sample_hit]);
          ("metadata",
           JObj [("query", JStr "HC 0000005-20.2020.6.00.0000");
                 ("process_number", JStr "0000005-20.2020.6.00.0000");
                 ("court", JStr "stf");
                 ("timestamp", JStr "2024-05-02T10:00:00")])] =
    JObj [("total_hits",
           default (JNum 0) (get_path response ["hits"; "total"; "value"]));
          ("processes",
           JArr (normalize_hit <$> items response ["hits"; "hits"]));
          ("metadata",
           JObj [("query", JStr "HC 0000005-20.2020.6.00.0000");
                 ("process_number", json_option pn);
                 ("court", JStr court);
                 ("timestamp", JStr (now_isoformat stf_world))])].
Proof.
  apply (X10_process_query_result stf_world "HC 0000005-20.2020.6.00.0000").
  reflexivity.
Defined.

(** X11: an exception of the session is raised again by
    [process_query] as it is, after one attempt: the log then holds the
    records of routing, those of the one request and, when the exception
    is a [RequestException], the two error records of [query_api] and of
    [process_query]. *)
Theorem X11_transport_failure_propagates (w : World) (text : string)
    (pn : option string) (court endpoint : string) (query : json) (e : exn) :
  result (resolve_target text) = Return (pn, court, query) ->
  COURT_ENDPOINTS !! court = Some endpoint ->
  session_post w (API_BASE_URL +:+ "/" +:+ endpoint +:+ "/_search")
    (request_headers w) query 30 = Raise e ->
  result (process_query w text) = Raise e /\
  logged (process_query w text) =
    logged (resolve_target text) ++ request_log w endpoint query ++
    (if is_kind RequestException e
     then [(ERROR, "API request error: " +:+ message e);
           (ERROR, "Error querying API: " +:+ message e)]
     else []).
Proof.
  intros R E A.
  assert (Q : query_api w court query =
              Run (Raise e)
                (request_log w endpoint query ++
                 if is_kind RequestException e
                 then [(ERROR, "API request error: " +:+ message e)] else [])).
  { unfold query_api. rewrite E, send_request_run.
    unfold answer, request_url, DEFAULT_TIMEOUT. rewrite A.
    destruct (is_kind RequestException e); [reflexivity |].
    now rewrite app_nil_r. }
  assert (F : result (fetch w text (pn, court, query)) = Raise e)
    by now rewrite fetch_result, Q.
  split.
  - now rewrite process_query_result, R.
  - unfold process_query. rewrite logged_bind, R, fetch_logged, F, Q.
    cbn [logged]. destruct (is_kind RequestException e).
    + now rewrite <- !app_assoc.
    + now rewrite !app_nil_r.
Qed.

Lemma X11_transport_failure_propagates_witness :
  result (process_query offline_world "habeas corpus") =
    Raise (Exn RequestException "Connection refused") /\
  logged (process_query offline_world "habeas corpus") =
    logged (resolve_target "habeas corpus") ++
    request_log offline_world "api_publica_stf" (multi_field_body "habeas corpus") ++
    (if is_kind RequestException (Exn RequestException "Connection refused")
     then [(ERROR, "API request error: " +:+ "Connection refused");
           (ERROR, "Error querying API: " +:+ "Connection refused")]
     else []).
Proof.
  apply (X11_transport_failure_propagates offline_world "habeas corpus" None "stf");
    reflexivity.
Defined.

(** X12: a run of [process_query] asks the session once: two worlds
    with the same clock whose sessions give the same answer to the one
    request for the routed court and query give the same result. *)
Theorem X12_one_request_decides (w1 w2 : World) (text : string) :
  now_isoformat w1 = now_isoformat w2 ->
  (forall pn court endpoint query,
     result (resolve_target text) = Return (pn, court, query) ->
     COURT_ENDPOINTS !! court = Some endpoint ->
     session_post w1 (API_BASE_URL +:+ "/" +:+ endpoint +:+ "/_search")
       (request_headers w1) query 30 =
     session_post w2 (API_BASE_URL +:+ "/" +:+ endpoint +:+ "/_search")
       (request_headers w2) query 30) ->
  result (process_query w1 text) = result (process_query w2 text).
Proof.
  intros N A. rewrite !process_query_result.
  destruct (result (resolve_target text)) as [[[pn court] query]|e] eqn:R;
    [|reflexivity].
  cbn [mbind outcome_bind]. rewrite !fetch_result.
  unfold metadata_of. rewrite N.
  assert (Q : result (query_api w1 court query) = result (query_api w2 court query)).
  { unfold query_api.
    destruct (COURT_ENDPOINTS !! court) as [endpoint|] eqn:E; [|reflexivity].
    rewrite !send_request_result. unfold answer, request_url, DEFAULT_TIMEOUT.
    now rewrite (A _ _ _ _ eq_refl E). }
  now rewrite Q.
Qed.

Lemma X12_one_request_decides_witness :
  result (process_query stf_world "HC 0000005-20.2020.6.00.0000") =
  result (process_query stf_world_keyless "HC 0000005-20.2020.6.00.0000").
Proof.
  apply X12_one_request_decides; [reflexivity |].
  intros pn court endpoint query _ _. reflexivity.
Defined.

Lemma request_log_key w endpoint query :
  request_log w endpoint query =
  (if has_api_key w then [(DEBUG, "Added API key to request headers")] else [])
  ++ [(DEBUG, "Sending request to: " +:+ request_url endpoint);
      (DEBUG, "Query: " +:+ json_dumps w query)].
Proof.
  unfold request_log, has_api_key.
  now destruct (environ_DATAJUD_API_KEY w) as [[|c k]|].
Qed.

Lemma get_internal v k d e : get v k d = Raise e -> internal e.
Proof. destruct v; intros [= <-]; reflexivity. Qed.

Lemma iter_internal v e : iter v = Raise e -> internal e.
Proof. destruct v; intros [= <-]; reflexivity. Qed.

Lemma len_internal v e : len v = Raise e -> internal e.
Proof. destruct v; intros [= <-]; reflexivity. Qed.

Lemma bind_Raise {A B} (m : outcome A) (f : A -> outcome B) e :
  m ≫= f = Raise e -> m = Raise e \/ exists a, m = Return a /\ f a = Raise e.
Proof.
  destruct m as [a|x]; cbn [mbind outcome_bind]; intros H; [right; eauto | left].
  injection H as ->. reflexivity.
Qed.

Lemma mapM_internal (f : json -> outcome json) l e :
  (forall x e, f x = Raise e -> internal e) ->
  mapM f l = Raise e -> internal e.
Proof.
  intros Hf. induction l as [|x l IH]; [discriminate |].
  cbn [mapM]. intros H.
  apply bind_Raise in H as [H | (y & _ & H)]; [exact (Hf _ _ H) |].
  apply bind_Raise in H as [H | (ys & _ & H)]; [exact (IH H) | discriminate H].
Qed.

Ltac internal_step H :=
  apply bind_Raise in H as [H | (? & _ & H)];
  [first [exact (get_internal _ _ _ _ H) | exact (iter_internal _ _ H)
         | exact (len_internal _ _ H)] |].

Lemma format_lawyer_internal x e : format_lawyer x = Raise e -> internal e.
Proof.
  unfold format_lawyer. intros H. do 4 internal_step H. discriminate H.
Qed.

Lemma format_movement_internal x e : format_movement x = Raise e -> internal e.
Proof.
  unfold format_movement. intros H. do 3 internal_step H. discriminate H.
Qed.

Lemma format_party_internal x e : format_party x = Raise e -> internal e.
Proof.
  unfold format_party. intros H. do 7 internal_step H.
  apply bind_Raise in H as [H | (? & _ & H)]; [|discriminate H].
  exact (mapM_internal _ _ _ format_lawyer_internal H).
Qed.

Lemma format_hit_internal x e : format_hit x = Raise e -> internal e.
Proof.
  unfold format_hit. intros H. do 14 internal_step H.
  apply bind_Raise in H as [H | (? & _ & H)];
    [exact (mapM_internal _ _ _ format_party_internal H) |].
  do 2 internal_step H.
  apply bind_Raise in H as [H | (? & _ & H)]; [|discriminate H].
  exact (mapM_internal _ _ _ format_movement_internal H).
Qed.

Lemma format_response_internal response e :
  format_response response = Raise e -> internal e.
Proof.
  unfold format_response. intros H. do 6 internal_step H.
  apply bind_Raise in H as [H | (? & _ & H)]; [|discriminate H].
  exact (mapM_internal _ _ _ format_hit_internal H).
Qed.

Lemma hit_count_internal data e : hit_count data = Raise e -> internal e.
Proof.
  unfold hit_count. intros H. do 2 internal_step H.
  exact (len_internal _ _ H).
Qed.

(** What the request leaves in the log once the session has answered. *)
Lemma fetch_log w text pn court endpoint query :
  COURT_ENDPOINTS !! court = Some endpoint ->
  logged (fetch w text (pn, court, query)) =
  request_log w endpoint query ++
  match answer w endpoint query with
  | Return data =>
      match hit_count data with
      | Return n =>
          [(DEBUG, "Received response with " +:+ str_of_nat n +:+ " hits")]
      | Raise _ => []
      end
  | Raise e =>
      if is_kind RequestException e
      then [(ERROR, "API request error: " +:+ message e);
            (ERROR, "Error querying API: " +:+ message e)]
      else []
  end.
Proof.
  intros C. rewrite fetch_logged, fetch_result.
  unfold query_api. rewrite C, send_request_run.
  destruct (answer w endpoint query) as [data|e].
  - destruct (hit_count data) as [n|e] eqn:Hn.
    + cbn [result logged mbind outcome_bind]. rewrite <- app_assoc. f_equal.
      destruct (format_response data) as [f|e] eqn:F.
      * rewrite (format_response_Return _ _ F). reflexivity.
      * cbn [mbind outcome_bind app].
        now rewrite (format_response_internal _ _ F).
    + rewrite (hit_count_internal _ _ Hn).
      cbn [result logged mbind outcome_bind].
      now rewrite (hit_count_internal _ _ Hn).
  - destruct (is_kind RequestException e) eqn:K;
      cbn [result logged mbind outcome_bind]; rewrite K.
    + now rewrite <- app_assoc.
    + reflexivity.
Qed.

(** X13: the whole log of a run, and the one way the API key can get
    into it.  After the records of routing, [process_query] logs that a key
    was added (when one is set: the fixed text, never the key), the URL,
    the rendered query, and then either the number of hits of the answer or,
    when the session raises a [RequestException], two error records that
    carry the message of that exception as it is.  The agent writes the key
    into no record itself; a session whose error message quotes the key
    does put it in the log. *)
Theorem X13_log_of_a_run (w : World) (text : string) (pn : option string)
    (court endpoint : string) (query : json) :
  result (resolve_target text) = Return (pn, court, query) ->
  COURT_ENDPOINTS !! court = Some endpoint ->
  logged (process_query w text) =
    logged (resolve_target text)
    ++ (if has_api_key w
        then [(DEBUG, "Added API key to request headers")] else [])
    ++ [(DEBUG, "Sending request to: "
                +:+ API_BASE_URL +:+ "/" +:+ endpoint +:+ "/_search");
        (DEBUG, "Query: " +:+ json_dumps w query)]
    ++ match session_post w (API_BASE_URL +:+ "/" +:+ endpoint +:+ "/_search")
               (request_headers w) query 30 with
       | Return data =>
           match hit_count data with
           | Return n =>
               [(DEBUG, "Received response with " +:+ str_of_nat n +:+ " hits")]
           | Raise _ => []
           end
       | Raise e =>
           if is_kind RequestException e
           then [(ERROR, "API request error: " +:+ message e);
                 (ERROR, "Error querying API: " +:+ message e)]
           else []
       end.
Proof.
  intros R C. unfold process_query. rewrite logged_bind, R. f_equal.
  rewrite (fetch_log _ _ _ _ _ _ C), request_log_key, <- !app_assoc.
  reflexivity.
Qed.

Lemma X13_log_of_a_run_witness :
  logged (process_query rejecting_world "habeas corpus") =
    logged (resolve_target "habeas corpus")
    ++ [(DEBUG, "Added API key to request headers")]
    ++ [(DEBUG, "Sending request to: "
                +:+ API_BASE_URL +:+ "/" +:+ "api_publica_stf" +:+ "/_search");
        (DEBUG, "Query: {}")]
    ++ [(ERROR, "API request error: 401 Client Error: Unauthorized for key k3y");
        (ERROR, "Error querying API: 401 Client Error: Unauthorized for key k3y")].
Proof.
  apply (X13_log_of_a_run rejecting_world "habeas corpus" None "stf"
           "api_publica_stf" (multi_field_body "habeas corpus"));
    reflexivity.
Defined.

Lemma X1_query_api_invalid_court_witness :
  query_api offline_world "tjxx" (multi_field_body "habeas corpus") =
  Run (Raise (Exn ValueError ("Invalid court code: " +:+ "tjxx"))) [].
Proof.
  apply (proj2 (X1_query_api_invalid_court offline_world "tjxx"
                  (multi_field_body "habeas corpus"))).
  reflexivity.
Defined.

Lemma X2_query_api_returns_witness :
  result (query_api stf_world "stf" (exact_match_body "0000005-20.2020.6.00.0000"))
  = Return sample_response.
Proof.
  apply (proj2 (X2_query_api_returns stf_world "stf"
                  (exact_match_body "0000005-20.2020.6.00.0000") sample_response)).
  exists "api_publica_stf", 1. repeat split.
Defined.

Lemma X3_process_query_end_to_end_witness :
  result (process_query stf_world "HC 0000005-20.2020.6.00.0000") =
  Return
    (JObj [("total_hits",
            default (JNum 0) (get_path sample_response ["hits"; "total"; "value"]));
           ("processes",
            JArr (normalize_hit <$> items sample_response ["hits"; "hits"]));
           ("metadata",
            JObj [("query", JStr "HC 0000005-20.2020.6.00.0000");
                  ("process_number", json_option (Some "0000005-20.2020.6.00.0000"));
                  ("court", JStr "stf");
                  ("timestamp", JStr (now_isoformat stf_world))])]).
Proof.
  apply (X3_process_query_end_to_end stf_world "HC 0000005-20.2020.6.00.0000"
           (Some "0000005-20.2020.6.00.0000") "stf" "api_publica_stf"
           (exact_match_body "0000005-20.2020.6.00.0000") sample_response);
    reflexivity.
Defined.

(** *** Exactly when [format_response] returns *)

Lemma object_default o :
  is_object (default (JObj []) o) = true -> from_option is_object true o = true.
Proof. now destruct o. Qed.

Lemma default_object o :
  from_option is_object true o = true -> exists g, default (JObj []) o = JObj g.
Proof. destruct o as [[]|]; simpl; try discriminate; eauto. Qed.

Lemma mapM_all (f : json -> outcome json) ok l outs :
  (forall x o, f x = Return o -> ok x = true) ->
  mapM f l = Return outs -> forallb ok l = true.
Proof.
  intros Hf. revert outs. induction l as [|x l IH]; intros outs H;
    [reflexivity |].
  simpl in H. apply bind_Return in H as (y & Hy & H).
  apply bind_Return in H as (ys & Hys & _).
  simpl. now rewrite (Hf _ _ Hy), (IH _ Hys).
Qed.

Lemma mapM_all_succeeds (f : json -> outcome json) ok l :
  (forall x, ok x = true -> exists o, f x = Return o) ->
  forallb ok l = true -> exists outs, mapM f l = Return outs.
Proof.
  intros Hf. induction l as [|x l IH]; [simpl; eauto |].
  simpl. intros H. apply andb_true_iff in H as [Hx Hl].
  destruct (Hf _ Hx) as [o ->]. destruct (IH Hl) as [outs ->].
  simpl. eauto.
Qed.

Lemma loop_necessary (f : json -> outcome json) ok v k pv l outs :
  (forall s, exists e, f (JStr s) = Raise e) ->
  (forall x y, f x = Return y -> ok x = true) ->
  get v k (JArr []) = Return pv -> iter pv = Return l ->
  mapM f l = Return outs ->
  from_option (sequence_of ok) true (get_path v [k]) = true.
Proof.
  intros Hstr Hok Hget Hiter Hmap.
  apply get_Return in Hget as [_ ->].
  destruct (get_path v [k]) as [x|]; [|reflexivity]. simpl in *.
  destruct x as [| | | |s|l'|g]; try discriminate; injection Hiter as <-.
  - destruct s as [|c s]; [reflexivity |]. exfalso. simpl in Hmap.
    destruct (Hstr (String c EmptyString)) as [e He]. now rewrite He in Hmap.
  - exact (mapM_all f ok _ _ Hok Hmap).
  - destruct g as [|[k' v'] g]; [reflexivity |]. exfalso.
    assert (E : JStr <$> remove_dups (((k', v') :: g).*1) = []).
    { apply (mapM_nil_of_raise f _ outs); [|exact Hmap].
      intros x Hx. apply in_map_iff in Hx as (s & <- & _). apply Hstr. }
    apply fmap_nil_inv in E.
    assert (K : k' ∈ remove_dups (((k', v') :: g).*1))
      by (apply elem_of_remove_dups; simpl; left).
    rewrite E in K. now apply elem_of_nil in K.
Qed.

Lemma loop_sufficient ok o :
  from_option (sequence_of ok) true o = true ->
  exists l, iter (default (JArr []) o) = Return l /\ forallb ok l = true.
Proof.
  destruct o as [[| | | |[|c s]|l|[|kv g]]|]; simpl; try discriminate; eauto.
Qed.

Lemma object_key v k x :
  get v k (JObj []) = Return x -> is_object x = true ->
  from_option is_object true (get_path v [k]) = true.
Proof.
  intros G O. apply get_Return in G as [_ ->]. now apply object_default.
Qed.

Lemma is_object_get v k d x : get v k d = Return x -> is_object v = true.
Proof. intros H. now apply get_Return in H as [H _]. Qed.

Lemma format_lawyer_accepted advogado :
  (exists o, format_lawyer advogado = Return o) <-> lawyer_accepted advogado = true.
Proof.
  split; [|apply format_lawyer_succeeds].
  intros [o H]. unfold format_lawyer in H.
  invert_bind H p1 G1. invert_bind H nome G2.
  pose proof (object_key _ _ _ G1 (is_object_get _ _ _ _ G2)) as K.
  destruct advogado; try discriminate. rewrite get_path_one in K.
  cbn [lawyer_accepted object_with forallb]. now rewrite K.
Qed.

Lemma format_movement_accepted movimento :
  (exists o, format_movement movimento = Return o) <-> is_object movimento = true.
Proof.
  split; [|apply format_movement_succeeds].
  intros [o H]. unfold format_movement in H.
  invert_bind H data G1. exact (is_object_get _ _ _ _ G1).
Qed.

Lemma format_party_accepted parte :
  (exists o, format_party parte = Return o) <-> party_accepted parte = true.
Proof.
  split.
  - intros [o H]. unfold format_party in H.
    invert_bind H tipo G0.
    invert_bind H p1 G1. invert_bind H nome G2.
    invert_bind H p2 G3. invert_bind H documento G4.
    invert_bind H pv G5. invert_bind H advogados G6. invert_bind H lawyers G7.
    pose proof (object_key _ _ _ G1 (is_object_get _ _ _ _ G2)) as K1.
    pose proof (loop_necessary _ lawyer_accepted _ _ _ _ _ format_lawyer_str
                  (fun x y Hy => proj1 (format_lawyer_accepted x) (ex_intro _ y Hy))
                  G5 G6 G7) as K2.
    destruct parte; try discriminate. rewrite get_path_one in K1, K2.
    cbn [party_accepted object_with forallb]. now rewrite K1, K2.
  - destruct parte; try discriminate. intros H.
    cbn [party_accepted object_with forallb] in H.
    apply andb_true_iff in H as [Hp H]. apply andb_true_iff in H as [Ha _].
    destruct (default_object _ Hp) as [g Eg].
    destruct (loop_sufficient _ _ Ha) as (l & El & Hl).
    destruct (mapM_all_succeeds _ _ _
                (fun x Hx => proj2 (format_lawyer_accepted x) Hx) Hl)
      as [lawyers Em].
    unfold format_party. run. rewrite ?Eg; run. rewrite El; run.
    rewrite Em; run. eauto.
Qed.

Lemma format_hit_accepted hit :
  (exists o, format_hit hit = Return o) <-> hit_accepted hit = true.
Proof.
  split.
  - intros [o H]. unfold format_hit in H.
    invert_bind H source Src.
    invert_bind H numero G0.
    invert_bind H p1 G1. invert_bind H classe G2.
    invert_bind H p2 G3. invert_bind H assunto G4.
    invert_bind H p3 G5. invert_bind H data G6.
    invert_bind H p4 G7. invert_bind H valor G8.
    invert_bind H p5 G9. invert_bind H orgao G10.
    invert_bind H pv G11. invert_bind H partes G12. invert_bind H parties G13.
    invert_bind H mv G14. invert_bind H movimentos G15.
    invert_bind H movements G16.
    pose proof (object_key _ _ _ G1 (is_object_get _ _ _ _ G2)) as K1.
    pose proof (object_key _ _ _ G3 (is_object_get _ _ _ _ G4)) as K2.
    pose proof (object_key _ _ _ G5 (is_object_get _ _ _ _ G6)) as K3.
    pose proof (object_key _ _ _ G9 (is_object_get _ _ _ _ G10)) as K4.
    pose proof (loop_necessary _ party_accepted _ _ _ _ _ format_party_str
                  (fun x y Hy => proj1 (format_party_accepted x) (ex_intro _ y Hy))
                  G11 G12 G13) as K5.
    pose proof (loop_necessary _ is_object _ _ _ _ _ format_movement_str
                  (fun x y Hy => proj1 (format_movement_accepted x) (ex_intro _ y Hy))
                  G14 G15 G16) as K6.
    assert (Ks : source_accepted source = true).
    { pose proof (is_object_get _ _ _ _ G0) as O.
      destruct source; try discriminate.
      rewrite get_path_one in K1, K2, K3, K4, K5, K6.
      cbn [source_accepted object_with forallb].
      now rewrite K1, K2, K3, K4, K5, K6. }
    destruct hit as [| | | | | |hf]; try discriminate.
    cbn [hit_accepted object_with forallb].
    cbn [get] in Src. injection Src as <-.
    destruct (assoc "_source" hf) as [src|]; [|reflexivity].
    cbn [default from_option id] in *. now rewrite Ks.
  - destruct hit as [| | | | | |hf]; try discriminate. intros H.
    cbn [hit_accepted object_with forallb] in H.
    apply andb_true_iff in H as [Hs _].
    unfold format_hit. run.
    destruct (assoc "_source" hf) as [source|]; [|simpl; eauto].
    cbn [from_option default id] in *.
    destruct source as [| | | | | |sf]; try discriminate.
    cbn [source_accepted object_with forallb] in Hs.
    apply andb_true_iff in Hs as [H1 Hs]. apply andb_true_iff in Hs as [H2 Hs].
    apply andb_true_iff in Hs as [H3 Hs]. apply andb_true_iff in Hs as [H4 Hs].
    apply andb_true_iff in Hs as [H5 Hs]. apply andb_true_iff in Hs as [H6 _].
    destruct (default_object _ H1) as [g1 E1].
    destruct (default_object _ H2) as [g2 E2].
    destruct (default_object _ H3) as [g3 E3].
    destruct (default_object _ H4) as [g4 E4].
    destruct (loop_sufficient _ _ H5) as (l5 & E5 & L5).
    destruct (loop_sufficient _ _ H6) as (l6 & E6 & L6).
    destruct (mapM_all_succeeds _ _ _
                (fun x Hx => proj2 (format_party_accepted x) Hx) L5)
      as [parties M5].
    destruct (mapM_all_succeeds _ _ _
                (fun x Hx => proj2 (format_movement_accepted x) Hx) L6)
      as [movements M6].
    run. rewrite ?E1; run. rewrite ?E2; run. rewrite ?E3; run.
    rewrite ?E4; run. rewrite E5; run. rewrite M5; run.
    rewrite E6; run. rewrite M6; run. eauto.
Qed.

Lemma format_response_accepted response :
  (exists o, format_response response = Return o) <->
  response_accepted response = true.
Proof.
  split.
  - intros [o H]. unfold format_response in H.
    invert_bind H h1 G1. invert_bind H tot G2. invert_bind H val G3.
    invert_bind H h2 G4. invert_bind H pv G5. invert_bind H hits G6.
    invert_bind H processes G7.
    pose proof (object_key _ _ _ G2 (is_object_get _ _ _ _ G3)) as K1.
    pose proof (loop_necessary _ hit_accepted _ _ _ _ _ format_hit_str
                  (fun x y Hy => proj1 (format_hit_accepted x) (ex_intro _ y Hy))
                  G5 G6 G7) as K2.
    assert (E : h2 = h1) by congruence. subst h2.
    assert (Kh : object_with [("total", is_object);
                              ("hits", sequence_of hit_accepted)] h1 = true).
    { pose proof (is_object_get _ _ _ _ G2) as O.
      destruct h1; try discriminate. rewrite get_path_one in K1, K2.
      cbn [object_with forallb]. now rewrite K1, K2. }
    destruct response as [| | | | | |rf]; try discriminate.
    cbn [response_accepted object_with forallb].
    cbn [get] in G1. injection G1 as <-.
    destruct (assoc "hits" rf) as [h|]; [|reflexivity].
    cbn [default from_option id] in *. now rewrite Kh.
  - destruct response as [| | | | | |rf]; try discriminate. intros H.
    cbn [response_accepted object_with forallb] in H.
    apply andb_true_iff in H as [Hh _].
    unfold format_response. run.
    destruct (assoc "hits" rf) as [hits|]; [|simpl; eauto].
    cbn [from_option default id] in *.
    destruct hits as [| | | | | |hf]; try discriminate.
    cbn [forallb] in Hh.
    apply andb_true_iff in Hh as [H1 Hh]. apply andb_true_iff in Hh as [H2 _].
    destruct (default_object _ H1) as [g1 E1].
    destruct (loop_sufficient _ _ H2) as (l2 & E2 & L2).
    destruct (mapM_all_succeeds _ _ _
                (fun x Hx => proj2 (format_hit_accepted x) Hx) L2)
      as [processes M2].
    run. rewrite ?E1; run. rewrite E2; run. rewrite M2; run. eauto.
Qed.

(** X14: exactly when [format_response] returns.  It returns (and then
    returns the normalised result) if and only if the response is a dict
    in which every key that is present on the way to a leaf (hits, total,
    _source, classe, assunto, dadosBasicos, orgaoJulgador, pessoa) holds a
    dict and every sequence that is present (hits.hits, partes, advogados,
    movimentos) holds a list of such dicts, or an empty dict or string;
    on every other response it raises. *)
Theorem X14_format_response_returns_exactly (response : json) :
  (format_response response = Return (normalize response) <->
   response_accepted response = true) /\
  ((exists e, format_response response = Raise e) <->
   response_accepted response = false).
Proof.
  pose proof (format_response_accepted response) as A. split; split.
  - intros H. apply A. eauto.
  - intros H. apply A in H as [o H].
    now rewrite H, (format_response_Return _ _ H).
  - intros [e H]. destruct (response_accepted response); [|reflexivity].
    destruct (proj2 A eq_refl) as [o Ho]. congruence.
  - intros H. destruct (format_response response) as [o|e] eqn:F; [|eauto].
    assert (response_accepted response = true) by (apply A; eauto).
    congruence.
Qed.

Lemma X14_format_response_returns_exactly_witness :
  format_response sparse_response = Return (normalize sparse_response).
Proof.
  apply (proj2 (proj1 (X14_format_response_returns_exactly sparse_response))).
  reflexivity.
Defined.

(** *** The shape of the output *)

Lemma forallb_fmap (check : json -> bool) (g : json -> json) l :
  (forall x, check (g x) = true) -> forallb check (g <$> l) = true.
Proof.
  intros H. induction l as [|x l IH]; [reflexivity |].
  rewrite fmap_cons. cbn [forallb]. now rewrite H, IH.
Qed.

Ltac under_key :=
  unfold list_under; rewrite get_path_one;
  cbn [assoc String.eqb Ascii.eqb Bool.eqb].

Lemma normalize_party_formatted parte : formatted_party (normalize_party parte) = true.
Proof.
  unfold formatted_party, normalize_party. apply andb_true_iff. split.
  - reflexivity.
  - under_key. now apply forallb_fmap.
Qed.

Lemma normalize_hit_formatted hit : formatted_record (normalize_hit hit) = true.
Proof.
  unfold formatted_record, normalize_hit. rewrite !andb_true_iff. repeat split.
  - under_key. apply forallb_fmap, normalize_party_formatted.
  - under_key. now apply forallb_fmap.
Qed.

Lemma normalize_formatted response : formatted (normalize response) = true.
Proof.
  unfold formatted, normalize. apply andb_true_iff. split; [reflexivity |].
  under_key. apply forallb_fmap, normalize_hit_formatted.
Qed.

(** X15: the shape of the output is fixed.  Whatever the response,
    when [format_response] returns, its result has exactly the keys
    total_hits and processes; every record has exactly the eight keys
    numero_processo, classe, assunto, data_ajuizamento, valor_causa,
    orgao_julgador, partes, movimentos, in this order; every party has
    tipo, nome, documento, advogados; every lawyer nome, documento; every
    movement data, nome, complemento; and partes, advogados, movimentos
    and processes are lists. *)
Theorem X15_output_shape_is_fixed (response o : json) :
  format_response response = Return o -> formatted o = true.
Proof.
  intros H. rewrite (format_response_Return _ _ H). apply normalize_formatted.
Qed.

Lemma X15_output_shape_is_fixed_witness :
  formatted (normalize sparse_response) = true.
Proof.
  apply (X15_output_shape_is_fixed sparse_response). reflexivity.
Defined.

End Extras.

(** ** The web handlers *)

Module Handlers.
Import Chars Re Py Tables Agent Identifier Directory Normal Wire Pipeline Web.
Import Laws IdentifierFacts Routing NormalFacts Extras.

Lemma try_except_all {A} (body : M A) (handler : exn -> M A) :
  try_except body (fun _ => true) handler =
  match result body with
  | Return _ => body
  | Raise e => Run (result (handler e)) (logged body ++ logged (handler e))
  end.
Proof. unfold try_except. now destruct (result body). Qed.

Lemma result_try_all {A} (body : M A) (handler : exn -> M A) :
  result (try_except body (fun _ => true) handler) =
  match result body with
  | Return a => Return a
  | Raise e => result (handler e)
  end.
Proof. rewrite try_except_all. now destruct (result body) eqn:E. Qed.

Lemma listed_codes_have_endpoints :
  map_Forall (fun _ (courts : gmap string string) =>
    map_Forall (fun _ code => is_Some (COURT_ENDPOINTS !! code)) courts)
    COURT_CODE_MAPPING.
Proof. apply (bool_decide_unpack _). vm_compute. exact I. Qed.

Lemma listed_court_has_endpoint j c code :
  lookup_court j c = Some code -> exists endpoint, COURT_ENDPOINTS !! code = Some endpoint.
Proof.
  unfold lookup_court. intros H.
  apply bind_Some in H as (courts & E & E').
  exact (listed_codes_have_endpoints _ _ E _ _ E').
Qed.

Lemma process_detail_listed site w pn a b j c e court :
  split "." pn = [a; b; j; c; e] -> lookup_court j c = Some court ->
  result (process_detail site w pn) =
  match detail_body site w pn court with
  | Return r => Return r
  | Raise x =>
      Html <$> render_template site "error.html"
        [("error", JStr ("Erro ao buscar detalhes do processo: " +:+ message x))]
  end.
Proof.
  intros E K. pose proof (lookup_court_truthy _ _ _ K) as T.
  unfold process_detail. rewrite result_try_all.
  rewrite (identify_parts _ _ _ _ _ _ E), K.
  destruct court as [|c0 court]; [discriminate T |].
  rewrite !result_bind. cbn [result mbind outcome_bind].
  match goal with
  | |- match ?l with _ => _ end = match ?r with _ => _ end =>
      replace l with r; [reflexivity |]
  end.
  unfold detail_body, detail_metadata, detail_context.
  rewrite result_bind.
  change (result (build_process_number_query pn)) with (Return (exact_match_body pn)).
  cbn [mbind outcome_bind]. rewrite result_bind.
  destruct (result (query_api w (String c0 court) (exact_match_body pn)))
    as [response|x]; [|reflexivity].
  cbn [mbind outcome_bind]. rewrite result_bind. cbn [lift result].
  destruct (format_response response) as [f|x]; [|reflexivity].
  cbn [mbind outcome_bind]. rewrite result_bind. cbn [lift result].
  destruct (set_item f "metadata" _) as [r|x]; reflexivity.
Qed.

Lemma process_detail_unlisted site w pn :
  (forall a b j c e, split "." pn = [a; b; j; c; e] -> lookup_court j c = None) ->
  process_detail site w pn =
  Run (match render_template site "error.html"
               [("error", JStr (NOT_IDENTIFIED +:+ pn))] with
       | Return html => Return (Html html)
       | Raise x =>
           Html <$> render_template site "error.html"
             [("error",
               JStr ("Erro ao buscar detalhes do processo: " +:+ message x))]
       end)
      (logged (identify_court_from_process_number pn)).
Proof.
  intros U. unfold process_detail. rewrite try_except_all.
  destruct (decide (length (split "." pn) = 5)) as [L|L].
  - destruct (five_parts _ L) as (a & b & j & c & e & E).
    rewrite (identify_parts _ _ _ _ _ _ E), (U _ _ _ _ _ E).
    unfold render. cbn [mbind M_bind result logged lift app].
    destruct (render_template site "error.html" _) as [html|x]; reflexivity.
  - rewrite (identify_invalid _ L).
    unfold render. cbn [mbind M_bind result logged lift app].
    destruct (render_template site "error.html" _) as [html|x]; reflexivity.
Qed.

Lemma identify_logs_once pn :
  length (logged (identify_court_from_process_number pn)) = 1.
Proof.
  destruct (decide (length (split "." pn) = 5)) as [L|L].
  - destruct (five_parts _ L) as (a & b & j & c & e & E).
    rewrite (identify_parts _ _ _ _ _ _ E). now destruct (lookup_court j c).
  - now rewrite (identify_invalid _ L).
Qed.

(** X16: the detail page of a string that has no listed court (not
    five dot-separated segments, or a third and fourth segment that are not
    a listed pair) is the error page "Não foi possível identificar o
    tribunal para o processo ..."; the only log record is that of the
    identification, and the reply is the same in every world: no request is
    sent. *)
Theorem X16_detail_of_unlisted_court (site : Site) (w : World) (pn html : string) :
  (forall a b j c e, split "." pn = [a; b; j; c; e] -> lookup_court j c = None) ->
  render_template site "error.html" [("error", JStr (NOT_IDENTIFIED +:+ pn))]
  = Return html ->
  result (process_detail site w pn) = Return (Html html) /\
  length (logged (process_detail site w pn)) = 1 /\
  (forall w', process_detail site w' pn = process_detail site w pn).
Proof.
  intros U R. split; [|split].
  - now rewrite (process_detail_unlisted _ _ _ U), R.
  - rewrite (process_detail_unlisted _ _ _ U). apply identify_logs_once.
  - intros w'. now rewrite !(process_detail_unlisted _ _ _ U).
Qed.

Lemma X16_detail_of_unlisted_court_witness :
  result (process_detail plain_site offline_world "0000001-70.2020.9.00.0000")
  = Return (Html ("error.html: " +:+ NOT_IDENTIFIED +:+ "0000001-70.2020.9.00.0000")) /\
  length (logged (process_detail plain_site offline_world "0000001-70.2020.9.00.0000")) = 1 /\
  (forall w', process_detail plain_site w' "0000001-70.2020.9.00.0000"
              = process_detail plain_site offline_world "0000001-70.2020.9.00.0000").
Proof.
  apply (X16_detail_of_unlisted_court plain_site offline_world
           "0000001-70.2020.9.00.0000").
  - intros a b j c e [= <- <- <- <- <-]. reflexivity.
  - reflexivity.
Defined.

Lemma hit_count_accepted response :
  response_accepted response = true -> exists n, hit_count response = Return n.
Proof.
  unfold response_accepted, hit_count. destruct response as [| | | | | |fields]; try discriminate.
  cbn [object_with forallb get mbind outcome_bind].
  rewrite andb_true_r.
  destruct (assoc "hits" fields) as [h|]; cbn [from_option default id].
  - destruct h as [| | | | | |g]; try discriminate.
    cbn [object_with forallb get mbind outcome_bind].
    rewrite andb_true_r. intros H. apply andb_true_iff in H as [_ H].
    destruct (assoc "hits" g) as [[| | | |s|l|[|]]|]; cbn [from_option default id] in *;
      try discriminate H; try (eexists; reflexivity).
  - intros _. eexists. reflexivity.
Qed.

Lemma detail_body_accepted site w pn court endpoint response :
  COURT_ENDPOINTS !! court = Some endpoint ->
  session_post w (API_BASE_URL +:+ "/" +:+ endpoint +:+ "/_search")
    (request_headers w) (exact_match_body pn) 30 = Return response ->
  response_accepted response = true ->
  detail_body site w pn court =
  Html <$> render_template site "process_detail.html"
    (detail_context pn
       (JObj [("total_hits",
               default (JNum 0) (get_path response ["hits"; "total"; "value"]));
              ("processes",
               JArr (normalize_hit <$> items response ["hits"; "hits"]));
              ("metadata", detail_metadata w pn court)])).
Proof.
  intros C P A. unfold detail_body.
  destruct (hit_count_accepted _ A) as [n Hn].
  rewrite (proj2 (query_api_returns_iff w court (exact_match_body pn) response))
    by (exists endpoint, n; auto).
  cbn [mbind outcome_bind].
  destruct (proj2 (format_response_accepted response) A) as [o Ho].
  rewrite Ho, (format_response_Return _ _ Ho). reflexivity.
Qed.

(** X17: [process_detail] checks nothing of the CNJ format: for every
    string with five dot-separated segments whose third and fourth are a
    listed pair, it posts the exact match on that string to the court's
    endpoint, and an accepted answer is rendered with process_detail.html
    from the normalised response and the metadata (process number, court,
    time of the call). *)
Theorem X17_detail_has_no_format_check (site : Site) (w : World)
    (pn a b j c e court endpoint : string) (response : json) (html : string) :
  split "." pn = [a; b; j; c; e] ->
  lookup_court j c = Some court ->
  COURT_ENDPOINTS !! court = Some endpoint ->
  session_post w (API_BASE_URL +:+ "/" +:+ endpoint +:+ "/_search")
    (request_headers w) (exact_match_body pn) 30 = Return response ->
  response_accepted response = true ->
  render_template site "process_detail.html"
    [("process_number", JStr pn);
     ("results",
      JObj [("total_hits",
             default (JNum 0) (get_path response ["hits"; "total"; "value"]));
            ("processes", JArr (normalize_hit <$> items response ["hits"; "hits"]));
            ("metadata",
             JObj [("process_number", JStr pn);
                   ("court", JStr court);
                   ("timestamp", JStr (now_isoformat w))])])]
  = Return html ->
  result (process_detail site w pn) = Return (Html html).
Proof.
  intros E K C P A R.
  rewrite (process_detail_listed _ _ _ _ _ _ _ _ _ E K).
  rewrite (detail_body_accepted _ _ _ _ _ _ C P A).
  unfold detail_context, detail_metadata. now rewrite R.
Qed.

Lemma X17_detail_has_no_format_check_witness :
  result (process_detail plain_site stf_world "x.y.6.00.z")
  = Return (Html "process_detail.html").
Proof.
  apply (X17_detail_has_no_format_check plain_site stf_world "x.y.6.00.z"
           "x" "y" "6" "00" "z" "stf" "api_publica_stf" sample_response);
    reflexivity.
Defined.

Lemma process_query_extracted w text pn court :
  result (extract_process_number text) = Return (Some pn) ->
  lookup_court (substring 16 1 pn) (substring 18 2 pn) = Some court ->
  result (process_query w text) =
  (response ← result (query_api w court (exact_match_body pn));
   formatted_response ← format_response response;
   set_item formatted_response "metadata" (metadata_of w text (Some pn) court)).
Proof.
  intros X K. rewrite process_query_result, resolve_target_result.
  pose proof X as X'. rewrite extract_result in X'. injection X' as ->.
  rewrite (route_extracted text text pn X), K.
  cbn [mbind outcome_bind]. apply fetch_result.
Qed.

Lemma process_query_unlisted w text pn :
  result (extract_process_number text) = Return (Some pn) ->
  lookup_court (substring 16 1 pn) (substring 18 2 pn) = None ->
  process_query w text =
  Run (Raise (Exn ValueError
                ("Could not identify court for process number: " +:+ pn)))
      (logged (resolve_target text)).
Proof.
  intros X K.
  assert (R : result (resolve_target text) =
              Raise (Exn ValueError
                       ("Could not identify court for process number: " +:+ pn))).
  { rewrite resolve_target_result.
    pose proof X as X'. rewrite extract_result in X'. injection X' as ->.
    now rewrite (route_extracted text text pn X), K. }
  unfold process_query, mbind, M_bind. now rewrite R.
Qed.

(** X18: the detail page agrees with a query.  For the identifier
    extracted from a text, when [process_query] returns, the detail page of
    the identifier is rendered from the same total and the same records,
    and from the same metadata but for the query text; when
    [process_query] raises and the court of the identifier is listed, the
    detail page is the error page with the message of that exception. *)
Theorem X18_detail_agrees_with_query (site : Site) (w : World) (text pn : string) :
  result (extract_process_number text) = Return (Some pn) ->
  (forall o,
     result (process_query w text) = Return o ->
     exists total processes court,
       o = JObj [("total_hits", total); ("processes", processes);
                 ("metadata",
                  JObj [("query", JStr text);
                        ("process_number", JStr pn);
                        ("court", JStr court);
                        ("timestamp", JStr (now_isoformat w))])] /\
       forall html,
         render_template site "process_detail.html"
           [("process_number", JStr pn);
            ("results",
             JObj [("total_hits", total); ("processes", processes);
                   ("metadata",
                    JObj [("process_number", JStr pn);
                          ("court", JStr court);
                          ("timestamp", JStr (now_isoformat w))])])]
         = Return html ->
         result (process_detail site w pn) = Return (Html html)) /\
  (forall x,
     result (process_query w text) = Raise x ->
     lookup_court (substring 16 1 pn) (substring 18 2 pn) <> None ->
     result (process_detail site w pn) =
     Html <$> render_template site "error.html"
       [("error", JStr ("Erro ao buscar detalhes do processo: " +:+ message x))]).
Proof.
  intros X. destruct (extracted_fields _ _ X) as (_ & E & _).
  destruct (lookup_court (substring 16 1 pn) (substring 18 2 pn))
    as [court|] eqn:K.
  - pose proof (process_query_extracted w _ _ _ X K) as PQ.
    pose proof (process_detail_listed site w _ _ _ _ _ _ _ E K) as PD.
    unfold detail_body in PD.
    destruct (result (query_api w court (exact_match_body pn))) as [response|x'].
    + cbn [mbind outcome_bind] in PQ, PD.
      destruct (format_response response) as [f|x'] eqn:F.
      * rewrite (format_response_Return _ _ F) in PQ, PD.
        unfold normalize in PQ, PD.
        remember (default (JNum 0) (get_path response ["hits"; "total"; "value"]))
          as total eqn:Et.
        remember (JArr (normalize_hit <$> items response ["hits"; "hits"]))
          as processes eqn:Ep.
        clear Et Ep F.
        unfold set_item, update, metadata_of, detail_context, detail_metadata
          in PQ, PD.
        cbn [String.eqb Ascii.eqb Bool.eqb mbind outcome_bind json_option] in PQ, PD.
        split.
        -- intros o H. rewrite PQ in H. injection H as <-.
           exists total, processes, court. split; [reflexivity |].
           intros html R. rewrite PD. now rewrite R.
        -- intros x H. rewrite PQ in H. discriminate H.
      * cbn [mbind outcome_bind] in PQ, PD. split.
        -- intros o H. rewrite PQ in H. discriminate H.
        -- intros x H _. rewrite PQ in H. injection H as <-. exact PD.
    + cbn [mbind outcome_bind] in PQ, PD. split.
      * intros o H. rewrite PQ in H. discriminate H.
      * intros x H _. rewrite PQ in H. injection H as <-. exact PD.
  - rewrite (process_query_unlisted w _ _ X K). split.
    + intros o H. discriminate H.
    + intros x _ H. now destruct H.
Qed.

Lemma X18_detail_agrees_with_query_witness :
  (forall o,
     result (process_query stf_world "HC 0000005-20.2020.6.00.0000") = Return o ->
     exists total processes court,
       o = JObj [("total_hits", total); ("processes", processes);
                 ("metadata",
                  JObj [("query", JStr "HC 0000005-20.2020.6.00.0000");
                        ("process_number", JStr "0000005-20.2020.6.00.0000");
                        ("court", JStr court);
                        ("timestamp", JStr (now_isoformat stf_world))])] /\
       forall html,
         render_template plain_site "process_detail.html"
           [("process_number", JStr "0000005-20.2020.6.00.0000");
            ("results",
             JObj [("total_hits", total); ("processes", processes);
                   ("metadata",
                    JObj [("process_number", JStr "0000005-20.2020.6.00.0000");
                          ("court", JStr court);
                          ("timestamp", JStr (now_isoformat stf_world))])])]
         = Return html ->
         result (process_detail plain_site stf_world "0000005-20.2020.6.00.0000")
         = Return (Html html)) /\
  (forall x,
     result (process_query stf_world "HC 0000005-20.2020.6.00.0000") = Raise x ->
     lookup_court (substring 16 1 "0000005-20.2020.6.00.0000")
       (substring 18 2 "0000005-20.2020.6.00.0000") <> None ->
     result (process_detail plain_site stf_world "0000005-20.2020.6.00.0000") =
     Html <$> render_template plain_site "error.html"
       [("error", JStr ("Erro ao buscar detalhes do processo: " +:+ message x))]).
Proof.
  apply (X18_detail_agrees_with_query plain_site stf_world
           "HC 0000005-20.2020.6.00.0000" "0000005-20.2020.6.00.0000").
  reflexivity.
Defined.

Lemma result_bind_Return {A B} (m : M A) (f : A -> M B) b :
  result (m ≫= f) = Return b ->
  exists a, result m = Return a /\ result (f a) = Return b.
Proof.
  rewrite result_bind. destruct (result m) as [a|x]; [|discriminate]. eauto.
Qed.

Lemma render_Return site template context r :
  result (render site template context) = Return r -> exists html, r = Html html.
Proof.
  unfold render. cbn [lift result].
  destruct (render_template site template context); [|discriminate].
  intros [= <-]. eauto.
Qed.

Lemma render_cases site template context :
  (exists html, result (render site template context) = Return (Html html)) \/
  (exists e, render_template site template context = Raise e /\
             result (render site template context) = Raise e).
Proof.
  unfold render. cbn [lift result].
  destruct (render_template site template context) as [html|e]; [left | right]; eauto.
Qed.

(** X19: no exception of the agent escapes the handlers; only a failure
    to render the page of the error does.  Whatever [process_detail]
    raises was raised by the rendering of error.html, and whatever [search]
    raises was raised by the rendering of index.html; hence
    [process_detail] returns a page for every string on a site whose
    error.html renders.  (The index.html that this repository writes calls
    now() in its footer, which no handler passes and Flask does not define:
    there [search] does raise after a failure of the agent, and what it
    raises is the failure of that rendering.) *)
Theorem X19_only_rendering_failures_escape (site : Site) (w : World) :
  (forall pn,
     (exists html, result (process_detail site w pn) = Return (Html html)) \/
     (exists context e,
        render_template site "error.html" context = Raise e /\
        result (process_detail site w pn) = Raise e)) /\
  (forall request,
     (exists r, result (search site w request) = Return r) \/
     (exists context e,
        render_template site "index.html" context = Raise e /\
        result (search site w request) = Raise e)) /\
  ((forall context, exists html,
      render_template site "error.html" context = Return html) ->
   forall pn, exists html, result (process_detail site w pn) = Return (Html html)).
Proof.
  assert (D : forall pn,
     (exists html, result (process_detail site w pn) = Return (Html html)) \/
     (exists context e,
        render_template site "error.html" context = Raise e /\
        result (process_detail site w pn) = Raise e)).
  { intros pn. unfold process_detail. rewrite result_try_all.
    match goal with |- context [result ?body] => destruct (result body) as [r|x] eqn:B end.
    - left. apply result_bind_Return in B as (court & _ & B).
      destruct court as [[|c0 court]|].
      + apply render_Return in B as [html ->]. eauto.
      + apply result_bind_Return in B as (query & _ & B).
        apply result_bind_Return in B as (response & _ & B).
        apply result_bind_Return in B as (f & _ & B).
        apply result_bind_Return in B as (results & _ & B).
        apply render_Return in B as [html ->]. eauto.
      + apply render_Return in B as [html ->]. eauto.
    - match goal with
      | |- context [render site ?t ?c] =>
          destruct (render_cases site t c) as [[html R] | (e & R & R')]
      end; [left | right]; eauto. }
  split; [exact D |]. split.
  - intros request. unfold search.
    destruct (String.eqb (method request) "POST").
    + destruct (truthy (default "" (first_value "query" (form request)))).
      * cbn [negb]. eauto.
      * cbn [negb].
        destruct (render_cases site "index.html"
                    [("error", JStr "Por favor, insira uma consulta.")])
          as [[html R] | (e & R & R')]; [left | right]; eauto.
    + destruct (truthy (default "" (first_value "q" (args request)))).
      * cbn [negb]. rewrite result_try_all.
        match goal with |- context [result ?body] => destruct (result body) as [r|x] end.
        -- eauto.
        -- match goal with
           | |- context [render site ?t ?c] =>
               destruct (render_cases site t c) as [[html R] | (e & R & R')]
           end; [left | right]; eauto.
      * cbn [negb]. eauto.
  - intros H pn. destruct (D pn) as [R | (context & e & R & _)]; [exact R |].
    destruct (H context) as [html R']. rewrite R' in R. discriminate R.
Qed.

Lemma X19_only_rendering_failures_escape_witness :
  exists html,
    result (process_detail plain_site offline_world "0000001-70.2020.1.01.0000")
    = Return (Html html).
Proof.
  apply (proj2 (proj2 (X19_only_rendering_failures_escape plain_site offline_world))).
  intros context. eexists. reflexivity.
Defined.

Lemma extracted_truthy text pn :
  result (extract_process_number text) = Return (Some pn) -> truthy text = true.
Proof. destruct text; [discriminate | reflexivity]. Qed.

Lemma search_get site w request text :
  method request <> "POST" ->
  first_value "q" (args request) = Some text ->
  truthy text = true ->
  search site w request =
  try_except
    (results ← process_query w text;
     render site "results.html" (results_context site text results))
    (fun _ => true)
    (fun e =>
       render site "index.html"
         [("query", JStr text);
          ("error", JStr ("Erro ao processar a consulta: " +:+ message e))]).
Proof.
  intros Mth Q T. unfold search.
  apply String.eqb_neq in Mth. rewrite Mth, Q.
  cbn [default from_option id]. now rewrite T.
Qed.

(** X20: a search for a text whose identifier has no listed court
    sends no request: the reply and the log are the same in every world.
    The handler hands index.html the query text and the error "Erro ao
    processar a consulta: Could not identify court for process number:
    ..."; its reply is that page when index.html renders, and the exception
    of the rendering when it does not, as with the index.html that this
    repository writes (its footer calls now(), which nothing defines). *)
Theorem X20_search_of_unlisted_court (site : Site) (w : World)
    (request : Request) (text pn : string) :
  method request <> "POST" ->
  first_value "q" (args request) = Some text ->
  result (extract_process_number text) = Return (Some pn) ->
  lookup_court (substring 16 1 pn) (substring 18 2 pn) = None ->
  result (search site w request) =
    match render_template site "index.html"
            [("query", JStr text);
             ("error",
              JStr ("Erro ao processar a consulta: "
                    +:+ "Could not identify court for process number: " +:+ pn))]
    with
    | Return html => Return (Html html)
    | Raise e => Raise e
    end /\
  (forall w', search site w' request = search site w request).
Proof.
  intros Mth Q X K. pose proof (extracted_truthy _ _ X) as T.
  split.
  - rewrite (search_get _ _ _ _ Mth Q T), result_try_all, result_bind.
    rewrite (process_query_unlisted w _ _ X K).
    cbn [result mbind outcome_bind message]. unfold render. cbn [lift result].
    now destruct (render_template site "index.html" _).
  - intros w'. rewrite !(search_get _ _ _ _ Mth Q T).
    now rewrite !(process_query_unlisted _ _ _ X K).
Qed.

Lemma X20_search_of_unlisted_court_witness :
  result (search plain_site offline_world
            (get_search "recurso 0000001-70.2020.9.00.0000")) =
    match render_template plain_site "index.html"
            [("query", JStr "recurso 0000001-70.2020.9.00.0000");
             ("error",
              JStr ("Erro ao processar a consulta: "
                    +:+ "Could not identify court for process number: "
                    +:+ "0000001-70.2020.9.00.0000"))]
    with
    | Return html => Return (Html html)
    | Raise e => Raise e
    end /\
  (forall w', search plain_site w' (get_search "recurso 0000001-70.2020.9.00.0000")
              = search plain_site offline_world
                  (get_search "recurso 0000001-70.2020.9.00.0000")).
Proof.
  apply (X20_search_of_unlisted_court plain_site offline_world
           (get_search "recurso 0000001-70.2020.9.00.0000")
           "recurso 0000001-70.2020.9.00.0000" "0000001-70.2020.9.00.0000").
  - discriminate.
  - reflexivity.
  - reflexivity.
  - reflexivity.
Defined.

Lemma process_query_accepted w text pn court endpoint query response :
  result (resolve_target text) = Return (pn, court, query) ->
  COURT_ENDPOINTS !! court = Some endpoint ->
  session_post w (API_BASE_URL +:+ "/" +:+ endpoint +:+ "/_search")
    (request_headers w) query 30 = Return response ->
  response_accepted response = true ->
  result (process_query w text) =
  Return (JObj [("total_hits",
                 default (JNum 0) (get_path response ["hits"; "total"; "value"]));
                ("processes",
                 JArr (normalize_hit <$> items response ["hits"; "hits"]));
                ("metadata", metadata_of w text pn court)]).
Proof.
  intros R C P A. rewrite process_query_result, R.
  cbn [mbind outcome_bind]. rewrite fetch_result.
  destruct (hit_count_accepted _ A) as [n Hn].
  rewrite (proj2 (query_api_returns_iff w court query response))
    by (exists endpoint, n; auto).
  cbn [mbind outcome_bind].
  destruct (proj2 (format_response_accepted response) A) as [o Ho].
  rewrite Ho, (format_response_Return _ _ Ho). reflexivity.
Qed.

Lemma process_query_transport w text pn court endpoint query x :
  result (resolve_target text) = Return (pn, court, query) ->
  COURT_ENDPOINTS !! court = Some endpoint ->
  session_post w (API_BASE_URL +:+ "/" +:+ endpoint +:+ "/_search")
    (request_headers w) query 30 = Raise x ->
  result (process_query w text) = Raise x.
Proof.
  intros R C P. rewrite process_query_result, R.
  cbn [mbind outcome_bind]. rewrite fetch_result.
  unfold query_api. rewrite C, send_request_result.
  unfold answer, request_url, DEFAULT_TIMEOUT. now rewrite P.
Qed.

(** X21: a search from end to end.  For a GET request whose text is
    routed to a court, an accepted answer of the session to the one request
    is shown with results.html: the query text, the normalised response
    with the metadata of [process_query], and the time of the rendering.
    An exception of the session is handed to index.html as "Erro ao
    processar a consulta: " followed by its message: the reply is that page
    when index.html renders, and the exception of the rendering when it
    does not (as with the index.html that this repository writes). *)
Theorem X21_search_end_to_end (site : Site) (w : World) (request : Request)
    (text : string) (pn : option string) (court endpoint : string) (query : json) :
  method request <> "POST" ->
  first_value "q" (args request) = Some text ->
  truthy text = true ->
  result (resolve_target text) = Return (pn, court, query) ->
  COURT_ENDPOINTS !! court = Some endpoint ->
  (forall response html,
     session_post w (API_BASE_URL +:+ "/" +:+ endpoint +:+ "/_search")
       (request_headers w) query 30 = Return response ->
     response_accepted response = true ->
     render_template site "results.html"
       [("query", JStr text);
        ("results",
         JObj [("total_hits",
                default (JNum 0) (get_path response ["hits"; "total"; "value"]));
               ("processes",
                JArr (normalize_hit <$> items response ["hits"; "hits"]));
               ("metadata",
                JObj [("query", JStr text);
                      ("process_number", json_option pn);
                      ("court", JStr court);
                      ("timestamp", JStr (now_isoformat w))])]);
        ("timestamp", JStr (now_strftime site))]
     = Return html ->
     result (search site w request) = Return (Html html)) /\
  (forall x,
     session_post w (API_BASE_URL +:+ "/" +:+ endpoint +:+ "/_search")
       (request_headers w) query 30 = Raise x ->
     result (search site w request) =
     match render_template site "index.html"
             [("query", JStr text);
              ("error", JStr ("Erro ao processar a consulta: " +:+ message x))]
     with
     | Return html => Return (Html html)
     | Raise e => Raise e
     end).
Proof.
  intros Mth Q T R C. rewrite (search_get _ _ _ _ Mth Q T), result_try_all, result_bind.
  split.
  - intros response html P A H.
    rewrite (process_query_accepted _ _ _ _ _ _ _ R C P A).
    cbn [mbind outcome_bind]. unfold render, results_context, metadata_of.
    cbn [lift result]. now rewrite H.
  - intros x P. rewrite (process_query_transport _ _ _ _ _ _ _ R C P).
    cbn [mbind outcome_bind]. unfold render. cbn [lift result].
    now destruct (render_template site "index.html" _).
Qed.

Lemma X21_search_end_to_end_witness :
  (forall response html,
     session_post stf_world
       (API_BASE_URL +:+ "/" +:+ "api_publica_stf" +:+ "/_search")
       (request_headers stf_world) (multi_field_body "habeas corpus") 30
     = Return response ->
     response_accepted response = true ->
     render_template plain_site "results.html"
       [("query", JStr "habeas corpus");
        ("results",
         JObj [("total_hits",
                default (JNum 0) (get_path response ["hits"; "total"; "value"]));
               ("processes",
                JArr (normalize_hit <$> items response ["hits"; "hits"]));
               ("metadata",
                JObj [("query", JStr "habeas corpus");
                      ("process_number", json_option None);
                      ("court", JStr "stf");
                      ("timestamp", JStr (now_isoformat stf_world))])]);
        ("timestamp", JStr (now_strftime plain_site))]
     = Return html ->
     result (search plain_site stf_world (get_search "habeas corpus"))
     = Return (Html html)) /\
  (forall x,
     session_post stf_world
       (API_BASE_URL +:+ "/" +:+ "api_publica_stf" +:+ "/_search")
       (request_headers stf_world) (multi_field_body "habeas corpus") 30
     = Raise x ->
     result (search plain_site stf_world (get_search "habeas corpus")) =
     match render_template plain_site "index.html"
             [("query", JStr "habeas corpus");
              ("error", JStr ("Erro ao processar a consulta: " +:+ message x))]
     with
     | Return html => Return (Html html)
     | Raise e => Raise e
     end).
Proof.
  apply (X21_search_end_to_end plain_site stf_world (get_search "habeas corpus")
           "habeas corpus" None "stf" "api_publica_stf"
           (multi_field_body "habeas corpus")).
  - discriminate.
  - reflexivity.
  - reflexivity.
  - reflexivity.
  - reflexivity.
Defined.

End Handlers.

(** ** The printer and the query block of the command line *)

Module Printing.
Import Chars Re Py Tables Agent Identifier Directory Normal Wire Pipeline Console.
Import Laws IdentifierFacts Routing NormalFacts Extras.

Lemma value_bind {A B} (m : IO A) (f : A -> IO B) :
  value (m ≫= f) = (a ← value m; value (f a)).
Proof. unfold mbind at 1, IO_bind. now destruct (value m). Qed.

Lemma trace_bind {A B} (m : IO A) (f : A -> IO B) :
  trace (m ≫= f) =
  trace m ++ match value m with
             | Return a => trace (f a)
             | Raise _ => []
             end.
Proof.
  unfold mbind, IO_bind. destruct (value m); simpl; [reflexivity |].
  now rewrite app_nil_r.
Qed.

Lemma for_each_returns {A} (body : nat -> A -> IO unit) (ok : A -> bool) l :
  (forall i x, ok x = true -> value (body i x) = Return tt) ->
  forallb ok l = true ->
  forall start, value (for_each body start l) = Return tt.
Proof.
  intros H. induction l as [|x l IH]; intros F start; [reflexivity |].
  cbn [forallb] in F. apply andb_true_iff in F as [Hx Hl].
  cbn [for_each]. rewrite value_bind, (H _ _ Hx). cbn [mbind outcome_bind].
  now apply IH.
Qed.

Lemma value_eval {A B} (a : A) (f : A -> IO B) :
  value (eval (Return a) ≫= f) = value (f a).
Proof. reflexivity. Qed.

Lemma value_get {B} fields k d (f : json -> IO B) :
  value (eval (get (JObj fields) k d) ≫= f) = value (f (default d (assoc k fields))).
Proof. reflexivity. Qed.

Lemma value_print {B} text (f : unit -> IO B) :
  value (print text ≫= f) = value (f tt).
Proof. reflexivity. Qed.

Ltac advance :=
  repeat (first [rewrite value_get | rewrite value_print | rewrite value_eval];
          cbv beta; cbn [Py.iter slice_to Py.len]).

Lemma print_lawyer_returns py adv :
  is_object adv = true -> value (print_lawyer py adv) = Return tt.
Proof.
  destruct adv; try discriminate. intros _. unfold print_lawyer. advance.
  reflexivity.
Qed.

Lemma print_movement_returns py j mov :
  is_object mov = true -> value (print_movement py j mov) = Return tt.
Proof.
  destruct mov; try discriminate. intros _. unfold print_movement. advance.
  destruct (truth py _); advance; reflexivity.
Qed.

Lemma has_keys_object keys v : has_keys keys v = true -> is_object v = true.
Proof. destruct v; try discriminate. reflexivity. Qed.

Lemma list_under_assoc k check v :
  list_under k check v = true ->
  exists fields l,
    v = JObj fields /\ assoc k fields = Some (JArr l) /\ forallb check l = true.
Proof.
  unfold list_under. destruct v as [| | | | | |fields]; try discriminate.
  rewrite get_path_one.
  destruct (assoc k fields) as [[| | | | |l|]|] eqn:E; try discriminate.
  intros H. exists fields, l. auto.
Qed.

Lemma formatted_lawyer_object v : formatted_lawyer v = true -> is_object v = true.
Proof. apply has_keys_object. Qed.

Lemma formatted_movement_object v : formatted_movement v = true -> is_object v = true.
Proof. apply has_keys_object. Qed.

Lemma print_party_returns py parte :
  formatted_party parte = true -> value (print_party py parte) = Return tt.
Proof.
  unfold formatted_party. intros H. apply andb_true_iff in H as [_ H].
  apply list_under_assoc in H as (fields & l & -> & E & F).
  unfold print_party. advance. rewrite E. cbn [default from_option id].
  destruct l as [|adv l]; [reflexivity |].
  cbn [truth length Nat.eqb negb]. advance. rewrite ?E.
  cbn [default from_option id Py.iter]. advance.
  apply (for_each_returns _ formatted_lawyer); [|exact F].
  intros _ x Hx. apply print_lawyer_returns, formatted_lawyer_object, Hx.
Qed.

Lemma forallb_take {A} (ok : A -> bool) n l :
  forallb ok l = true -> forallb ok (take n l) = true.
Proof.
  revert n. induction l as [|x l IH]; intros [|n]; try reflexivity.
  cbn [forallb take]. intros H. apply andb_true_iff in H as [Hx Hl].
  now rewrite Hx, IH.
Qed.

Lemma print_process_returns py processes i process n :
  len processes = Return n ->
  formatted_record process = true ->
  value (print_process py processes i process) = Return tt.
Proof.
  unfold formatted_record. intros L H.
  apply andb_true_iff in H as [H Hm]. apply andb_true_iff in H as [_ Hp].
  apply list_under_assoc in Hp as (fields & partes & -> & Ep & Fp).
  apply list_under_assoc in Hm as (fields' & movs & [= <-] & Em & Fm).
  unfold print_process. rewrite L. cbn [get]. rewrite Ep, Em.
  cbn [default from_option id Py.iter slice_to Py.len]. advance.
  rewrite value_bind.
  rewrite (for_each_returns (fun _ => print_party py) formatted_party _
             (fun _ x => print_party_returns py x) Fp).
  cbn [mbind outcome_bind]. advance.
  rewrite value_bind.
  rewrite (for_each_returns (print_movement py) formatted_movement _
             (fun j x Hx => print_movement_returns py j x
                              (formatted_movement_object x Hx))
             (forallb_take _ 5 _ Fm)).
  cbn [mbind outcome_bind]. advance.
  rewrite value_bind.
  destruct (5 <? length movs)%nat; advance; reflexivity.
Qed.

Lemma pretty_print_returns py fields processes :
  from_option is_object true (assoc "metadata" fields) = true ->
  assoc "processes" fields = Some (JArr processes) ->
  forallb formatted_record processes = true ->
  value (pretty_print_results py (JObj fields)) = Return tt.
Proof.
  intros Hm Ep Fp. unfold pretty_print_results. advance.
  rewrite Ep. cbn [default from_option id].
  destruct (assoc "metadata" fields) as [[| | | | | |m]|];
    try discriminate Hm; cbn [default from_option id]; advance.
  - destruct processes as [|p ps]; [reflexivity |].
    cbn [truth length Nat.eqb negb Py.iter]. advance.
    apply (for_each_returns _ formatted_record); [|exact Fp].
    intros i x Hx. now apply (print_process_returns _ _ _ _ (length (p :: ps))).
  - destruct processes as [|p ps]; [reflexivity |].
    cbn [truth length Nat.eqb negb Py.iter]. advance.
    apply (for_each_returns _ formatted_record); [|exact Fp].
    intros i x Hx. now apply (print_process_returns _ _ _ _ (length (p :: ps))).
Qed.

Lemma pretty_print_query_result py w text o :
  result (process_query w text) = Return o ->
  value (pretty_print_results py o) = Return tt.
Proof.
  intros H.
  destruct (process_query_returns _ _ _ H) as (pn & court & query & response & _ & _ & ->).
  eapply pretty_print_returns; [reflexivity | reflexivity |].
  apply forallb_fmap, normalize_hit_formatted.
Qed.

(** X22: the printer accepts what the agent returns.  On every value
    that [format_response] returns, and on every value that
    [process_query] returns, [pretty_print_results] runs to its end without
    raising, whatever the leaves of the response are. *)
Theorem X22_printer_accepts_results (py : Runtime) :
  (forall response o,
     format_response response = Return o ->
     value (pretty_print_results py o) = Return tt) /\
  (forall w text o,
     result (process_query w text) = Return o ->
     value (pretty_print_results py o) = Return tt).
Proof.
  split.
  - intros response o H. rewrite (format_response_Return _ _ H). unfold normalize.
    eapply pretty_print_returns; [reflexivity | reflexivity |].
    apply forallb_fmap, normalize_hit_formatted.
  - intros w text o. apply pretty_print_query_result.
Qed.

Lemma X22_printer_accepts_results_witness :
  value (pretty_print_results plain_runtime (normalize sample_response)) = Return tt.
Proof.
  apply (proj1 (X22_printer_accepts_results plain_runtime) sample_response).
  reflexivity.
Defined.

(** X23: the page of a query without hits.  When [process_query]
    returns a result with no process, the printer writes ten texts: the
    banner, the query text, the extracted identifier (the word None when
    the text holds none), the court the query was routed to, the time of the
    call, the total of the response, a rule and "No results found.". *)
Theorem X23_page_without_hits (py : Runtime) (w : World) (text : string)
    (pn : option string) (court : string) (query o : json) :
  result (resolve_target text) = Return (pn, court, query) ->
  result (process_query w text) = Return o ->
  get_path o ["processes"] = Some (JArr []) ->
  value (pretty_print_results py o) = Return tt /\
  stdout (trace (pretty_print_results py o)) =
    [NL +:+ times "=" 80;
     "DATAJUD QUERY RESULTS";
     times "=" 80;
     "Query: " +:+ text;
     "Process Number: " +:+ default "None" pn;
     "Court: " +:+ court;
     "Timestamp: " +:+ now_isoformat w;
     "Total Hits: " +:+ py_str py (default (JNum 0) (get_path o ["total_hits"]));
     times "-" 80;
     "No results found."].
Proof.
  intros R H E.
  destruct (process_query_returns _ _ _ H) as (pn' & court' & query' & response & R' & _ & ->).
  rewrite R in R'. injection R' as <- <- <-.
  rewrite get_path_one in E. cbn [assoc String.eqb Ascii.eqb Bool.eqb] in E.
  injection E as E. rewrite E. clear E H R.
  rewrite get_path_one. cbn [assoc String.eqb Ascii.eqb Bool.eqb default from_option id].
  generalize (default (JNum 0) (get_path response ["hits"; "total"; "value"])) as total.
  intros total. split; [reflexivity |].
  destruct pn as [pn|]; reflexivity.
Qed.

Lemma X23_page_without_hits_witness :
  value (pretty_print_results plain_runtime
           (JObj [("total_hits", JNum 0); ("processes", JArr []);
                  ("metadata",
                   JObj [("query", JStr "habeas corpus");
                         ("process_number", JNull);
                         ("court", JStr "stf");
                         ("timestamp", JStr "2024-05-02T10:00:00")])]))
  = Return tt /\
  stdout (trace (pretty_print_results plain_runtime
           (JObj [("total_hits", JNum 0); ("processes", JArr []);
                  ("metadata",
                   JObj [("query", JStr "habeas corpus");
                         ("process_number", JNull);
                         ("court", JStr "stf");
                         ("timestamp", JStr "2024-05-02T10:00:00")])]))) =
    [NL +:+ times "=" 80;
     "DATAJUD QUERY RESULTS";
     times "=" 80;
     "Query: habeas corpus";
     "Process Number: None";
     "Court: stf";
     "Timestamp: 2024-05-02T10:00:00";
     "Total Hits: 0";
     times "-" 80;
     "No results found."].
Proof.
  apply (X23_page_without_hits plain_runtime quiet_world "habeas corpus" None "stf"
           (multi_field_body "habeas corpus")); reflexivity.
Defined.

Lemma assoc_update_eq k x fields : assoc k (update k x fields) = Some x.
Proof.
  induction fields as [|[k' v] fields IH]; cbn [update assoc].
  - now rewrite String.eqb_refl.
  - destruct (String.eqb k k') eqn:E; cbn [assoc]; rewrite E; [reflexivity | exact IH].
Qed.

Lemma assoc_update_ne k k' x fields :
  k <> k' -> assoc k' (update k x fields) = assoc k' fields.
Proof.
  intros N. induction fields as [|[k0 v] fields IH]; cbn [update assoc].
  - apply String.eqb_neq in N. rewrite String.eqb_sym in N. now rewrite N.
  - destruct (String.eqb k k0) eqn:E; cbn [assoc].
    + apply String.eqb_eq in E as <-.
      apply String.eqb_neq in N. rewrite String.eqb_sym in N. now rewrite N.
    + now rewrite IH.
Qed.

Lemma bind_ext {A B} (m : IO A) (f g : A -> IO B) :
  (forall a, f a = g a) -> m ≫= f = m ≫= g.
Proof.
  intros H. unfold mbind, IO_bind. destruct (value m); [|reflexivity].
  now rewrite H.
Qed.

Lemma eval_bind {A B} (a : A) (f : A -> IO B) : eval (Return a) ≫= f = f a.
Proof. unfold mbind, IO_bind, eval. cbn. now destruct (f a). Qed.

Ltac peel := repeat (apply bind_ext; intros ?).

Lemma print_process_late_movements py processes i fields l1 l2 :
  take 5 l1 = take 5 l2 -> length l1 = length l2 ->
  print_process py processes i (JObj (update "movimentos" (JArr l1) fields)) =
  print_process py processes i (JObj (update "movimentos" (JArr l2) fields)).
Proof.
  intros T L. unfold print_process. cbn [get].
  rewrite !assoc_update_eq, !assoc_update_ne by discriminate.
  cbn [default from_option id]. peel.
  rewrite !eval_bind. cbn [slice_to]. rewrite T, !eval_bind. peel.
  cbn [Py.len]. now rewrite L.
Qed.

Lemma print_process_len py processes processes' i process :
  len processes = len processes' ->
  print_process py processes i process = print_process py processes' i process.
Proof. intros H. unfold print_process. now rewrite H. Qed.

Lemma for_each_ext {A} (f g : nat -> A -> IO unit) l :
  (forall i a, f i a = g i a) ->
  forall start, for_each f start l = for_each g start l.
Proof.
  intros Hfg. induction l as [|a l IH]; intros start; cbn [for_each];
    [reflexivity |].
  rewrite Hfg. apply bind_ext. intros _. apply IH.
Qed.

Lemma for_each_splice {A} (f g : nat -> A -> IO unit) pre x y post :
  (forall i a, f i a = g i a) -> (forall i, g i x = g i y) ->
  forall start,
    for_each f start (pre ++ x :: post) = for_each g start (pre ++ y :: post).
Proof.
  intros Hfg Hxy. induction pre as [|a pre IH]; intros start; cbn [app for_each].
  - rewrite Hfg, Hxy. apply bind_ext. intros _. now apply for_each_ext.
  - rewrite Hfg. apply bind_ext. intros _. apply IH.
Qed.

(** X24: at most five movements of a process are shown.  Two results
    that differ only in the movements of one process print the same texts
    and end alike when the two lists of movements have the same first five
    elements and the same length: the later movements reach the output only
    through their number. *)
Theorem X24_later_movements_are_not_shown (py : Runtime)
    (fields process : list (string * json)) (before after l1 l2 : list json) :
  take 5 l1 = take 5 l2 ->
  length l1 = length l2 ->
  pretty_print_results py
    (JObj (update "processes"
             (JArr (before ++ JObj (update "movimentos" (JArr l1) process) :: after))
             fields)) =
  pretty_print_results py
    (JObj (update "processes"
             (JArr (before ++ JObj (update "movimentos" (JArr l2) process) :: after))
             fields)).
Proof.
  intros T L. unfold pretty_print_results. cbn [get].
  rewrite !assoc_update_eq, !assoc_update_ne by discriminate.
  cbn [default from_option id]. peel.
  rewrite !eval_bind. peel.
  cbn [truth]. rewrite !length_app. cbn [length].
  rewrite !Nat.add_succ_r. cbn [Nat.eqb negb Py.iter].
  rewrite !eval_bind.
  apply for_each_splice.
  - intros i p. apply print_process_len. cbn [Py.len].
    now rewrite !length_app.
  - intros i. now apply print_process_late_movements.
Qed.

Lemma X24_later_movements_are_not_shown_witness :
  pretty_print_results plain_runtime
    (JObj (update "processes"
             (JArr ([] ++ JObj (update "movimentos"
                                  (JArr (movement_named <$>
                                           ["a"; "b"; "c"; "d"; "e"; "f"]))
                                  []) :: []))
             [])) =
  pretty_print_results plain_runtime
    (JObj (update "processes"
             (JArr ([] ++ JObj (update "movimentos"
                                  (JArr (movement_named <$>
                                           ["a"; "b"; "c"; "d"; "e"; "g"]))
                                  []) :: []))
             [])).
Proof.
  apply (X24_later_movements_are_not_shown plain_runtime [] [] [] []
           (movement_named <$> ["a"; "b"; "c"; "d"; "e"; "f"])
           (movement_named <$> ["a"; "b"; "c"; "d"; "e"; "g"])); reflexivity.
Defined.

Lemma stdout_app a b : stdout (a ++ b) = stdout a ++ stdout b.
Proof. apply omap_app. Qed.

Lemma stdout_logged (l : list record) : stdout (Logged <$> l) = [].
Proof. induction l as [|r l IH]; [reflexivity | exact IH]. Qed.

(** X25: the query block of [main] never raises, and its standard
    output is either the page of the result, when [process_query] returns
    (the printer then runs to its end, so that no error line follows), or
    the one line "Error: " followed by the message of the exception, when
    [process_query] raises. *)
Theorem X25_main_query_output (w : World) (py : Runtime) (query : string) :
  value (main_query w py query) = Return tt /\
  stdout (trace (main_query w py query)) =
    match result (process_query w query) with
    | Return results => stdout (trace (pretty_print_results py results))
    | Raise e => ["Error: " +:+ message e]
    end.
Proof.
  unfold main_query, try_except_Exception.
  rewrite value_bind. cbn [call value].
  destruct (result (process_query w query)) as [results|e] eqn:H;
    cbn [mbind outcome_bind].
  - rewrite (pretty_print_query_result py _ _ _ H), value_bind. cbn [call value].
    rewrite H. cbn [mbind outcome_bind].
    split; [apply (pretty_print_query_result py _ _ _ H) |].
    rewrite trace_bind. cbn [call value trace]. rewrite H.
    now rewrite stdout_app, stdout_logged.
  - cbv zeta. cbn [value print trace]. split; [reflexivity |].
    rewrite trace_bind. cbn [call value trace]. rewrite H.
    now rewrite !stdout_app, stdout_logged.
Qed.

End Printing.
